(** * API Gateway Chargeback Dashboard: period resolver, usage aggregator
      and chargeback engine of [main.py], embedded and verified.

    The development follows the source top-down:
    - Python values the handlers compute with (exceptions, [float], [datetime]);
    - [month_bounds] with the [strptime] it calls;
    - the collections of [schemas.py] and the record store behind [db];
    - the handlers [metrics_overview] and [chargeback_report];
    - the properties of the handlers. *)

From Stdlib Require Import ZArith Bool List String Ascii Lia SpecFloat.
From stdpp Require Import base option list gmap strings.

Local Open Scope string_scope.
Local Open Scope Z_scope.

(* ===================================================================== *)
(** ** Python exceptions and fallible computations *)
(* ===================================================================== *)

(** The exceptions the modelled code can raise.  [HTTPException] is
    FastAPI's, with the two arguments [main.py] passes to it. *)
Inductive exn :=
| HTTPException (status_code : Z) (detail : string)
| ValueError
| OverflowError
| ZeroDivisionError.

Inductive result (A : Type) :=
| Ok (a : A)
| Raise (e : exn).
Arguments Ok {A} a.
Arguments Raise {A} e.

#[global] Instance result_ret : MRet result := fun A a => Ok a.
#[global] Instance result_bind : MBind result := fun A B f r =>
  match r with
  | Ok a => f a
  | Raise e => Raise e
  end.

(* ===================================================================== *)
(** ** Python [float]: IEEE 754 binary64 *)
(* ===================================================================== *)

(** A Python [float] is a binary64 number; the operations are the ones of
    the IEEE 754 specification of the standard library at precision 53 and
    maximal exponent 1024, rounding to nearest, ties to even. *)
Module Float.

Abbreviation t := spec_float.

Definition prec : Z := 53.
Definition emax : Z := 1024.

Definition zero : t := S754_zero false.

Definition add : t -> t -> t := SFadd prec emax.
Definition mul : t -> t -> t := SFmul prec emax.
Definition div : t -> t -> t := SFdiv prec emax.

(** Python's [==] on floats. *)
Definition eqb : t -> t -> bool := SFeqb.

Definition is_nan (x : t) : bool :=
  match x with S754_nan => true | _ => false end.

Definition is_finite (x : t) : bool :=
  match x with S754_zero _ | S754_finite _ _ _ => true | _ => false end.

(** The float nearest to the exact quotient [n / d] of two positive
    integers, with sign [s]. *)
Definition of_ratio (s : bool) (n d : Z) : t :=
  let '(q, e, l) := SFdiv_core_binary prec emax n 0 d 0 in
  binary_round_aux prec emax s q e l.

(** The float nearest to an integer, infinite past the largest float. *)
Definition of_Z (z : Z) : t := binary_normalize prec emax z 0 false.

(** [float(n)] and the conversion of the [int] operand of a mixed
    [int * float]: [OverflowError] when the integer is too large. *)
Definition of_int (z : Z) : result t :=
  match of_Z z with
  | S754_infinity _ => Raise OverflowError
  | f => Ok f
  end.

(** [a / b] on two [int]s (true division): correctly rounded quotient. *)
Definition int_truediv (a b : Z) : result t :=
  if b =? 0 then Raise ZeroDivisionError
  else if a =? 0 then Ok (S754_zero (b <? 0))
  else match of_ratio (xorb (a <? 0) (b <? 0)) (Z.abs a) (Z.abs b) with
       | S754_infinity _ => Raise OverflowError
       | f => Ok f
       end.

(** [int(x)] on a float: truncation towards zero. *)
Definition to_int (x : t) : result Z :=
  match x with
  | S754_zero _ => Ok 0
  | S754_finite s m e =>
      let a := if 0 <=? e then Zpos m * 2 ^ e else Zpos m / 2 ^ (- e) in
      Ok (if s then - a else a)
  | S754_infinity _ => Raise OverflowError
  | S754_nan => Raise ValueError
  end.

(** The integer nearest to [n / d], ties to the even one. *)
Definition half_even (n d : Z) : Z :=
  let q := n / d in
  match 2 * (n mod d) ?= d with
  | Lt => q
  | Eq => if Z.even q then q else q + 1
  | Gt => q + 1
  end.

(** [round(x, 6)]: the exact binary value of [x] is rounded to six
    decimals, ties to even, and the decimal is converted back to the nearest
    float; zeros, infinities and NaN round to themselves and a result that
    rounds to zero keeps the sign of [x]. *)
Definition round6 (x : t) : t :=
  match x with
  | S754_finite s m e =>
      let q := half_even (Zpos m * 10 ^ 6 * 2 ^ Z.max 0 e) (2 ^ Z.max 0 (- e)) in
      if q =? 0 then S754_zero s else of_ratio s q (10 ^ 6)
  | _ => x
  end.

(** The float a decimal literal [n / 10^k] denotes ([n], [d] positive). *)
Definition of_decimal (n d : Z) : t := of_ratio false n d.

End Float.

(** A Python number as the handlers meet them: the fields of a stored
    plan are [float] or [int], those of the fallback plan are [int]. *)
Inductive number :=
| PyInt (z : Z)
| PyFloat (f : Float.t).

(** [float(v)] *)
Definition py_float (v : number) : result Float.t :=
  match v with
  | PyInt z => Float.of_int z
  | PyFloat f => Ok f
  end.

(** [int(v)] *)
Definition py_int (v : number) : result Z :=
  match v with
  | PyInt z => Ok z
  | PyFloat f => Float.to_int f
  end.

(** [n * f] with [n] an [int] and [f] a [float]. *)
Definition int_mul_float (n : Z) (f : Float.t) : result Float.t :=
  x ← Float.of_int n; Ok (Float.mul x f).

(* ===================================================================== *)
(** ** [datetime]: naive calendar timestamps *)
(* ===================================================================== *)

Module DateTime.

Definition MINYEAR : Z := 1.
Definition MAXYEAR : Z := 9999.

Record t := mk {
  year : Z; month : Z; day : Z;
  hour : Z; minute : Z; second : Z; microsecond : Z
}.

Record timedelta := mk_timedelta {
  days : Z; seconds : Z; microseconds : Z
}.

(** [year % 4 == 0 and (year % 100 != 0 or year % 400 == 0)] *)
Definition is_leap (y : Z) : bool :=
  (y mod 4 =? 0) && (negb (y mod 100 =? 0) || (y mod 400 =? 0)).

(** The table [_DAYS_IN_MONTH], indexed from 1. *)
Definition DAYS_IN_MONTH : list Z :=
  [31; 28; 31; 30; 31; 30; 31; 31; 30; 31; 30; 31].

Definition days_in_month (y m : Z) : Z :=
  if (m =? 2) && is_leap y then 29
  else nth (Z.to_nat (m - 1)) DAYS_IN_MONTH 0.

(** The table [_DAYS_BEFORE_MONTH]: running sums of [DAYS_IN_MONTH]. *)
Definition DAYS_BEFORE_MONTH : list Z :=
  [0; 31; 59; 90; 120; 151; 181; 212; 243; 273; 304; 334].

Definition days_before_year (y : Z) : Z :=
  let y' := y - 1 in
  y' * 365 + y' / 4 - y' / 100 + y' / 400.

Definition days_before_month (y m : Z) : Z :=
  nth (Z.to_nat (m - 1)) DAYS_BEFORE_MONTH 0
  + (if (2 <? m) && is_leap y then 1 else 0).

Definition ymd2ord (y m d : Z) : Z :=
  days_before_year y + days_before_month y m + d.

Definition toordinal (x : t) : Z := ymd2ord (year x) (month x) (day x).

(** [_check_date_fields] and [_check_time_fields] of the constructor. *)
Definition check_date_fields (y m d : Z) : bool :=
  (MINYEAR <=? y) && (y <=? MAXYEAR) && (1 <=? m) && (m <=? 12)
  && (1 <=? d) && (d <=? days_in_month y m).

Definition check_time_fields (h mi s us : Z) : bool :=
  (0 <=? h) && (h <=? 23) && (0 <=? mi) && (mi <=? 59)
  && (0 <=? s) && (s <=? 59) && (0 <=? us) && (us <=? 999999).

(** [datetime(year, month, day, hour, minute, second, microsecond)] *)
Definition new (y m d h mi s us : Z) : result t :=
  if check_date_fields y m d && check_time_fields h mi s us
  then Ok (mk y m d h mi s us)
  else Raise ValueError.

(** [self.replace(year=.., month=.., day=..)]: an argument left out keeps
    the field of [self]; the result goes through the constructor. *)
Definition replace (self : t) (y m d : option Z) : result t :=
  new (default (year self) y) (default (month self) m) (default (day self) d)
      (hour self) (minute self) (second self) (microsecond self).

(** Comparison of two naive datetimes: lexicographic on the fields. *)
Definition fields (x : t) : list Z :=
  [year x; month x; day x; hour x; minute x; second x; microsecond x].

Fixpoint lex (a b : list Z) : comparison :=
  match a, b with
  | [], [] => Eq
  | [], _ :: _ => Lt
  | _ :: _, [] => Gt
  | x :: a', y :: b' =>
      match x ?= y with
      | Eq => lex a' b'
      | c => c
      end
  end.

Definition cmp (a b : t) : comparison := lex (fields a) (fields b).

Definition leb (a b : t) : bool :=
  match cmp a b with Gt => false | _ => true end.
Definition ltb (a b : t) : bool :=
  match cmp a b with Lt => true | _ => false end.

(** [timedelta(days, seconds, microseconds)], normalised so that
    [0 <= seconds < 86400] and [0 <= microseconds < 1000000]. *)
Definition new_timedelta (d s us : Z) : timedelta :=
  let s' := s + us / 1000000 in
  mk_timedelta (d + s' / 86400) (s' mod 86400) (us mod 1000000).

(** [a - b] on two datetimes. *)
Definition sub (a b : t) : timedelta :=
  let secs x := second x + minute x * 60 + hour x * 3600 in
  new_timedelta (toordinal a - toordinal b) (secs a - secs b)
                (microsecond a - microsecond b).

End DateTime.

(* ===================================================================== *)
(** ** [str] *)
(* ===================================================================== *)

(** A Python [str] is a sequence of code points.  A [string] of this file
    is the UTF-8 text of a [str], and [code_points] reads the [str] back from
    it.  Bytes that are not UTF-8 are the text of no [str]; they are read as
    U+FFFD. *)
Module Unicode.

Definition byte (c : ascii) : Z := Z.of_nat (nat_of_ascii c).

(** The six bits of a continuation byte [10xxxxxx]. *)
Definition continuation (c : ascii) : option Z :=
  let n := byte c in
  if (128 <=? n) && (n <? 192) then Some (n - 128) else None.

Definition replacement : Z := 0xfffd.

(** A code point in the range its number of bytes is for, and no
    surrogate. *)
Definition scalar (lo hi cp : Z) : Z :=
  if (lo <=? cp) && (cp <=? hi) && negb ((0xd800 <=? cp) && (cp <=? 0xdfff))
  then cp else replacement.

Fixpoint code_points (s : string) : list Z :=
  match s with
  | EmptyString => []
  | String c r =>
      let n := byte c in
      if n <? 128 then n :: code_points r
      else
        match r with
        | EmptyString => [replacement]
        | String c1 r1 =>
            if n <? 192 then replacement :: code_points r
            else if n <? 224 then
              match continuation c1 with
              | Some x1 => scalar 0x80 0x7ff ((n - 192) * 64 + x1) :: code_points r1
              | None => replacement :: code_points r
              end
            else
              match r1 with
              | EmptyString => replacement :: code_points r
              | String c2 r2 =>
                  if n <? 240 then
                    match continuation c1, continuation c2 with
                    | Some x1, Some x2 =>
                        scalar 0x800 0xffff ((n - 224) * 4096 + x1 * 64 + x2)
                        :: code_points r2
                    | _, _ => replacement :: code_points r
                    end
                  else
                    match r2 with
                    | EmptyString => replacement :: code_points r
                    | String c3 r3 =>
                        match continuation c1, continuation c2, continuation c3 with
                        | Some x1, Some x2, Some x3 =>
                            if n <? 248 then
                              scalar 0x10000 0x10ffff
                                ((n - 240) * 262144 + x1 * 4096 + x2 * 64 + x3)
                              :: code_points r3
                            else replacement :: code_points r
                        | _, _, _ => replacement :: code_points r
                        end
                    end
              end
        end
  end.

(** The code points of the digit zero of every script with decimal
    digits: the nine that follow each are its digits one to nine.  This is
    the Unicode 14.0 database of CPython 3.11 (category [Nd]). *)
Definition zeros : list Z :=
  [0x30; 0x660; 0x6f0; 0x7c0; 0x966; 0x9e6; 0xa66; 0xae6;
   0xb66; 0xbe6; 0xc66; 0xce6; 0xd66; 0xde6; 0xe50; 0xed0;
   0xf20; 0x1040; 0x1090; 0x17e0; 0x1810; 0x1946; 0x19d0; 0x1a80;
   0x1a90; 0x1b50; 0x1bb0; 0x1c40; 0x1c50; 0xa620; 0xa8d0; 0xa900;
   0xa9d0; 0xa9f0; 0xaa50; 0xabf0; 0xff10; 0x104a0; 0x10d30; 0x11066;
   0x110f0; 0x11136; 0x111d0; 0x112f0; 0x11450; 0x114d0; 0x11650; 0x116c0;
   0x11730; 0x118e0; 0x11950; 0x11c50; 0x11d50; 0x11da0; 0x16a60; 0x16ac0;
   0x16b50; 0x1d7ce; 0x1d7d8; 0x1d7e2; 0x1d7ec; 0x1d7f6; 0x1e140; 0x1e2f0;
   0x1e950; 0x1fbf0].

Fixpoint digit_of (zs : list Z) (cp : Z) : option Z :=
  match zs with
  | [] => None
  | z :: zs' => if (z <=? cp) && (cp <? z + 10) then Some (cp - z) else digit_of zs' cp
  end.

(** [unicodedata.decimal(chr(cp), None)] *)
Definition decimal (cp : Z) : option Z := digit_of zeros cp.

(** [chr(cp).isdecimal()] *)
Definition isdecimal (cp : Z) : bool :=
  match decimal cp with Some _ => true | None => false end.

End Unicode.

(* ===================================================================== *)
(** ** [datetime.strptime(s, "%Y-%m-%d")] *)
(* ===================================================================== *)

(** [strptime] turns the format into a regular expression, matches it at
    the start of the string with Python's backtracking search, rejects a
    match that stops before the end of the string, and builds the date from
    the three captured groups.  A matcher returns every way to match a
    prefix, as the pairs (matched text, remaining text) in the order the
    backtracking search tries them.  The strings are sequences of code
    points: [\d] finds the decimal digits of every script, and [int] reads
    them. *)
Module Strptime.

Definition matcher := list Z -> list (list Z * list Z).

Definition in_range (lo hi c : ascii) : bool :=
  (nat_of_ascii lo <=? nat_of_ascii c)%nat && (nat_of_ascii c <=? nat_of_ascii hi)%nat.

Definition in_class (lo hi : ascii) (c : Z) : bool :=
  (Unicode.byte lo <=? c) && (c <=? Unicode.byte hi).

(** A character class [[lo-hi]]. *)
Definition cls (lo hi : ascii) : matcher := fun s =>
  match s with
  | c :: r => if in_class lo hi c then [([c], r)] else []
  | [] => []
  end.

(** A literal character. *)
Definition chr (a : ascii) : matcher := cls a a.

(** [\d] *)
Definition digit : matcher := fun s =>
  match s with
  | c :: r => if Unicode.isdecimal c then [([c], r)] else []
  | [] => []
  end.

(** Concatenation and ordered alternation. *)
Definition seq (p q : matcher) : matcher := fun s =>
  '(a, r) ← p s; '(b, r') ← q r; [((a ++ b)%list, r')].

Definition alt (p q : matcher) : matcher := fun s => (p s ++ q s)%list.

(** The groups of the directives:
    [%Y] is [\d\d\d\d], [%m] is [1[0-2]|0[1-9]|[1-9]] and
    [%d] is [3[0-1]|[1-2]\d|0[1-9]|[1-9]| [1-9]]. *)
Definition re_Y : matcher := seq digit (seq digit (seq digit digit)).

Definition re_m : matcher :=
  alt (seq (chr "1") (cls "0" "2"))
      (alt (seq (chr "0") (cls "1" "9")) (cls "1" "9")).

Definition re_d : matcher :=
  alt (seq (chr "3") (cls "0" "1"))
      (alt (seq (cls "1" "2") digit)
           (alt (seq (chr "0") (cls "1" "9"))
                (alt (cls "1" "9") (seq (chr " ") (cls "1" "9"))))).

(** [format_regex.match(data_string)] for the format [%Y-%m-%d]: the first
    match in backtracking order, as the groups and the unmatched rest. *)
Definition format_regex_match (data_string : list Z)
  : option (list Z * list Z * list Z * list Z) :=
  head ('(Y, r1) ← re_Y data_string;
        '(_, r2) ← chr "-" r1;
        '(m, r3) ← re_m r2;
        '(_, r4) ← chr "-" r3;
        '(d, r5) ← re_d r4;
        [(Y, m, d, r5)]).

(** [int(s)] on a string of decimal digits. *)
Definition digit_value (c : Z) : Z := default 0 (Unicode.decimal c).

Fixpoint int_digits (acc : Z) (s : list Z) : Z :=
  match s with
  | [] => acc
  | c :: r => int_digits (10 * acc + digit_value c) r
  end.

Definition int_of (s : list Z) : Z := int_digits 0 s.

(** [datetime.strptime(data_string, "%Y-%m-%d")] *)
Definition strptime (data_string : list Z) : result DateTime.t :=
  match format_regex_match data_string with
  | None => Raise ValueError                     (* does not match format *)
  | Some (Y, m, d, rest) =>
      match rest with
      | _ :: _ => Raise ValueError               (* unconverted data remains *)
      | [] => DateTime.new (int_of Y) (int_of m) (int_of d) 0 0 0 0
      end
  end.

End Strptime.

(* ===================================================================== *)
(** ** Period resolver *)
(* ===================================================================== *)

Definition invalid_period : exn :=
  HTTPException 400 "Invalid period. Use YYYY-MM".

(** [month_bounds(period)]: every exception of [strptime] becomes the
    HTTP 400; the two [replace] calls are outside the [try]. *)
Definition month_bounds (period : string) : result (DateTime.t * DateTime.t) :=
  match Strptime.strptime (Unicode.code_points period ++ Unicode.code_points "-01")%list with
  | Raise _ => Raise invalid_period
  | Ok start =>
      end_ ← (if DateTime.month start =? 12
              then DateTime.replace start (Some (DateTime.year start + 1)) (Some 1) (Some 1)
              else DateTime.replace start None (Some (DateTime.month start + 1)) (Some 1));
      Ok (start, end_)
  end.

(* ===================================================================== *)
(** ** Collections ([schemas.py]) *)
(* ===================================================================== *)

(** One record per collection, with the fields and field types of the
    Pydantic models; identifiers are the strings the API hands out. *)

Module ApiService.
Record t := mk {
  name : string; version : string; owner : option string;
  lifecycle_stage : string; rate_limit_per_min : option Z; status : string
}.
End ApiService.

Module Plan.
Record t := mk {
  name : string; tier : string;
  monthly_price : Float.t; included_calls : Z; overage_price_per_call : Float.t
}.
End Plan.

Module Consumer.
Record t := mk {
  name : string; email : string; company : option string; plan_id : option string
}.
End Consumer.

Module Subscription.
Record t := mk {
  consumer_id : string; api_id : string; plan_id : string;
  start_date : option DateTime.t; status : string
}.
End Subscription.

Module UsageEvent.
Record t := mk {
  api_id : string; consumer_id : string; timestamp : DateTime.t;
  latency_ms : option Z; status_code : Z;
  bytes_in : option Z; bytes_out : option Z
}.
End UsageEvent.

(** A line of the chargeback report: the keys of the dictionary
    [chargeback_report] appends, which are those of [schemas.Chargeback]. *)
Module Chargeback.
Record t := mk {
  consumer_id : string; api_id : string; plan_id : string; period : string;
  calls : Z; overage_calls : Z; amount : Float.t
}.
End Chargeback.

(** A stored document: the fields and the [_id] the store gave it, as the
    string [str(doc["_id"])]. *)
Record doc (A : Type) := mk_doc { _id : string; fields : A }.
Arguments mk_doc {A} _ _.
Arguments _id {A} _.
Arguments fields {A} _.

(* ===================================================================== *)
(** ** Record store *)
(* ===================================================================== *)

Record Db := mk_db {
  apiservice : list (doc ApiService.t);
  plan : list (doc Plan.t);
  consumer : list (doc Consumer.t);
  subscription : list (doc Subscription.t);
  usageevent : list (doc UsageEvent.t)
}.

Inductive collection :=
| c_apiservice | c_plan | c_consumer | c_subscription | c_usageevent.

(** The calls a handler makes on a collection of [db]. *)
Inductive db_call :=
| find (c : collection)
| count_documents (c : collection)
| aggregate (c : collection)
| update_one (c : collection).

Definition is_read (op : db_call) : bool :=
  match op with
  | find _ | count_documents _ | aggregate _ => true
  | update_one _ => false
  end.

Definition collection_of (op : db_call) : collection :=
  match op with
  | find c | count_documents c | aggregate c | update_one c => c
  end.

(** What a handler runs against: the store and the calls made so far. *)
Record world := mk_world { db : Db; calls : list db_call }.

Definition logged (op : db_call) (w : world) : world :=
  mk_world (db w) (calls w ++ [op]).

(** A handler: it returns or raises, and leaves a world behind. *)
Definition M (A : Type) : Type := world -> result A * world.

#[global] Instance M_ret : MRet M := fun A a w => (Ok a, w).
#[global] Instance M_bind : MBind M := fun A B f m w =>
  match m w with
  | (Ok a, w') => f a w'
  | (Raise e, w') => (Raise e, w')
  end.

Definition lift {A} (r : result A) : M A := fun w => (r, w).

(** Query documents.  A key left out of the query is [None]. *)
Record usage_query := mk_usage_query {
  q_consumer_id : option string;
  q_api_id : option string;
  q_timestamp : option (DateTime.t * DateTime.t)   (* [$gte], [$lt] *)
}.

Record subscription_query := mk_subscription_query {
  q_status : option string;
  q_start_date_lte : option DateTime.t             (* [$lte] *)
}.

Definition eq_or_any (q : option string) (v : string) : bool :=
  match q with
  | None => true
  | Some x => String.eqb v x
  end.

Definition usage_matches (q : usage_query) (e : doc UsageEvent.t) : bool :=
  eq_or_any (q_consumer_id q) (UsageEvent.consumer_id (fields e))
  && eq_or_any (q_api_id q) (UsageEvent.api_id (fields e))
  && match q_timestamp q with
     | None => true
     | Some (gte, lt) =>
         DateTime.leb gte (UsageEvent.timestamp (fields e))
         && DateTime.ltb (UsageEvent.timestamp (fields e)) lt
     end.

(** A comparison operator matches only a field that holds a date: a
    subscription without [start_date] matches no [$lte]. *)
Definition subscription_matches (q : subscription_query) (s : doc Subscription.t) : bool :=
  eq_or_any (q_status q) (Subscription.status (fields s))
  && match q_start_date_lte q with
     | None => true
     | Some bound =>
         match Subscription.start_date (fields s) with
         | Some d => DateTime.leb d bound
         | None => false
         end
     end.

(** The single group of the [$group] stage with [_id: None]. *)
Record usage_group := mk_usage_group {
  avg_latency : option Float.t; success : Z; total : Z
}.

Definition sumZ (l : list Z) : Z := foldr Z.add 0 l.

(** [$avg]: the mean of the values present, as the quotient of their sum
    by their number in double precision; null when there is none. *)
Definition mongo_avg (l : list Z) : option Float.t :=
  match l with
  | [] => None
  | _ => Some (Float.div (Float.of_Z (sumZ l)) (Float.of_Z (Z.of_nat (length l))))
  end.

Definition is_success (e : doc UsageEvent.t) : bool :=
  UsageEvent.status_code (fields e) <? 400.

(** [$match] then [$group]: no group at all when nothing matches. *)
Definition group_usage (evs : list (doc UsageEvent.t)) : list usage_group :=
  match evs with
  | [] => []
  | _ =>
      [mk_usage_group
         (mongo_avg (omap (fun e => UsageEvent.latency_ms (fields e)) evs))
         (Z.of_nat (length (filter (fun e => is_success e = true) evs)))
         (Z.of_nat (length evs))]
  end.

(** Modelled from the spec: the operations of the Record Store behind
    [db] (the [database] module is not part of the sources): filtered scan,
    filtered count and grouped aggregation read the store and leave it as it
    is; [update_one] rewrites the first document with the given [_id].  A
    scan returns the documents that match in the order the store lists them
    at that invocation; what is proved of two invocations is proved up to
    the order of the documents. *)
Definition db_find_plan : M (list (doc Plan.t)) := fun w =>
  (Ok (plan (db w)), logged (find c_plan) w).

Definition db_find_subscription (q : subscription_query)
  : M (list (doc Subscription.t)) := fun w =>
  (Ok (filter (fun s => subscription_matches q s = true) (subscription (db w))),
   logged (find c_subscription) w).

Definition db_count_usageevent (q : usage_query) : M Z := fun w =>
  (Ok (Z.of_nat (length (filter (fun e => usage_matches q e = true) (usageevent (db w))))),
   logged (count_documents c_usageevent) w).

Definition db_aggregate_usageevent (q : usage_query) : M (list usage_group) := fun w =>
  (Ok (group_usage (filter (fun e => usage_matches q e = true) (usageevent (db w)))),
   logged (aggregate c_usageevent) w).

Definition db_count_apiservice : M Z := fun w =>
  (Ok (Z.of_nat (length (apiservice (db w)))), logged (count_documents c_apiservice) w).

Definition db_count_consumer : M Z := fun w =>
  (Ok (Z.of_nat (length (consumer (db w)))), logged (count_documents c_consumer) w).

Definition db_count_subscription (q : subscription_query) : M Z := fun w =>
  (Ok (Z.of_nat (length (filter (fun s => subscription_matches q s = true)
                                (subscription (db w))))),
   logged (count_documents c_subscription) w).

Fixpoint set_first (id : string) (p : Plan.t) (l : list (doc Plan.t))
  : list (doc Plan.t) * Z :=
  match l with
  | [] => ([], 0)
  | d :: l' =>
      if String.eqb (_id d) id then (mk_doc id p :: l', 1)
      else let '(l'', n) := set_first id p l' in (d :: l'', n)
  end.

(** [db["plan"].update_one({"_id": id}, {"$set": p})], returning
    [matched_count]. *)
Definition db_update_one_plan (id : string) (p : Plan.t) : M Z := fun w =>
  let '(plans, n) := set_first id p (plan (db w)) in
  let d := db w in
  (Ok n,
   logged (update_one c_plan)
     (mk_world (mk_db (apiservice d) plans (consumer d) (subscription d) (usageevent d))
               (calls w))).

(* ===================================================================== *)
(** ** Handlers *)
(* ===================================================================== *)

(** *** [PUT /plans/{plan_id}] *)

Definition is_hex (c : ascii) : bool :=
  Strptime.in_range "0" "9" c || Strptime.in_range "a" "f" c
  || Strptime.in_range "A" "F" c.

Fixpoint all_hex (s : string) : bool :=
  match s with
  | EmptyString => true
  | String c r => is_hex c && all_hex r
  end.

(** [bytes.fromhex]: pairs of hexadecimal digits, with white space allowed
    between the pairs. *)
Definition hex_value (c : ascii) : option Z :=
  let n := Z.of_nat (nat_of_ascii c) in
  if Strptime.in_range "0" "9" c then Some (n - 48)
  else if Strptime.in_range "a" "f" c then Some (n - 87)
  else if Strptime.in_range "A" "F" c then Some (n - 55)
  else None.

Definition is_space (c : ascii) : bool :=
  (nat_of_ascii c =? 32)%nat || Strptime.in_range "009" "013" c.

Fixpoint fromhex (s : string) : option (list Z) :=
  match s with
  | EmptyString => Some []
  | String c r =>
      if is_space c then fromhex r
      else match hex_value c, r with
           | Some top, String c' r' =>
               match hex_value c' with
               | Some bot => cons (16 * top + bot) <$> fromhex r'
               | None => None
               end
           | _, _ => None
           end
  end.

(** [binascii.hexlify]: two lower-case digits a byte. *)
Definition hex_digit (n : Z) : ascii :=
  if n <? 10 then ascii_of_nat (Z.to_nat (48 + n)) else ascii_of_nat (Z.to_nat (87 + n)).

Fixpoint hexlify (bytes : list Z) : string :=
  match bytes with
  | [] => EmptyString
  | b :: bytes' => String (hex_digit (b / 16)) (String (hex_digit (b mod 16)) (hexlify bytes'))
  end.

(** [oid(oid_str)]: [ObjectId] takes a string of 24 characters that
    [bytes.fromhex] reads; the identifier is held as [str] prints it, in
    lower case.  Every other string is the HTTP 400. *)
Definition oid (oid_str : string) : result string :=
  if (String.length oid_str =? 24)%nat
  then match fromhex oid_str with
       | Some bytes => Ok (hexlify bytes)
       | None => Raise (HTTPException 400 "Invalid ObjectId")
       end
  else Raise (HTTPException 400 "Invalid ObjectId").

Definition update_plan (plan_id : string) (p : Plan.t) : M bool :=
  id ← lift (oid plan_id);
  matched_count ← db_update_one_plan id p;
  if matched_count =? 0 then lift (Raise (HTTPException 404 "Plan not found"))
  else mret true.

(** *** [GET /metrics/overview] *)

Record overview := mk_overview {
  total_calls : Z;
  avg_latency_ms : option Float.t;
  success_rate : option Float.t;
  apis : Z;
  consumers : Z;
  active_subscriptions : Z
}.

Definition no_filter : usage_query := mk_usage_query None None None.

(** [filt = {}], replaced by the time bound when [period] is given (a
    missing or empty [period] is falsy). *)
Definition overview_filter (period : option string) : result usage_query :=
  match period with
  | None | Some EmptyString => Ok no_filter
  | Some p =>
      '(start, end_) ← month_bounds p;
      Ok (mk_usage_query None None (Some (start, end_)))
  end.

Definition metrics_overview (period : option string) : M overview :=
  filt ← lift (overview_filter period);
  total_calls ← db_count_usageevent filt;
  agg ← db_aggregate_usageevent filt;
  let avg_latency := match agg with g :: _ => avg_latency g | [] => None end in
  let success := match agg with g :: _ => success g | [] => 0 end in
  success_rate ← lift (if total_calls =? 0 then Ok None
                       else r ← Float.int_truediv success total_calls; Ok (Some r));
  apis ← db_count_apiservice;
  consumers ← db_count_consumer;
  active_subscriptions ← db_count_subscription (mk_subscription_query (Some "active") None);
  mret (mk_overview total_calls avg_latency success_rate apis consumers active_subscriptions).

(** *** [GET /chargeback] *)

(** The three keys the handler reads from [plan], as Python numbers.  A
    stored plan carries all three, so [plan.get(key, 0)] is its field. *)
Record pricing := mk_pricing {
  monthly_price : number;
  included_calls : number;
  overage_price_per_call : number
}.

Definition stored_plan (p : doc Plan.t) : pricing :=
  mk_pricing (PyFloat (Plan.monthly_price (fields p)))
             (PyInt (Plan.included_calls (fields p)))
             (PyFloat (Plan.overage_price_per_call (fields p))).

(** [{"monthly_price": 0, "included_calls": 0, "overage_price_per_call": 0}] *)
Definition fallback_plan : pricing := mk_pricing (PyInt 0) (PyInt 0) (PyInt 0).

(** [{str(p["_id"]): p for p in ...}]: a later document replaces an earlier
    one under the same key. *)
Definition plans_by_id (l : list (doc Plan.t)) : gmap string (doc Plan.t) :=
  foldl (fun acc p => <[_id p := p]> acc) ∅ l.

(** [plans.get(plan_id)], with the fallback when there is none. *)
Definition resolve_plan (plans : gmap string (doc Plan.t)) (plan_id : string) : pricing :=
  match plans !! plan_id with
  | Some p => stored_plan p
  | None => fallback_plan
  end.

Definition usage_of (s : doc Subscription.t) (start end_ : DateTime.t) : usage_query :=
  mk_usage_query (Some (Subscription.consumer_id (fields s)))
                 (Some (Subscription.api_id (fields s)))
                 (Some (start, end_)).

(** The body of the loop over [subs]. *)
Definition chargeback_line (period : string) (start end_ : DateTime.t)
    (plans : gmap string (doc Plan.t)) (s : doc Subscription.t) : M Chargeback.t :=
  let consumer_id := Subscription.consumer_id (fields s) in
  let api_id := Subscription.api_id (fields s) in
  let plan_id := Subscription.plan_id (fields s) in
  let plan := resolve_plan plans plan_id in
  usage_count ← db_count_usageevent (usage_of s start end_);
  included ← lift (py_int (included_calls plan));
  let overage := Z.max 0 (usage_count - included) in
  base ← lift (py_float (monthly_price plan));
  price ← lift (py_float (overage_price_per_call plan));
  extra ← lift (int_mul_float overage price);
  let amount := Float.add base extra in
  mret (Chargeback.mk consumer_id api_id plan_id period
                      usage_count overage (Float.round6 amount)).

Fixpoint chargeback_loop (period : string) (start end_ : DateTime.t)
    (plans : gmap string (doc Plan.t)) (subs : list (doc Subscription.t))
    (report : list Chargeback.t) : M (list Chargeback.t) :=
  match subs with
  | [] => mret report
  | s :: subs' =>
      line ← chargeback_line period start end_ plans s;
      chargeback_loop period start end_ plans subs' (report ++ [line])
  end.

Record chargeback := mk_chargeback {
  period : string;
  items : list Chargeback.t
}.

Definition active_by (end_ : DateTime.t) : subscription_query :=
  mk_subscription_query (Some "active") (Some end_).

Definition chargeback_report (period : string) : M chargeback :=
  '(start, end_) ← lift (month_bounds period);
  plan_docs ← db_find_plan;
  let plans := plans_by_id plan_docs in
  subs ← db_find_subscription (active_by end_);
  report ← chargeback_loop period start end_ plans subs [];
  mret (mk_chargeback period report).

(* ===================================================================== *)
(** ** Vocabulary of the specification *)
(* ===================================================================== *)

(** *** Period tokens *)

Definition digit_char (n : Z) : ascii := ascii_of_nat (Z.to_nat (48 + n)).

(** [f"{y:04d}-{m:02d}"], the token [YYYY-MM] of year [y] and month [m]. *)
Definition period_token (y m : Z) : string :=
  String (digit_char (y / 1000 mod 10))
    (String (digit_char (y / 100 mod 10))
       (String (digit_char (y / 10 mod 10))
          (String (digit_char (y mod 10))
             (String "-"
                (String (digit_char (m / 10 mod 10))
                   (String (digit_char (m mod 10)) EmptyString)))))).

Definition is_digit (c : ascii) : bool := Strptime.in_range "0" "9" c.

Definition year_text (a b c d : ascii) : bool :=
  is_digit a && is_digit b && is_digit c && is_digit d
  && negb (Strptime.int_of (map Unicode.byte [a; b; c; d]) =? 0).

(** A token [YYYY-MM]: four digits that are not [0000], a dash, and a
    month [01] to [12]. *)
Definition strict_period (s : string) : bool :=
  match s with
  | String a (String b (String c (String d (String e (String f (String g EmptyString)))))) =>
      year_text a b c d && Strptime.in_range "-" "-" e
      && ((Strptime.in_range "1" "1" f && Strptime.in_range "0" "2" g)
          || (Strptime.in_range "0" "0" f && Strptime.in_range "1" "9" g))
  | _ => false
  end.

(** The year and the month a token denotes: four decimal digits of any
    script, a dash, and a month [01] to [12] or [1] to [9]. *)
Definition period_value (s : string) : option (Z * Z) :=
  match Unicode.code_points s with
  | [a; b; c; d; e; f; g] =>
      if Unicode.isdecimal a && Unicode.isdecimal b && Unicode.isdecimal c
         && Unicode.isdecimal d && Strptime.in_class "-" "-" e
         && ((Strptime.in_class "1" "1" f && Strptime.in_class "0" "2" g)
             || (Strptime.in_class "0" "0" f && Strptime.in_class "1" "9" g))
      then Some (Strptime.int_of [a; b; c; d], Strptime.int_of [f; g])
      else None
  | [a; b; c; d; e; f] =>
      if Unicode.isdecimal a && Unicode.isdecimal b && Unicode.isdecimal c
         && Unicode.isdecimal d && Strptime.in_class "-" "-" e
         && Strptime.in_class "1" "9" f
      then Some (Strptime.int_of [a; b; c; d], Strptime.int_of [f])
      else None
  | _ => None
  end.

(** The tokens [month_bounds] takes: those that denote a month of a year
    other than zero. *)
Definition lenient_period (s : string) : bool :=
  match period_value s with
  | Some (y, _) => negb (y =? 0)
  | None => false
  end.

Definition first_instant (y m : Z) : DateTime.t := DateTime.mk y m 1 0 0 0 0.

(** *** Chargeback lines *)

(** "status == active and start_date <= end" *)
Definition is_selected (end_ : DateTime.t) (s : doc Subscription.t) : bool :=
  String.eqb (Subscription.status (fields s)) "active"
  && match Subscription.start_date (fields s) with
     | Some d => DateTime.leb d end_
     | None => false
     end.

Definition selected (d : Db) (end_ : DateTime.t) : list (doc Subscription.t) :=
  filter (fun s => is_selected end_ s = true) (subscription d).

(** "timestamp in [start, end)" *)
Definition in_period (start end_ ts : DateTime.t) : bool :=
  DateTime.leb start ts && DateTime.ltb ts end_.

(** The usage events of a subscription in a period. *)
Definition billable (s : doc Subscription.t) (start end_ : DateTime.t)
    (e : doc UsageEvent.t) : Prop :=
  UsageEvent.api_id (fields e) = Subscription.api_id (fields s)
  /\ UsageEvent.consumer_id (fields e) = Subscription.consumer_id (fields s)
  /\ in_period start end_ (UsageEvent.timestamp (fields e)) = true.

#[global] Instance billable_dec s start end_ e : Decision (billable s start end_ e).
Proof. unfold billable. apply _. Defined.

Definition usage_count (d : Db) (s : doc Subscription.t) (start end_ : DateTime.t) : Z :=
  Z.of_nat (length (filter (billable s start end_) (usageevent d))).

(** The fields of the resolved plan of a subscription: those of the plan
    stored under its [plan_id], zeros when there is none. *)
Record terms := mk_terms {
  t_monthly_price : Float.t;
  t_included_calls : Z;
  t_overage_price_per_call : Float.t
}.

Definition plan_terms (d : Db) (s : doc Subscription.t) : terms :=
  match plans_by_id (plan d) !! Subscription.plan_id (fields s) with
  | Some p => mk_terms (Plan.monthly_price (fields p)) (Plan.included_calls (fields p))
                       (Plan.overage_price_per_call (fields p))
  | None => mk_terms Float.zero 0 Float.zero
  end.

(** "amount = monthly_price + overage * overage_price_per_call, rounded to
    6 decimal places" *)
Definition billed (t : terms) (overage : Z) : Float.t :=
  Float.round6 (Float.add (t_monthly_price t)
                          (Float.mul (Float.of_Z overage) (t_overage_price_per_call t))).

(** The line the specification describes for a selected subscription. *)
Definition expected_line (period : string) (start end_ : DateTime.t) (d : Db)
    (s : doc Subscription.t) : Chargeback.t :=
  let t := plan_terms d s in
  let n := usage_count d s start end_ in
  let overage := Z.max 0 (n - t_included_calls t) in
  Chargeback.mk (Subscription.consumer_id (fields s)) (Subscription.api_id (fields s))
                (Subscription.plan_id (fields s)) period n overage (billed t overage).

(** *** Stored integers fit in 64 bits (BSON), and so does a count. *)
Definition is_int64 (z : Z) : bool := (- 2 ^ 63 <=? z) && (z <? 2 ^ 63).

Definition int64_store (d : Db) : bool :=
  is_int64 (Z.of_nat (length (usageevent d)))
  && forallb (fun p => is_int64 (Plan.included_calls (fields p))) (plan d).

(** *** Overview metrics *)

Definition matching (q : usage_query) (d : Db) : list (doc UsageEvent.t) :=
  filter (fun e => usage_matches q e = true) (usageevent d).

Definition successes (evs : list (doc UsageEvent.t)) : Z :=
  Z.of_nat (length (filter (fun e => UsageEvent.status_code (fields e) < 400) evs)).

Definition latencies (evs : list (doc UsageEvent.t)) : list Z :=
  omap (fun e => UsageEvent.latency_ms (fields e)) evs.

(** *** The calls a read-only handler may make *)
Definition chargeback_reads (op : db_call) : Prop :=
  op = find c_plan \/ op = find c_subscription \/ op = count_documents c_usageevent.

(* ===================================================================== *)
(** ** A small store *)
(* ===================================================================== *)

(** One plan (2 included calls, 100 a month, 0.0005 a call over), six
    subscriptions and nine usage events around January 2024. *)
Module Scenario.

Definition at_ (y m d h mi s us : Z) : DateTime.t := DateTime.mk y m d h mi s us.

Definition pro : doc Plan.t :=
  mk_doc "64b000000000000000000001"
         (Plan.mk "Pro" "pro" (Float.of_Z 100) 2 (Float.of_decimal 5 10000)).

Definition sub (id consumer plan_id : string) (start : option DateTime.t)
    (status : string) : doc Subscription.t :=
  mk_doc id (Subscription.mk consumer "a1" plan_id start status).

Definition s_jan := sub "s1" "c1" (_id pro) (Some (at_ 2024 1 1 0 0 0 0)) "active".
Definition s_dangling :=
  sub "s2" "c2" "64b0000000000000000000ff" (Some (at_ 2023 6 15 12 0 0 0)) "active".
Definition s_paused := sub "s3" "c3" (_id pro) (Some (at_ 2024 1 10 0 0 0 0)) "paused".
Definition s_at_end := sub "s4" "c4" (_id pro) (Some (at_ 2024 2 1 0 0 0 0)) "active".
Definition s_after_end := sub "s5" "c5" (_id pro) (Some (at_ 2024 2 1 0 0 0 1)) "active".
Definition s_no_start := sub "s6" "c6" (_id pro) None "active".

Definition evt (id api consumer : string) (ts : DateTime.t) (latency : option Z)
    (code : Z) : doc UsageEvent.t :=
  mk_doc id (UsageEvent.mk api consumer ts latency code (Some 0) (Some 0)).

Definition events : list (doc UsageEvent.t) :=
  [ evt "e1" "a1" "c1" (at_ 2024 1 1 0 0 0 0) (Some 120) 200;
    evt "e2" "a1" "c1" (at_ 2024 1 15 9 30 0 0) None 200;
    evt "e3" "a1" "c1" (at_ 2024 1 20 9 30 0 0) (Some 81) 500;
    evt "e4" "a1" "c1" (at_ 2024 1 31 23 59 59 999999) (Some 40) 404;
    evt "e5" "a1" "c1" (at_ 2024 2 1 0 0 0 0) (Some 7) 200;
    evt "e6" "a2" "c1" (at_ 2024 1 5 0 0 0 0) (Some 9) 200;
    evt "e7" "a1" "c2" (at_ 2024 1 2 0 0 0 0) None 200;
    evt "e8" "a1" "c2" (at_ 2024 1 3 0 0 0 0) None 302;
    evt "e9" "a1" "c2" (at_ 2023 12 31 23 59 59 999999) (Some 3) 200 ].

Definition store : Db :=
  mk_db [] [pro] []
        [s_jan; s_dangling; s_paused; s_at_end; s_after_end; s_no_start]
        events.

Definition w0 : world := mk_world store [].

(** The same store with a plan priced at 0.1234567 a month. *)
Definition fine : doc Plan.t :=
  mk_doc (_id pro) (Plan.mk "Fine" "basic" (Float.of_decimal 1234567 10000000) 2
                            (Float.of_decimal 5 10000)).

Definition fine_store : Db :=
  mk_db [] [fine] [] [s_at_end] events.

Definition january_start : DateTime.t := at_ 2024 1 1 0 0 0 0.
Definition january_end : DateTime.t := at_ 2024 2 1 0 0 0 0.

End Scenario.

(* ===================================================================== *)
(** ** Further handlers *)
(* ===================================================================== *)

(** *** Collections by name *)

(** A BSON date holds milliseconds: of the microseconds of a [datetime]
    the store keeps the whole milliseconds. *)
Definition bson_date (t : DateTime.t) : DateTime.t :=
  DateTime.mk (DateTime.year t) (DateTime.month t) (DateTime.day t)
              (DateTime.hour t) (DateTime.minute t) (DateTime.second t)
              (1000 * (DateTime.microsecond t / 1000)).

(** A collection of the store, as the handlers name it: its documents,
    how to put other documents in their place, and what the store keeps of a
    record. *)
Record table (A : Type) := mk_table {
  docs : Db -> list (doc A);
  with_docs : list (doc A) -> Db -> Db;
  bson : A -> A
}.
Arguments mk_table {A} _ _ _.
Arguments docs {A} _ _.
Arguments with_docs {A} _ _ _.
Arguments bson {A} _ _.

Definition apiservice_table : table ApiService.t :=
  mk_table apiservice
    (fun l d => mk_db l (plan d) (consumer d) (subscription d) (usageevent d))
    id.
Definition plan_table : table Plan.t :=
  mk_table plan
    (fun l d => mk_db (apiservice d) l (consumer d) (subscription d) (usageevent d))
    id.
Definition consumer_table : table Consumer.t :=
  mk_table consumer
    (fun l d => mk_db (apiservice d) (plan d) l (subscription d) (usageevent d))
    id.
Definition subscription_table : table Subscription.t :=
  mk_table subscription
    (fun l d => mk_db (apiservice d) (plan d) (consumer d) l (usageevent d))
    (fun s => Subscription.mk (Subscription.consumer_id s) (Subscription.api_id s)
                              (Subscription.plan_id s)
                              (bson_date <$> Subscription.start_date s)
                              (Subscription.status s)).
Definition usageevent_table : table UsageEvent.t :=
  mk_table usageevent
    (fun l d => mk_db (apiservice d) (plan d) (consumer d) (subscription d) l)
    (fun e => UsageEvent.mk (UsageEvent.api_id e) (UsageEvent.consumer_id e)
                            (bson_date (UsageEvent.timestamp e))
                            (UsageEvent.latency_ms e) (UsageEvent.status_code e)
                            (UsageEvent.bytes_in e) (UsageEvent.bytes_out e)).

(** Modelled from the spec: [create_document] and [get_documents] of the
    [database] module, which is not part of the sources, as the insert and
    the filtered scan of the Record Store.  [create_document] stores what
    the store keeps of the record under the identifier the store gives it,
    [new_id], and returns that identifier.  A scan has no order from one
    invocation to the next: [place] is where the scans to come find the new
    document among the [place] first of those there and the others.
    [get_documents] returns the documents that match, each with its [_id] as
    a string, which is all [serialize] changes. *)
Definition create_document {A} (t : table A) (place : nat) (new_id : string) (data : A)
  : M string :=
  fun w =>
    let l := docs t (db w) in
    (Ok new_id,
     mk_world (with_docs t (take place l ++ mk_doc new_id (bson t data) :: drop place l)
                         (db w))
              (calls w)).

Definition get_documents {A} (t : table A) (matches : doc A -> bool) : M (list (doc A)) :=
  fun w => (Ok (filter (fun d => matches d = true) (docs t (db w))), w).

(** *** [/apis], [/plans], [/consumers] *)

Definition create_api (place : nat) (new_id : string) (api : ApiService.t) : M string :=
  create_document apiservice_table place new_id api.

Definition list_apis : M (list (doc ApiService.t)) :=
  get_documents apiservice_table (fun _ => true).

Fixpoint set_first_api (id : string) (a : ApiService.t) (l : list (doc ApiService.t))
  : list (doc ApiService.t) * Z :=
  match l with
  | [] => ([], 0)
  | d :: l' =>
      if String.eqb (_id d) id then (mk_doc id a :: l', 1)
      else let '(l'', n) := set_first_api id a l' in (d :: l'', n)
  end.

(** [db["apiservice"].update_one({"_id": id}, {"$set": a})], returning
    [matched_count]. *)
Definition db_update_one_apiservice (id : string) (a : ApiService.t) : M Z := fun w =>
  let '(apis, n) := set_first_api id a (apiservice (db w)) in
  (Ok n, logged (update_one c_apiservice)
           (mk_world (with_docs apiservice_table apis (db w)) (calls w))).

Definition update_api (api_id : string) (api : ApiService.t) : M bool :=
  id ← lift (oid api_id);
  matched_count ← db_update_one_apiservice id api;
  if matched_count =? 0 then lift (Raise (HTTPException 404 "API not found"))
  else mret true.

Definition create_plan (place : nat) (new_id : string) (p : Plan.t) : M string :=
  create_document plan_table place new_id p.

Definition list_plans : M (list (doc Plan.t)) :=
  get_documents plan_table (fun _ => true).

Definition create_consumer (place : nat) (new_id : string) (c : Consumer.t) : M string :=
  create_document consumer_table place new_id c.

Definition list_consumers : M (list (doc Consumer.t)) :=
  get_documents consumer_table (fun _ => true).

(** *** [/subscriptions] *)

(** [create_subscription(sub)], at a moment when [datetime.utcnow()] is
    [utcnow]: a body without [start_date] starts now. *)
Definition create_subscription (utcnow : DateTime.t) (place : nat) (new_id : string)
    (sub : Subscription.t) : M string :=
  let data :=
    match Subscription.start_date sub with
    | Some _ => sub
    | None =>
        Subscription.mk (Subscription.consumer_id sub) (Subscription.api_id sub)
                        (Subscription.plan_id sub) (Some utcnow) (Subscription.status sub)
    end in
  create_document subscription_table place new_id data.

(** [list_subscriptions(status)]: a missing or empty [status] is falsy
    and lists them all. *)
Definition list_subscriptions (status : option string) : M (list (doc Subscription.t)) :=
  match status with
  | None | Some EmptyString => get_documents subscription_table (fun _ => true)
  | Some st =>
      get_documents subscription_table
        (subscription_matches (mk_subscription_query (Some st) None))
  end.

(** *** [/usage] *)

(** The body of [POST /usage]: the fields of a usage event, with an
    optional [timestamp]. *)
Module UsageEventIn.
Record t := mk {
  api_id : string; consumer_id : string; timestamp : option DateTime.t;
  latency_ms : option Z; status_code : Z;
  bytes_in : option Z; bytes_out : option Z
}.
End UsageEventIn.

(** [ingest_usage(evt)]: an event without [timestamp] is stamped now. *)
Definition ingest_usage (utcnow : DateTime.t) (place : nat) (new_id : string)
    (evt : UsageEventIn.t) : M string :=
  let timestamp := default utcnow (UsageEventIn.timestamp evt) in
  create_document usageevent_table place new_id
    (UsageEvent.mk (UsageEventIn.api_id evt) (UsageEventIn.consumer_id evt) timestamp
                   (UsageEventIn.latency_ms evt) (UsageEventIn.status_code evt)
                   (UsageEventIn.bytes_in evt) (UsageEventIn.bytes_out evt)).

(** *** [GET /metrics/api/{api_id}] *)

(** The first occurrences of the elements of a list. *)
Fixpoint distinct (l : list string) : list string :=
  match l with
  | [] => []
  | x :: l' => x :: filter (fun y => y <> x) (distinct l')
  end.

(** What a [$group] stage computes of the events of one group. *)
Definition summary (evs : list (doc UsageEvent.t)) : usage_group :=
  mk_usage_group
    (mongo_avg (omap (fun e => UsageEvent.latency_ms (fields e)) evs))
    (Z.of_nat (length (filter (fun e => is_success e = true) evs)))
    (Z.of_nat (length evs)).

(** [$group] with [_id: "$api_id"]: one group for each [api_id] among
    the events, here in the order the identifiers first occur. *)
Definition group_usage_by_api (evs : list (doc UsageEvent.t)) : list usage_group :=
  map (fun a => summary (filter (fun e => UsageEvent.api_id (fields e) = a) evs))
      (distinct (map (fun e => UsageEvent.api_id (fields e)) evs)).

(** Modelled from the spec: the grouped aggregation of the Record Store,
    grouped by API. *)
Definition db_aggregate_usageevent_by_api (q : usage_query) : M (list usage_group) :=
  fun w =>
    (Ok (group_usage_by_api (filter (fun e => usage_matches q e = true) (usageevent (db w)))),
     logged (aggregate c_usageevent) w).

Module ApiMetrics.
Record t := mk {
  api_id : string;
  total_calls : Z;
  avg_latency_ms : option Float.t;
  success_rate : option Float.t
}.
End ApiMetrics.

(** [filt = {"api_id": api_id}], with the time bound when [period] is
    given. *)
Definition api_filter (api_id : string) (period : option string) : result usage_query :=
  match period with
  | None | Some EmptyString => Ok (mk_usage_query None (Some api_id) None)
  | Some p =>
      '(start, end_) ← month_bounds p;
      Ok (mk_usage_query None (Some api_id) (Some (start, end_)))
  end.

Definition metrics_by_api (api_id : string) (period : option string) : M ApiMetrics.t :=
  filt ← lift (api_filter api_id period);
  total_calls ← db_count_usageevent filt;
  agg ← db_aggregate_usageevent_by_api filt;
  let avg_latency := match agg with g :: _ => avg_latency g | [] => None end in
  let success := match agg with g :: _ => success g | [] => 0 end in
  success_rate ← lift (if total_calls =? 0 then Ok None
                       else r ← Float.int_truediv success total_calls; Ok (Some r));
  mret (ApiMetrics.mk api_id total_calls avg_latency success_rate).

(** *** The constraints of [schemas.py] *)

(** [Field(..., ge=0)] on a float: the comparison [v >= 0], which NaN
    fails and which both zeros and the positive infinity pass. *)
Definition ge0 (v : Float.t) : bool := SFleb Float.zero v.

(** [schemas.Plan]: the three [ge=0] constraints. *)
Definition Plan_valid (p : Plan.t) : bool :=
  ge0 (Plan.monthly_price p) && (0 <=? Plan.included_calls p)
  && ge0 (Plan.overage_price_per_call p).

(** [f"{y:04d}-{m}"]: the token of year [y] and month [m] with the month
    not padded. *)
Definition short_token (y m : Z) : string :=
  String (digit_char (y / 1000 mod 10))
    (String (digit_char (y / 100 mod 10))
       (String (digit_char (y / 10 mod 10))
          (String (digit_char (y mod 10))
             (String "-" (String (digit_char m) EmptyString))))).

(** *** Vocabulary of the further properties *)

(** The timestamps the constructor of [datetime] builds. *)
Definition well_formed (ts : DateTime.t) : bool :=
  DateTime.check_date_fields (DateTime.year ts) (DateTime.month ts) (DateTime.day ts)
  && DateTime.check_time_fields (DateTime.hour ts) (DateTime.minute ts)
                                (DateTime.second ts) (DateTime.microsecond ts).

(** Neither a negative number nor the negative infinity. *)
Definition unsigned (x : Float.t) : Prop :=
  match x with
  | S754_finite true _ _ | S754_infinity true => False
  | _ => True
  end.

(** The calls of [metrics_overview] on the store, in the order of the source. *)
Definition overview_calls : list db_call :=
  [count_documents c_usageevent; aggregate c_usageevent; count_documents c_apiservice;
   count_documents c_consumer; count_documents c_subscription].

(** The filter of [active_subscriptions]: the status alone. *)
Definition active_only : subscription_query := mk_subscription_query (Some "active") None.

(** [(success / total_calls) if total_calls else None], over the events
    counted. *)
Definition rate_of (evs : list (doc UsageEvent.t)) : result (option Float.t) :=
  if Z.of_nat (length evs) =? 0 then Ok None
  else r ← Float.int_truediv (successes evs) (Z.of_nat (length evs)); Ok (Some r).

(** A hexadecimal digit, and a string of them, in lower case. *)
Definition lower (c : ascii) : ascii :=
  if Strptime.in_range "A" "F" c then ascii_of_nat (nat_of_ascii c + 32) else c.

Fixpoint lower_case (s : string) : string :=
  match s with
  | EmptyString => EmptyString
  | String c r => String (lower c) (lower_case r)
  end.

(** The exception of [oid]. *)
Definition invalid_object_id : exn := HTTPException 400 "Invalid ObjectId".

(** The identifier [oid] returns, when it returns one, has the twelve
    bytes of an [ObjectId]: 24 characters as [str] prints it. *)
Definition twelve_bytes (r : result string) : bool :=
  match r with
  | Ok id => (String.length id =? 24)%nat
  | Raise _ => true
  end.

(** The terms of a plan. *)
Definition terms_of (p : Plan.t) : terms :=
  mk_terms (Plan.monthly_price p) (Plan.included_calls p) (Plan.overage_price_per_call p).

(** A line billed again under other terms, for the calls it has. *)
Definition rebilled (t : terms) (l : Chargeback.t) : Chargeback.t :=
  let overage := Z.max 0 (Chargeback.calls l - t_included_calls t) in
  Chargeback.mk (Chargeback.consumer_id l) (Chargeback.api_id l) (Chargeback.plan_id l)
                (Chargeback.period l) (Chargeback.calls l) overage (billed t overage).

(** The exception of [update_plan] when nothing matches. *)
Definition plan_not_found : exn := HTTPException 404 "Plan not found".

(** The usage event [ingest_usage] stores for a body: stamped now when
    the body has no [timestamp], and kept to the millisecond. *)
Definition ingested (utcnow : DateTime.t) (evt : UsageEventIn.t) : UsageEvent.t :=
  UsageEvent.mk (UsageEventIn.api_id evt) (UsageEventIn.consumer_id evt)
                (bson_date (default utcnow (UsageEventIn.timestamp evt)))
                (UsageEventIn.latency_ms evt) (UsageEventIn.status_code evt)
                (UsageEventIn.bytes_in evt) (UsageEventIn.bytes_out evt).

(** Whether a line counts a usage event. *)
Definition counts (start end_ : DateTime.t) (l : Chargeback.t) (e : UsageEvent.t) : bool :=
  String.eqb (UsageEvent.api_id e) (Chargeback.api_id l)
  && String.eqb (UsageEvent.consumer_id e) (Chargeback.consumer_id l)
  && in_period start end_ (UsageEvent.timestamp e).

(** The subscription [create_subscription] stores for a body: started
    now when the body has no [start_date], and kept to the millisecond. *)
Definition subscribed (utcnow : DateTime.t) (sub : Subscription.t) : Subscription.t :=
  Subscription.mk (Subscription.consumer_id sub) (Subscription.api_id sub)
                  (Subscription.plan_id sub)
                  (Some (bson_date (default utcnow (Subscription.start_date sub))))
                  (Subscription.status sub).

(** A store where one consumer has two subscriptions to one API, the
    second to a plan that is not stored, and with a plan of a negative
    allowance that no subscription names. *)
Definition twin_store : Db :=
  mk_db []
        [Scenario.pro;
         mk_doc "64b0000000000000000000aa"
                (Plan.mk "Odd" "basic" Float.zero (-5) Float.zero)]
        []
        [Scenario.s_jan;
         Scenario.sub "s7" "c1" "64b0000000000000000000ff"
                      (Some Scenario.january_start) "active"]
        Scenario.events.

(* ===================================================================== *)
(** ** Vocabulary of the proofs *)
(* ===================================================================== *)

(** The first instant of the month after month [m] of year [y]. *)
Definition next_month (y m : Z) : DateTime.t :=
  if m =? 12 then first_instant (y + 1) 1 else first_instant y (m + 1).

(** The texts a matcher takes: the language of each regular expression. *)

(** Every match of [p] splits the string into a text of [L] and the rest. *)
Definition yields (L : list Z -> Prop) (p : Strptime.matcher) : Prop :=
  forall s a r, (a, r) ∈ p s -> s = (a ++ r)%list /\ L a.

Definition one_of (lo hi : ascii) (a : list Z) : Prop :=
  exists c, a = [c] /\ Strptime.in_class lo hi c = true.

Definition decimal_digit (a : list Z) : Prop :=
  exists c, a = [c] /\ Unicode.isdecimal c = true.

Definition then_ (L1 L2 : list Z -> Prop) (a : list Z) : Prop :=
  exists a1 a2, a = (a1 ++ a2)%list /\ L1 a1 /\ L2 a2.

Definition or_ (L1 L2 : list Z -> Prop) (a : list Z) : Prop := L1 a \/ L2 a.

Definition year_lang : list Z -> Prop :=
  then_ decimal_digit (then_ decimal_digit (then_ decimal_digit decimal_digit)).

Definition month_lang : list Z -> Prop :=
  or_ (then_ (one_of "1" "1") (one_of "0" "2"))
      (or_ (then_ (one_of "0" "0") (one_of "1" "9")) (one_of "1" "9")).

Definition day_lang : list Z -> Prop :=
  or_ (then_ (one_of "3" "3") (one_of "0" "1"))
      (or_ (then_ (one_of "1" "2") decimal_digit)
           (or_ (then_ (one_of "0" "0") (one_of "1" "9"))
                (or_ (one_of "1" "9") (then_ (one_of " " " ") (one_of "1" "9"))))).

(* ===================================================================== *)
(** * Properties *)
(* ===================================================================== *)

Local Open Scope list_scope.

(* ===================================================================== *)
(** ** Rounding to binary64 *)
(* ===================================================================== *)

Section BinaryRounding.
Variables prec emax : Z.

Lemma digits2_pos_size p : digits2_pos p = Pos.size p.
Proof. induction p; simpl; congruence. Qed.

Lemma Zdigits2_nonneg m : 0 <= Zdigits2 m.
Proof. destruct m; simpl; lia. Qed.

Lemma Zdigits2_upper m k : 0 <= k -> 0 <= m < 2 ^ k -> Zdigits2 m <= k.
Proof.
  intros Hk [Hm0 Hm]. destruct m as [|p|p]; simpl; try lia.
  rewrite digits2_pos_size.
  destruct (Z_le_gt_dec (Zpos (Pos.size p)) k) as [|Hgt]; [assumption|exfalso].
  pose proof (Pos.size_le p) as Hle.
  assert (H2 : 2 ^ (k + 1) <= 2 ^ Zpos (Pos.size p)) by (apply Z.pow_le_mono_r; lia).
  rewrite Z.pow_add_r in H2 by lia.
  assert (Hp : (2 ^ Zpos (Pos.size p) <= Zpos p~0)).
  { rewrite <- Pos2Z.inj_pow. apply Pos2Z.pos_le_pos. exact Hle. }
  lia.
Qed.

Lemma Zdigits2_lt m : 0 <= m -> m < 2 ^ Zdigits2 m.
Proof.
  intros Hm. destruct m as [|p|p]; simpl; try lia.
  rewrite digits2_pos_size. rewrite <- Pos2Z.inj_pow. apply Pos2Z.pos_lt_pos.
  apply Pos.size_gt.
Qed.

Lemma shr_1_m r : 0 <= shr_m r -> shr_m (shr_1 r) = shr_m r / 2.
Proof.
  destruct r as [m r s]; cbn [shr_m shr_1]. intros Hm.
  destruct m as [|[p|p|]|p]; cbn [shr_m]; try reflexivity; try (exfalso; lia).
  - apply Z.div_unique with (r := 1); [lia | rewrite (Pos2Z.inj_xI p); lia].
  - apply Z.div_unique with (r := 0); [lia | rewrite (Pos2Z.inj_xO p); lia].
Qed.

Lemma pow2_double p : 2 ^ Zpos p * 2 ^ Zpos p = 2 ^ Zpos p~0.
Proof. rewrite <- Z.pow_add_r by lia. f_equal. rewrite (Pos2Z.inj_xO p). lia. Qed.

Lemma pow2_double_succ p : 2 * (2 ^ Zpos p * 2 ^ Zpos p) = 2 ^ Zpos p~1.
Proof.
  rewrite pow2_double, (Pos2Z.inj_xI p), (Pos2Z.inj_xO p).
  rewrite (Z.pow_add_r 2 (2 * Zpos p) 1) by lia. lia.
Qed.

Lemma iter_shr_1_m p : forall r,
  0 <= shr_m r -> shr_m (SpecFloat.iter_pos shr_1 p r) = shr_m r / 2 ^ Zpos p.
Proof.
  induction p as [p IH|p IH|]; intros r Hr; cbn [SpecFloat.iter_pos].
  - assert (H1 : 0 <= shr_m (shr_1 r)) by (rewrite shr_1_m by assumption; apply Z.div_pos; lia).
    assert (H2 : 0 <= shr_m (SpecFloat.iter_pos shr_1 p (shr_1 r)))
      by (rewrite IH by assumption; apply Z.div_pos; lia).
    rewrite IH, IH, shr_1_m by assumption.
    rewrite !Z.div_div by lia. first [rewrite pow2_double_succ | rewrite <- Z.mul_assoc, pow2_double_succ]; reflexivity.
  - assert (H2 : 0 <= shr_m (SpecFloat.iter_pos shr_1 p r))
      by (rewrite IH by assumption; apply Z.div_pos; lia).
    rewrite IH, IH by assumption.
    rewrite !Z.div_div by lia. rewrite pow2_double. reflexivity.
  - rewrite shr_1_m by assumption. reflexivity.
Qed.

Lemma shr_record_of_loc_m m l : shr_m (shr_record_of_loc m l) = m.
Proof. destruct l as [|[]]; reflexivity. Qed.

(** The mantissa and exponent [shr_fexp] returns. *)
Lemma shr_fexp_spec m e l :
  0 <= m ->
  let n := Z.max 0 (fexp prec emax (Zdigits2 m + e) - e) in
  shr_m (fst (shr_fexp prec emax m e l)) = m / 2 ^ n
  /\ snd (shr_fexp prec emax m e l) = e + n.
Proof.
  intros Hm n. unfold shr_fexp, shr. subst n.
  destruct (fexp prec emax (Zdigits2 m + e) - e) as [|p|p] eqn:E; simpl fst; simpl snd.
  - rewrite shr_record_of_loc_m. simpl. rewrite Z.div_1_r. lia.
  - rewrite iter_shr_1_m by (rewrite shr_record_of_loc_m; assumption).
    rewrite shr_record_of_loc_m. replace (Z.max 0 (Zpos p)) with (Zpos p) by lia. lia.
  - rewrite shr_record_of_loc_m. replace (Z.max 0 (Zneg p)) with 0 by lia.
    simpl. rewrite Z.div_1_r. lia.
Qed.

Lemma round_nearest_even_bounds m l :
  0 <= m -> m <= round_nearest_even m l <= m + 1.
Proof.
  intros Hm. destruct l as [|[]]; simpl; try lia. destruct (Z.even m); lia.
Qed.

(** The result of rounding a non-negative mantissa carries the sign asked
    for and is never NaN. *)
Lemma binary_round_aux_sign s m e l :
  0 <= m ->
  match binary_round_aux prec emax s m e l with
  | S754_zero s' | S754_infinity s' | S754_finite s' _ _ => s' = s
  | S754_nan => False
  end.
Proof.
  intros Hm. unfold binary_round_aux.
  destruct (shr_fexp_spec m e l Hm) as [H1 H1'].
  destruct (shr_fexp prec emax m e l) as [mrs' e'] eqn:E1. simpl in H1, H1'.
  set (mr := round_nearest_even (shr_m mrs') (loc_of_shr_record mrs')).
  assert (Hmr : 0 <= mr).
  { pose proof (round_nearest_even_bounds (shr_m mrs') (loc_of_shr_record mrs')) as B.
    assert (0 <= shr_m mrs') by (rewrite H1; apply Z.div_pos; lia).
    subst mr. lia. }
  destruct (shr_fexp_spec mr e' loc_Exact Hmr) as [H2 H2'].
  destruct (shr_fexp prec emax mr e' loc_Exact) as [mrs'' e''] eqn:E2. simpl in H2, H2'.
  assert (0 <= shr_m mrs'') by (rewrite H2; apply Z.div_pos; lia).
  destruct (shr_m mrs''); try lia; [reflexivity|].
  destruct (e'' <=? emax - prec); reflexivity.
Qed.

End BinaryRounding.

(** ** binary64 *)

Lemma fexp64 x : fexp Float.prec Float.emax x = Z.max (x - 53) (-1074).
Proof. reflexivity. Qed.

Lemma div_pow2_digits m n :
  0 <= m -> 0 <= n -> Zdigits2 (m / 2 ^ n + 1) <= Z.max (Zdigits2 m - n) 0 + 1.
Proof.
  intros Hm Hn. pose proof (Zdigits2_lt m Hm) as Hlt.
  pose proof (Zdigits2_nonneg m) as Hd.
  assert (Hp : 0 < 2 ^ n) by (apply Z.pow_pos_nonneg; lia).
  assert (Hq : 0 <= m / 2 ^ n) by (apply Z.div_pos; lia).
  apply Zdigits2_upper; [lia|]. split; [lia|].
  destruct (Z_le_gt_dec n (Zdigits2 m)) as [Hle|Hgt].
  - replace (Z.max (Zdigits2 m - n) 0) with (Zdigits2 m - n) by lia.
    assert (m / 2 ^ n < 2 ^ (Zdigits2 m - n)).
    { apply Z.div_lt_upper_bound; [lia|].
      rewrite <- Z.pow_add_r by lia. replace (n + (Zdigits2 m - n)) with (Zdigits2 m) by lia.
      assumption. }
    rewrite Z.pow_add_r, Z.pow_1_r by lia. lia.
  - replace (Z.max (Zdigits2 m - n) 0) with 0 by lia.
    assert (m / 2 ^ n = 0).
    { apply Z.div_small. split; [lia|].
      apply Z.lt_le_trans with (2 ^ Zdigits2 m); [assumption|].
      apply Z.pow_le_mono_r; lia. }
    simpl. lia.
Qed.

Lemma Zdigits2_mono a b : 0 <= a <= b -> Zdigits2 a <= Zdigits2 b.
Proof.
  intros [Ha Hab]. apply Zdigits2_upper; [apply Zdigits2_nonneg|].
  split; [lia|]. apply Z.le_lt_trans with b; [lia|]. apply Zdigits2_lt. lia.
Qed.

(** No overflow: a value below [2^1023] rounds to a finite float. *)
Lemma binary_round_aux_no_overflow s m e l :
  0 <= m -> e <= 970 -> Zdigits2 m + e <= 1023 ->
  match binary_round_aux Float.prec Float.emax s m e l with
  | S754_infinity _ => False
  | _ => True
  end.
Proof.
  intros Hm He Hd. unfold binary_round_aux.
  destruct (shr_fexp_spec Float.prec Float.emax m e l Hm) as [H1 H1'].
  destruct (shr_fexp Float.prec Float.emax m e l) as [mrs' e'] eqn:E1. simpl in H1, H1'.
  set (mr := round_nearest_even (shr_m mrs') (loc_of_shr_record mrs')).
  set (n1 := Z.max 0 (fexp Float.prec Float.emax (Zdigits2 m + e) - e)) in *.
  assert (Hn1 : 0 <= n1) by (subst n1; lia).
  assert (Hs : 0 <= shr_m mrs') by (rewrite H1; apply Z.div_pos; [lia|apply Z.pow_pos_nonneg; lia]).
  pose proof (round_nearest_even_bounds (shr_m mrs') (loc_of_shr_record mrs') Hs) as B.
  fold mr in B.
  assert (Hmr : 0 <= mr) by lia.
  assert (Hdr : Zdigits2 mr <= Z.max (Zdigits2 m - n1) 0 + 1).
  { apply Z.le_trans with (Zdigits2 (m / 2 ^ n1 + 1)).
    - apply Zdigits2_mono. rewrite <- H1. lia.
    - apply div_pow2_digits; assumption. }
  destruct (shr_fexp_spec Float.prec Float.emax mr e' loc_Exact Hmr) as [H2 H2'].
  destruct (shr_fexp Float.prec Float.emax mr e' loc_Exact) as [mrs'' e''] eqn:E2.
  simpl in H2, H2'.
  assert (He'' : e'' <= 971).
  { rewrite H2', H1'. subst n1. rewrite !fexp64 in *. rewrite H1' in *.
    pose proof (Zdigits2_nonneg m). lia. }
  destruct (shr_m mrs''); try exact I.
  replace (e'' <=? Float.emax - Float.prec) with true; [exact I|].
  symmetry. apply Z.leb_le. unfold Float.emax, Float.prec. lia.
Qed.

Lemma iter_xO m d : Zpos (Pos.iter xO m d) = Zpos m * 2 ^ Zpos d.
Proof.
  revert m. induction d as [|d IH] using Pos.peano_ind; intros m.
  - simpl. rewrite (Pos2Z.inj_xO m). lia.
  - rewrite Pos.iter_succ, (Pos2Z.inj_xO (Pos.iter xO m d)), IH, Pos2Z.inj_succ, Z.pow_succ_r by lia.
    lia.
Qed.

Lemma of_Z_finite z :
  Z.abs z < 2 ^ 1023 ->
  match Float.of_Z z with
  | S754_zero s | S754_finite s _ _ => s = (z <? 0)
  | _ => False
  end.
Proof.
  intros Hz. unfold Float.of_Z, binary_normalize.
  assert (G : forall s m, Zpos m < 2 ^ 1023 ->
    match binary_round Float.prec Float.emax s m 0 with
    | S754_zero s' | S754_finite s' _ _ => s' = s
    | _ => False
    end).
  { intros s m Hm. unfold binary_round, shl_align.
    assert (Hd : Zdigits2 (Zpos m) <= 1023) by (apply Zdigits2_upper; lia).
    simpl Zdigits2 in Hd. rewrite fexp64.
    set (d := Zpos (digits2_pos m)) in *.
    assert (Hd0 : 0 < d) by (subst d; lia).
    destruct (Z.max (d + 0 - 53) (-1074) - 0) as [|p|p] eqn:E.
    - pose proof (binary_round_aux_sign Float.prec Float.emax s (Zpos m) 0 loc_Exact ltac:(lia)) as S1.
      pose proof (binary_round_aux_no_overflow s (Zpos m) 0 loc_Exact ltac:(lia) ltac:(lia)) as S2.
      simpl Zdigits2 in S2. fold d in S2. specialize (S2 ltac:(lia)).
      destruct (binary_round_aux _ _ _ _ _ _); tauto.
    - pose proof (binary_round_aux_sign Float.prec Float.emax s (Zpos m) 0 loc_Exact ltac:(lia)) as S1.
      pose proof (binary_round_aux_no_overflow s (Zpos m) 0 loc_Exact ltac:(lia) ltac:(lia)) as S2.
      simpl Zdigits2 in S2. fold d in S2. specialize (S2 ltac:(lia)).
      destruct (binary_round_aux _ _ _ _ _ _); tauto.
    - set (e' := Z.max (d + 0 - 53) (-1074)) in *.
      pose proof (binary_round_aux_sign Float.prec Float.emax s
                    (Zpos (Pos.iter xO m p)) e' loc_Exact ltac:(lia)) as S1.
      pose proof (binary_round_aux_no_overflow s (Zpos (Pos.iter xO m p)) e' loc_Exact
                    ltac:(lia) ltac:(lia)) as S2.
      assert (Hdd : Zdigits2 (Zpos (Pos.iter xO m p)) <= d + Zpos p).
      { apply Zdigits2_upper; [lia|]. split; [lia|]. rewrite iter_xO.
        rewrite Z.pow_add_r by lia.
        apply Z.mul_lt_mono_pos_r; [apply Z.pow_pos_nonneg; lia|].
        pose proof (Zdigits2_lt (Zpos m) ltac:(lia)) as L. simpl Zdigits2 in L. exact L. }
      specialize (S2 ltac:(lia)).
      destruct (binary_round_aux _ _ _ _ _ _); tauto. }
  destruct z as [|m|m].
  - reflexivity.
  - apply (G false m). lia.
  - apply (G true m). lia.
Qed.

Lemma of_int_ok z :
  Z.abs z < 2 ^ 1023 ->
  exists f, Float.of_int z = Ok f /\ Float.of_Z z = f /\
    match f with
    | S754_zero s | S754_finite s _ _ => s = (z <? 0)
    | _ => False
    end.
Proof.
  intros Hz. pose proof (of_Z_finite z Hz) as H. unfold Float.of_int.
  destruct (Float.of_Z z) eqn:E; try tauto; eexists; repeat split; eauto.
Qed.

(** The quotient and exponent [SFdiv_core_binary] hands to the rounding. *)
Lemma div_core_spec n d :
  0 <= n -> 0 < d ->
  let e' := Z.min (fexp Float.prec Float.emax (Zdigits2 n - Zdigits2 d)) 0 in
  exists l, SFdiv_core_binary Float.prec Float.emax n 0 d 0 = (n * 2 ^ (- e') / d, e', l).
Proof.
  intros Hn Hd e'. unfold SFdiv_core_binary.
  rewrite !Z.add_0_r, Z.sub_0_r. fold e'.
  assert (He' : e' <= 0) by (subst e'; lia).
  set (m' := match 0 - e' with Zpos _ => Z.shiftl n (0 - e') | Z0 => n | Zneg _ => 0 end).
  assert (Hm' : m' = n * 2 ^ (- e')).
  { subst m'. destruct (0 - e') as [|p|p] eqn:E; try lia.
    - replace (- e') with 0 by lia. simpl. lia.
    - rewrite Z.shiftl_mul_pow2 by lia. f_equal. f_equal. lia. }
  destruct (Z.div_eucl m' d) as [q r] eqn:E.
  assert (Hq : q = m' / d) by (unfold Z.div; rewrite E; reflexivity).
  rewrite Hq, Hm'. eexists. reflexivity.
Qed.

Lemma of_ratio_sign s n d :
  0 <= n -> 0 < d ->
  match Float.of_ratio s n d with
  | S754_zero s' | S754_infinity s' | S754_finite s' _ _ => s' = s
  | S754_nan => False
  end.
Proof.
  intros Hn Hd. unfold Float.of_ratio.
  destruct (div_core_spec n d Hn Hd) as [l ->].
  apply binary_round_aux_sign.
  apply Z.div_pos; [|lia]. apply Z.mul_nonneg_nonneg; [lia|]. apply Z.pow_nonneg. lia.
Qed.

(** A quotient of at most one does not overflow. *)
Lemma of_ratio_no_overflow s n d :
  0 <= n <= d -> 0 < d ->
  match Float.of_ratio s n d with
  | S754_infinity _ => False
  | _ => True
  end.
Proof.
  intros [Hn Hnd] Hd. unfold Float.of_ratio.
  destruct (div_core_spec n d Hn Hd) as [l ->].
  set (e' := Z.min (fexp Float.prec Float.emax (Zdigits2 n - Zdigits2 d)) 0).
  assert (He' : e' <= 0) by (subst e'; lia).
  assert (Hp : 0 < 2 ^ (- e')) by (apply Z.pow_pos_nonneg; lia).
  assert (Hq0 : 0 <= n * 2 ^ (- e') / d) by (apply Z.div_pos; [apply Z.mul_nonneg_nonneg|]; lia).
  assert (Hq : n * 2 ^ (- e') / d <= 2 ^ (- e')).
  { apply Z.div_le_upper_bound; [lia|]. apply Z.mul_le_mono_nonneg_r; lia. }
  apply binary_round_aux_no_overflow; [assumption|lia|].
  assert (Zdigits2 (n * 2 ^ (- e') / d) <= - e' + 1); [|lia].
  apply Zdigits2_upper; [lia|]. split; [assumption|].
  rewrite Z.pow_add_r, Z.pow_1_r by lia. lia.
Qed.

Lemma int_truediv_ok a b :
  0 <= a <= b -> 0 < b -> exists f, Float.int_truediv a b = Ok f.
Proof.
  intros Hab Hb. unfold Float.int_truediv.
  destruct (b =? 0) eqn:Eb; [apply Z.eqb_eq in Eb; lia|].
  destruct (a =? 0) eqn:Ea; [eexists; reflexivity|].
  apply Z.eqb_neq in Ea.
  pose proof (of_ratio_no_overflow (xorb (a <? 0) (b <? 0)) (Z.abs a) (Z.abs b)
                ltac:(lia) ltac:(lia)) as H.
  destruct (Float.of_ratio _ _ _); try tauto; eexists; reflexivity.
Qed.

Lemma round6_not_nan x : Float.is_nan x = false -> Float.is_nan (Float.round6 x) = false.
Proof.
  destruct x as [s|s| |s m e]; simpl; try reflexivity; try discriminate.
  intros _.
  set (q := Float.half_even _ _).
  assert (Hq : 0 <= q).
  { subst q. unfold Float.half_even.
    assert (0 < 2 ^ Z.max 0 (- e)) by (apply Z.pow_pos_nonneg; lia).
    assert (0 <= 2 ^ Z.max 0 e) by (apply Z.pow_nonneg; lia).
    assert (0 <= Zpos m * 10 ^ 6 * 2 ^ Z.max 0 e / 2 ^ Z.max 0 (- e))
      by (apply Z.div_pos; [apply Z.mul_nonneg_nonneg|]; lia).
    destruct (_ ?= _); [destruct (Z.even _)| |]; lia. }
  destruct (q =? 0); [reflexivity|].
  pose proof (of_ratio_sign s q (10 ^ 6) Hq ltac:(lia)) as H.
  destruct (Float.of_ratio s q (10 ^ 6)); simpl; tauto.
Qed.

Lemma eqb_refl x : Float.is_nan x = false -> Float.eqb x x = true.
Proof.
  destruct x as [s|s| |s m e]; simpl; try reflexivity; try discriminate; intros _.
  - destruct s; reflexivity.
  - unfold Float.eqb, SFeqb, SFcompare.
    rewrite Z.compare_refl. rewrite Pos.compare_cont_refl. destruct s; reflexivity.
Qed.

(* ===================================================================== *)
(** ** Period resolver *)
(* ===================================================================== *)

(** ** Digits *)

(** Case analysis on a small natural number. *)
Lemma below_cases (P : Z -> Prop) (k : nat) :
  (forall i, (i < k)%nat -> P (Z.of_nat i)) -> forall n, 0 <= n < Z.of_nat k -> P n.
Proof.
  intros H n Hn. rewrite <- (Z2Nat.id n) by lia. apply H. lia.
Qed.

Tactic Notation "each_below" integer(k) tactic3(tac) :=
  let i := fresh "i" in
  let Hi := fresh "Hi" in
  intros i Hi; do k (destruct i as [|i]; [simpl Z.of_nat; tac|]); exfalso; lia.

Lemma digit_of_bounds zs cp v : Unicode.digit_of zs cp = Some v -> 0 <= v <= 9.
Proof.
  induction zs as [|z zs IH]; [discriminate|]. cbn [Unicode.digit_of].
  destruct (_ && _) eqn:E; [|exact IH].
  apply andb_true_iff in E as [E1 E2]. apply Z.leb_le in E1. apply Z.ltb_lt in E2.
  intros H. inversion H. lia.
Qed.

Lemma isdecimal_value c : Unicode.isdecimal c = true -> 0 <= Strptime.digit_value c <= 9.
Proof.
  unfold Unicode.isdecimal, Strptime.digit_value, Unicode.decimal.
  destruct (Unicode.digit_of Unicode.zeros c) as [v|] eqn:E; [|discriminate].
  intros _. cbn [default from_option id]. exact (digit_of_bounds _ _ _ E).
Qed.

(** The digits of ASCII. *)
Lemma digit_char_spec n :
  0 <= n <= 9 ->
  Unicode.byte (digit_char n) = 48 + n
  /\ Unicode.isdecimal (48 + n) = true /\ Strptime.digit_value (48 + n) = n.
Proof.
  intros Hn. pattern n. apply (below_cases _ 10); [|lia].
  each_below 10 (repeat split; reflexivity).
Qed.

Lemma in_class_bounds lo hi c :
  Strptime.in_class lo hi c = true <-> Unicode.byte lo <= c <= Unicode.byte hi.
Proof. unfold Strptime.in_class. rewrite andb_true_iff, !Z.leb_le. tauto. Qed.

Lemma in_class_single a c : Strptime.in_class a a c = true -> c = Unicode.byte a.
Proof. intros H. apply in_class_bounds in H. lia. Qed.

Lemma code_points_ascii c r :
  Unicode.byte c < 128 ->
  Unicode.code_points (String c r) = Unicode.byte c :: Unicode.code_points r.
Proof.
  intros H. cbn [Unicode.code_points]. cbv zeta.
  replace (Unicode.byte c <? 128) with true by (symmetry; apply Z.ltb_lt; exact H).
  reflexivity.
Qed.

Lemma code_points_digit n r :
  0 <= n <= 9 ->
  Unicode.code_points (String (digit_char n) r) = (48 + n) :: Unicode.code_points r.
Proof.
  intros Hn. destruct (digit_char_spec n Hn) as (B & _).
  rewrite code_points_ascii, B by lia. reflexivity.
Qed.

Lemma year_digits y :
  0 <= y <= 9999 ->
  1000 * (y / 1000 mod 10) + 100 * (y / 100 mod 10) + 10 * (y / 10 mod 10) + y mod 10 = y.
Proof. intros Hy. Z.div_mod_to_equations. lia. Qed.

Lemma digit_in_range y k : 0 <= y -> 0 <= y / k mod 10 <= 9.
Proof. intros Hy. Z.div_mod_to_equations. lia. Qed.

Lemma int_of_year a b c d :
  Strptime.int_of [a; b; c; d]
  = 1000 * Strptime.digit_value a + 100 * Strptime.digit_value b
    + 10 * Strptime.digit_value c + Strptime.digit_value d.
Proof. unfold Strptime.int_of. cbn [Strptime.int_digits]. lia. Qed.

Lemma re_Y_digits a b c d r :
  Unicode.isdecimal a = true -> Unicode.isdecimal b = true ->
  Unicode.isdecimal c = true -> Unicode.isdecimal d = true ->
  Strptime.re_Y (a :: b :: c :: d :: r) = [([a; b; c; d], r)].
Proof.
  intros Ha Hb Hc Hd.
  unfold Strptime.re_Y, Strptime.seq, Strptime.digit.
  rewrite Ha. cbn -[Unicode.isdecimal]. rewrite Hb. cbn -[Unicode.isdecimal].
  rewrite Hc. cbn -[Unicode.isdecimal]. rewrite Hd. reflexivity.
Qed.

(** ** Dates *)

Lemma days_in_month_pos y m : 1 <= m <= 12 -> 28 <= DateTime.days_in_month y m <= 31.
Proof.
  intros Hm. generalize Hm. pattern m. apply (below_cases _ 13); [|lia].
  each_below 13 (intros Hm'; unfold DateTime.days_in_month; simpl;
                      try destruct (DateTime.is_leap y); simpl; lia).
Qed.

Lemma new_first_instant y m :
  1 <= y <= 9999 -> 1 <= m <= 12 ->
  DateTime.new y m 1 0 0 0 0 = Ok (first_instant y m).
Proof.
  intros Hy Hm. unfold DateTime.new, DateTime.check_date_fields, DateTime.check_time_fields,
    DateTime.MINYEAR, DateTime.MAXYEAR.
  pose proof (days_in_month_pos y m Hm).
  replace (1 <=? y) with true by (symmetry; apply Z.leb_le; lia).
  replace (y <=? 9999) with true by (symmetry; apply Z.leb_le; lia).
  replace (1 <=? m) with true by (symmetry; apply Z.leb_le; lia).
  replace (m <=? 12) with true by (symmetry; apply Z.leb_le; lia).
  replace (1 <=? DateTime.days_in_month y m) with true by (symmetry; apply Z.leb_le; lia).
  reflexivity.
Qed.

Lemma new_year_zero m d : DateTime.new 0 m d 0 0 0 0 = Raise ValueError.
Proof. reflexivity. Qed.

(** ** The texts a matcher takes *)

Lemma yields_cls lo hi : yields (one_of lo hi) (Strptime.cls lo hi).
Proof.
  intros s a r. unfold Strptime.cls. destruct s as [|c s]; [intros H; inversion H|].
  destruct (Strptime.in_class lo hi c) eqn:E; intros H; [|inversion H].
  apply list_elem_of_singleton in H. inversion H; subst.
  split; [reflexivity|]. exists c. split; [reflexivity|exact E].
Qed.

Lemma yields_digit : yields decimal_digit Strptime.digit.
Proof.
  intros s a r. unfold Strptime.digit. destruct s as [|c s]; [intros H; inversion H|].
  destruct (Unicode.isdecimal c) eqn:E; intros H; [|inversion H].
  apply list_elem_of_singleton in H. inversion H; subst.
  split; [reflexivity|]. exists c. split; [reflexivity|exact E].
Qed.

Lemma yields_seq L1 L2 p q :
  yields L1 p -> yields L2 q -> yields (then_ L1 L2) (Strptime.seq p q).
Proof.
  intros Hp Hq s a r. unfold Strptime.seq. intros H.
  apply list_elem_of_bind in H as ([a1 r1] & H & H1).
  apply list_elem_of_bind in H as ([a2 r2] & H & H2).
  apply list_elem_of_singleton in H. inversion H; subst.
  apply Hp in H1 as [-> L1a]. apply Hq in H2 as [-> L2a].
  split; [rewrite <- app_assoc; reflexivity|]. exists a1, a2. auto.
Qed.

Lemma yields_alt L1 L2 p q :
  yields L1 p -> yields L2 q -> yields (or_ L1 L2) (Strptime.alt p q).
Proof.
  intros Hp Hq s a r. unfold Strptime.alt. intros H.
  apply elem_of_app in H as [H|H]; [apply Hp in H | apply Hq in H];
    destruct H as [-> H]; (split; [reflexivity|]); [left|right]; exact H.
Qed.

Lemma yields_chr c : yields (one_of c c) (Strptime.chr c).
Proof. apply yields_cls. Qed.

Lemma yields_re_Y : yields year_lang Strptime.re_Y.
Proof. repeat apply yields_seq; apply yields_digit. Qed.

Lemma yields_re_m : yields month_lang Strptime.re_m.
Proof. repeat first [apply yields_alt | apply yields_seq | apply yields_cls]. Qed.

Lemma yields_re_d : yields day_lang Strptime.re_d.
Proof.
  repeat first [apply yields_alt | apply yields_seq | apply yields_cls | apply yields_digit].
Qed.

(** A match of the format is a year, a dash, a month, a dash and a day. *)
Lemma format_regex_match_inv t Y m d rest :
  Strptime.format_regex_match t = Some (Y, m, d, rest) ->
  t = Y ++ 45 :: m ++ 45 :: d ++ rest
  /\ year_lang Y /\ month_lang m /\ day_lang d.
Proof.
  unfold Strptime.format_regex_match. intros H. apply head_Some_elem_of in H.
  apply list_elem_of_bind in H as ([Y' r1] & H & HY).
  apply list_elem_of_bind in H as ([x2 r2] & H & H2).
  apply list_elem_of_bind in H as ([m' r3] & H & Hm).
  apply list_elem_of_bind in H as ([x4 r4] & H & H4).
  apply list_elem_of_bind in H as ([d' r5] & H & Hd).
  apply list_elem_of_singleton in H. inversion H; subst.
  apply yields_re_Y in HY as [-> LY]. apply yields_chr in H2 as [-> (c2 & -> & E2)].
  apply yields_re_m in Hm as [-> Lm]. apply yields_chr in H4 as [-> (c4 & -> & E4)].
  apply yields_re_d in Hd as [-> Ld].
  apply in_class_single in E2, E4. subst c2 c4.
  auto.
Qed.

(** ** The tokens [strptime] takes *)

(** Peel the characters of [l] off the equation [l ++ "-01" = ...]. *)
Ltac peel l H :=
  destruct l as [|? l]; cbn [app] in H;
  [ simplify_eq | first [ discriminate H | injection H as ? H; subst; try peel l H ] ].

Ltac settle :=
  repeat match goal with
  | H : Strptime.in_class _ _ (Zpos _) = true |- _ => vm_compute in H; discriminate H
  end;
  lazy beta iota delta [period_value];
  change (Strptime.in_class "-" "-" 45) with true;
  repeat match goal with
  | H : ?b = true |- context [?b] => rewrite H
  end;
  repeat match goal with
  | |- context [Strptime.in_class ?l ?h ?c] => destruct (Strptime.in_class l h c)
  end;
  discriminate.

(** A match of the whole of [period + "-01"] makes [period] a token. *)
Lemma full_match_value s Y m d :
  Strptime.format_regex_match (Unicode.code_points s ++ [45; 48; 49]) = Some (Y, m, d, [])
  -> period_value s <> None.
Proof.
  intros E. unfold period_value. set (l := Unicode.code_points s) in *. clearbody l.
  apply format_regex_match_inv in E as (Ht & HY & Hm & Hd).
  destruct HY as (? & ? & -> & (a & -> & Ha) & (? & ? & -> & (b & -> & Hb)
                    & (? & ? & -> & (c & -> & Hc) & (d0 & -> & Hd0)))).
  unfold month_lang, day_lang, or_, then_, one_of, decimal_digit in Hm, Hd.
  destruct Hm as [(? & ? & -> & (f & -> & Hf) & (g & -> & Hg))
                 |[(? & ? & -> & (f & -> & Hf) & (g & -> & Hg))
                  |(f & -> & Hf)]];
  destruct Hd as [(? & ? & -> & (h & -> & Hh) & (i & -> & Hi))
                 |[(? & ? & -> & (h & -> & Hh) & (i & -> & Hi))
                  |[(? & ? & -> & (h & -> & Hh) & (i & -> & Hi))
                   |[(h & -> & Hh)
                    |(? & ? & -> & (h & -> & Hh) & (i & -> & Hi))]]]];
  cbn [app] in Ht;
  peel l Ht; settle.
Qed.

(** A character of a class of ASCII is one of a few. *)
Lemma in_class_cases (P : Z -> Prop) lo hi c (k : nat) :
  Strptime.in_class lo hi c = true ->
  Unicode.byte hi - Unicode.byte lo < Z.of_nat k ->
  (forall i, (i < k)%nat -> Strptime.in_class lo hi (Unicode.byte lo + Z.of_nat i) = true ->
             P (Unicode.byte lo + Z.of_nat i)) ->
  P c.
Proof.
  intros H Hk HP. pose proof (proj1 (in_class_bounds lo hi c) H) as B.
  replace c with (Unicode.byte lo + Z.of_nat (Z.to_nat (c - Unicode.byte lo))) in * by lia.
  apply HP; [lia|exact H].
Qed.

Ltac conditions H :=
  repeat match type of H with
  | _ && _ = true => let H' := fresh "C" in apply andb_true_iff in H as [H H']
  end.

(** What [strptime] makes of a token. *)
Lemma strptime_value s y m :
  period_value s = Some (y, m) ->
  Strptime.strptime (Unicode.code_points s ++ Unicode.code_points "-01")
  = DateTime.new y m 1 0 0 0 0.
Proof.
  unfold period_value. set (l := Unicode.code_points s). clearbody l.
  change (Unicode.code_points "-01") with [45; 48; 49].
  destruct l as [|a [|b [|c [|d [|e [|f [|g [|h l]]]]]]]]; try discriminate.
  - destruct (_ && _) eqn:E; [|discriminate]. intros H. inversion H; subst y m; clear H.
    apply andb_true_iff in E as [E Hf]. apply andb_true_iff in E as [E He].
    conditions E. apply in_class_single in He. subst e. pattern f.
    apply (in_class_cases _ "1" "9" f 9 Hf); [vm_compute; reflexivity|].
    each_below 9 (intros _; unfold Strptime.strptime, Strptime.format_regex_match;
                  cbn [app]; rewrite (re_Y_digits a b c d) by assumption;
                  lazy -[Strptime.int_of DateTime.new]; reflexivity).
  - destruct (_ && _) eqn:E; [|discriminate]. intros H. inversion H; subst y m; clear H.
    apply andb_true_iff in E as [E Hm]. apply andb_true_iff in E as [E He].
    conditions E. apply in_class_single in He. subst e.
    apply orb_true_iff in Hm as [Hm|Hm]; apply andb_true_iff in Hm as [Hf Hg];
      apply in_class_single in Hf; subst f; pattern g.
    + apply (in_class_cases _ "0" "2" g 3 Hg); [vm_compute; reflexivity|].
      each_below 3 (intros _; unfold Strptime.strptime, Strptime.format_regex_match;
                    cbn [app]; rewrite (re_Y_digits a b c d) by assumption;
                    lazy -[Strptime.int_of DateTime.new]; reflexivity).
    + apply (in_class_cases _ "1" "9" g 9 Hg); [vm_compute; reflexivity|].
      each_below 9 (intros _; unfold Strptime.strptime, Strptime.format_regex_match;
                    cbn [app]; rewrite (re_Y_digits a b c d) by assumption;
                    lazy -[Strptime.int_of DateTime.new]; reflexivity).
Qed.

Lemma period_value_bounds s y m :
  period_value s = Some (y, m) -> 0 <= y <= 9999 /\ 1 <= m <= 12.
Proof.
  unfold period_value. set (l := Unicode.code_points s). clearbody l.
  destruct l as [|a [|b [|c [|d [|e [|f [|g [|h l]]]]]]]]; try discriminate.
  - destruct (_ && _) eqn:E; [|discriminate]. intros H. inversion H; subst y m; clear H.
    apply andb_true_iff in E as [E Hf]. apply andb_true_iff in E as [E He]. conditions E.
    rewrite int_of_year.
    pose proof (isdecimal_value a E). pose proof (isdecimal_value b C1).
    pose proof (isdecimal_value c C0). pose proof (isdecimal_value d C).
    split; [lia|]. pattern f.
    apply (in_class_cases _ "1" "9" f 9 Hf); [vm_compute; reflexivity|].
    each_below 9 (intros _; vm_compute; split; discriminate).
  - destruct (_ && _) eqn:E; [|discriminate]. intros H. inversion H; subst y m; clear H.
    apply andb_true_iff in E as [E Hm]. apply andb_true_iff in E as [E He]. conditions E.
    rewrite int_of_year.
    pose proof (isdecimal_value a E). pose proof (isdecimal_value b C1).
    pose proof (isdecimal_value c C0). pose proof (isdecimal_value d C).
    split; [lia|].
    apply orb_true_iff in Hm as [Hm|Hm]; apply andb_true_iff in Hm as [Hf Hg];
      apply in_class_single in Hf; subst f; pattern g.
    + apply (in_class_cases _ "0" "2" g 3 Hg); [vm_compute; reflexivity|].
      each_below 3 (intros _; vm_compute; split; discriminate).
    + apply (in_class_cases _ "1" "9" g 9 Hg); [vm_compute; reflexivity|].
      each_below 9 (intros _; vm_compute; split; discriminate).
Qed.

(** ** The bounds of a month *)

Lemma replace_first_instant y m y' m' :
  1 <= y' <= 9999 -> 1 <= m' <= 12 ->
  DateTime.replace (first_instant y m) (Some y') (Some m') (Some 1) = Ok (first_instant y' m').
Proof.
  intros Hy Hm. unfold DateTime.replace.
  cbn [default from_option id DateTime.hour DateTime.minute DateTime.second
       DateTime.microsecond DateTime.year DateTime.month DateTime.day first_instant].
  apply new_first_instant; assumption.
Qed.

(** [month_bounds], token by token. *)
Lemma month_bounds_value s :
  month_bounds s
  = match period_value s with
    | Some (y, m) =>
        if y =? 0 then Raise invalid_period
        else if (y =? 9999) && (m =? 12) then Raise ValueError
        else Ok (first_instant y m, next_month y m)
    | None => Raise invalid_period
    end.
Proof.
  unfold month_bounds. destruct (period_value s) as [[y m]|] eqn:E.
  - rewrite (strptime_value s y m E). destruct (period_value_bounds s y m E) as [Hy Hm].
    destruct (y =? 0) eqn:E0.
    + apply Z.eqb_eq in E0. subst y. rewrite new_year_zero. reflexivity.
    + apply Z.eqb_neq in E0. rewrite new_first_instant by lia.
      cbn [DateTime.month DateTime.year first_instant]. unfold next_month.
      destruct (m =? 12) eqn:E12.
      * apply Z.eqb_eq in E12. subst m. rewrite andb_true_r.
        destruct (y =? 9999) eqn:E9.
        -- apply Z.eqb_eq in E9. subst y. reflexivity.
        -- apply Z.eqb_neq in E9. rewrite replace_first_instant by lia. reflexivity.
      * apply Z.eqb_neq in E12. rewrite andb_false_r.
        unfold DateTime.replace.
        cbn [default from_option id DateTime.hour DateTime.minute DateTime.second
             DateTime.microsecond DateTime.year DateTime.month DateTime.day first_instant].
        rewrite new_first_instant by lia. reflexivity.
  - unfold Strptime.strptime. change (Unicode.code_points "-01") with [45; 48; 49].
    destruct (Strptime.format_regex_match _) as [[[[Y m] d] rest]|] eqn:F; [|reflexivity].
    destruct rest; [|reflexivity].
    apply full_match_value in F. congruence.
Qed.

Lemma month_bounds_rejects s :
  lenient_period s = false -> month_bounds s = Raise invalid_period.
Proof.
  unfold lenient_period. rewrite month_bounds_value.
  destruct (period_value s) as [[y m]|]; [|reflexivity].
  destruct (y =? 0); [reflexivity|discriminate].
Qed.

(** A token [month_bounds] takes denotes a month of a year 1 to 9999. *)
Lemma month_bounds_lenient s :
  lenient_period s = true ->
  exists y m,
    1 <= y <= 9999 /\ 1 <= m <= 12 /\ period_value s = Some (y, m)
    /\ month_bounds s = if (y =? 9999) && (m =? 12) then Raise ValueError
                        else Ok (first_instant y m, next_month y m).
Proof.
  unfold lenient_period. rewrite month_bounds_value.
  destruct (period_value s) as [[y m]|] eqn:E; [|discriminate].
  destruct (period_value_bounds s y m E) as [Hy Hm].
  destruct (y =? 0) eqn:E0; [discriminate|]. apply Z.eqb_neq in E0. intros _.
  exists y, m. repeat split; lia.
Qed.

(** The failures of [month_bounds]. *)
Lemma month_bounds_raises s e :
  month_bounds s = Raise e ->
  (e = invalid_period /\ lenient_period s = false)
  \/ (e = ValueError /\ period_value s = Some (9999, 12)).
Proof.
  unfold lenient_period. rewrite month_bounds_value.
  destruct (period_value s) as [[y m]|]; [|intros H; inversion H; auto].
  destruct (y =? 0); [intros H; inversion H; auto|].
  destruct (y =? 9999) eqn:Ey; destruct (m =? 12) eqn:Em; cbn [andb]; try discriminate.
  apply Z.eqb_eq in Ey, Em. subst. intros H. inversion H. auto.
Qed.

Lemma month_bounds_returns s start end_ :
  month_bounds s = Ok (start, end_) ->
  exists y m,
    1 <= y <= 9999 /\ 1 <= m <= 12 /\ ~ (y = 9999 /\ m = 12)
    /\ period_value s = Some (y, m)
    /\ start = first_instant y m /\ end_ = next_month y m.
Proof.
  rewrite month_bounds_value.
  destruct (period_value s) as [[y m]|] eqn:E; [|discriminate].
  destruct (period_value_bounds s y m E) as [Hy Hm].
  destruct (y =? 0) eqn:E0; [discriminate|]. apply Z.eqb_neq in E0.
  destruct ((y =? 9999) && (m =? 12)) eqn:E9; [discriminate|].
  intros H. inversion H. exists y, m. repeat split; lia.
Qed.

(** The tokens of ASCII. *)
Lemma period_value_token y m :
  0 <= y <= 9999 -> 1 <= m <= 12 -> period_value (period_token y m) = Some (y, m).
Proof.
  intros Hy Hm. unfold period_value, period_token.
  destruct (digit_char_spec (y / 1000 mod 10) (digit_in_range y 1000 ltac:(lia)))
    as (Ba & Ha & Va).
  destruct (digit_char_spec (y / 100 mod 10) (digit_in_range y 100 ltac:(lia)))
    as (Bb & Hb & Vb).
  destruct (digit_char_spec (y / 10 mod 10) (digit_in_range y 10 ltac:(lia)))
    as (Bc & Hc & Vc).
  assert (Hd0 : 0 <= y mod 10 <= 9) by (Z.div_mod_to_equations; lia).
  destruct (digit_char_spec (y mod 10) Hd0) as (Bd & Hd & Vd).
  pose proof (year_digits y Hy) as HY.
  assert (Hg0 : 0 <= m mod 10 <= 9) by (Z.div_mod_to_equations; lia).
  rewrite !code_points_digit by first [assumption | apply digit_in_range; lia].
  rewrite code_points_ascii by (vm_compute; reflexivity).
  rewrite !code_points_digit by first [assumption | apply digit_in_range; lia].
  cbn [Unicode.code_points].
  set (a := 48 + y / 1000 mod 10) in *. set (b := 48 + y / 100 mod 10) in *.
  set (c := 48 + y / 10 mod 10) in *. set (d := 48 + y mod 10) in *.
  assert (Strptime.int_of [a; b; c; d] = y) as HI by (rewrite int_of_year; lia).
  clearbody a b c d. generalize Hm. pattern m. apply (below_cases _ 13); [|lia].
  each_below 13 (intros Hm'; try lia; cbn -[Strptime.int_of Unicode.isdecimal];
                 rewrite Ha, Hb, Hc, Hd, HI; reflexivity).
Qed.

Lemma period_value_short_token y m :
  0 <= y <= 9999 -> 1 <= m <= 9 -> period_value (short_token y m) = Some (y, m).
Proof.
  intros Hy Hm. unfold period_value, short_token.
  destruct (digit_char_spec (y / 1000 mod 10) (digit_in_range y 1000 ltac:(lia)))
    as (Ba & Ha & Va).
  destruct (digit_char_spec (y / 100 mod 10) (digit_in_range y 100 ltac:(lia)))
    as (Bb & Hb & Vb).
  destruct (digit_char_spec (y / 10 mod 10) (digit_in_range y 10 ltac:(lia)))
    as (Bc & Hc & Vc).
  assert (Hd0 : 0 <= y mod 10 <= 9) by (Z.div_mod_to_equations; lia).
  destruct (digit_char_spec (y mod 10) Hd0) as (Bd & Hd & Vd).
  pose proof (year_digits y Hy) as HY.
  rewrite !code_points_digit by first [assumption | apply digit_in_range; lia].
  rewrite code_points_ascii by (vm_compute; reflexivity).
  rewrite !code_points_digit by lia.
  cbn [Unicode.code_points].
  set (a := 48 + y / 1000 mod 10) in *. set (b := 48 + y / 100 mod 10) in *.
  set (c := 48 + y / 10 mod 10) in *. set (d := 48 + y mod 10) in *.
  assert (Strptime.int_of [a; b; c; d] = y) as HI by (rewrite int_of_year; lia).
  clearbody a b c d. generalize Hm. pattern m. apply (below_cases _ 10); [|lia].
  each_below 10 (intros Hm'; try lia; cbn -[Strptime.int_of Unicode.isdecimal];
                 rewrite Ha, Hb, Hc, Hd, HI; reflexivity).
Qed.

Example month_bounds_2024_02 :
  month_bounds "2024-02"
  = Ok (DateTime.mk 2024 2 1 0 0 0 0, DateTime.mk 2024 3 1 0 0 0 0).
Proof. reflexivity. Qed.

(** The digits of other scripts are digits to [strptime]. *)
Example month_bounds_devanagari :
  month_bounds "20२4-12"
  = Ok (DateTime.mk 2024 12 1 0 0 0 0, DateTime.mk 2025 1 1 0 0 0 0).
Proof. reflexivity. Qed.

Example month_bounds_fullwidth_9999_12 : month_bounds "９９９９-12" = Raise ValueError.
Proof. reflexivity. Qed.

Lemma month_bounds_token y m :
  1 <= y <= 9999 -> 1 <= m <= 12 -> ~ (y = 9999 /\ m = 12) ->
  month_bounds (period_token y m) = Ok (first_instant y m, next_month y m).
Proof.
  intros Hy Hm Hne. rewrite month_bounds_value, period_value_token by lia.
  replace (y =? 0) with false by lia.
  replace ((y =? 9999) && (m =? 12)) with false by lia. reflexivity.
Qed.

Lemma month_bounds_short y m :
  1 <= y <= 9999 -> 1 <= m <= 9 ->
  month_bounds (short_token y m) = Ok (first_instant y m, next_month y m).
Proof.
  intros Hy Hm. rewrite month_bounds_value, period_value_short_token by lia.
  replace (y =? 0) with false by lia.
  replace ((y =? 9999) && (m =? 12)) with false by lia. reflexivity.
Qed.

Lemma div_pred_4 y : (y - 1) / 4 = y / 4 - (if y mod 4 =? 0 then 1 else 0).
Proof. destruct (Z.eqb_spec (y mod 4) 0); Z.div_mod_to_equations; lia. Qed.

Lemma div_pred_100 y : (y - 1) / 100 = y / 100 - (if y mod 100 =? 0 then 1 else 0).
Proof. destruct (Z.eqb_spec (y mod 100) 0); Z.div_mod_to_equations; lia. Qed.

Lemma div_pred_400 y : (y - 1) / 400 = y / 400 - (if y mod 400 =? 0 then 1 else 0).
Proof. destruct (Z.eqb_spec (y mod 400) 0); Z.div_mod_to_equations; lia. Qed.

Lemma mod_100_4 y : y mod 100 = 0 -> y mod 4 = 0.
Proof. intros H. Z.div_mod_to_equations. lia. Qed.

Lemma mod_400_100 y : y mod 400 = 0 -> y mod 100 = 0.
Proof. intros H. Z.div_mod_to_equations. lia. Qed.

Lemma year_length y :
  DateTime.days_before_year (y + 1) - DateTime.days_before_year y
  = if DateTime.is_leap y then 366 else 365.
Proof.
  unfold DateTime.days_before_year, DateTime.is_leap.
  replace (y + 1 - 1) with y by lia.
  rewrite div_pred_4, div_pred_100, div_pred_400.
  pose proof (mod_100_4 y). pose proof (mod_400_100 y).
  destruct (Z.eqb_spec (y mod 4) 0); destruct (Z.eqb_spec (y mod 100) 0);
    destruct (Z.eqb_spec (y mod 400) 0); cbn [andb orb negb]; lia.
Qed.

Lemma month_length y m :
  1 <= m <= 12 ->
  DateTime.toordinal (next_month y m) - DateTime.toordinal (first_instant y m)
  = DateTime.days_in_month y m.
Proof.
  intros Hm. pose proof (year_length y) as Hy.
  generalize Hm. pattern m. apply (below_cases _ 13); [|lia].
  each_below 13 (intros Hm'; unfold next_month, DateTime.toordinal, DateTime.ymd2ord,
                        DateTime.days_before_month, DateTime.days_in_month; simpl;
                      try destruct (DateTime.is_leap y); simpl; lia).
Qed.

Lemma sub_first_instants y m :
  1 <= m <= 12 ->
  DateTime.sub (next_month y m) (first_instant y m)
  = DateTime.mk_timedelta (DateTime.days_in_month y m) 0 0.
Proof.
  intros Hm. unfold DateTime.sub. rewrite month_length by assumption.
  unfold next_month. destruct (m =? 12); cbn [first_instant DateTime.second DateTime.minute
    DateTime.hour DateTime.microsecond]; unfold DateTime.new_timedelta; simpl;
    rewrite Z.add_0_r; reflexivity.
Qed.

(** ** What [month_bounds] returns *)

Lemma cmp_refl x : DateTime.cmp x x = Eq.
Proof.
  unfold DateTime.cmp. induction (DateTime.fields x) as [|a l IH]; simpl; [reflexivity|].
  rewrite Z.compare_refl. exact IH.
Qed.

Lemma leb_refl x : DateTime.leb x x = true.
Proof. unfold DateTime.leb. rewrite cmp_refl. reflexivity. Qed.

Lemma ltb_irrefl x : DateTime.ltb x x = false.
Proof. unfold DateTime.ltb. rewrite cmp_refl. reflexivity. Qed.

Lemma month_bounds_lt period start end_ :
  month_bounds period = Ok (start, end_) -> DateTime.ltb start end_ = true.
Proof.
  intros H. apply month_bounds_returns in H as (y & m & _ & _ & _ & _ & -> & ->).
  unfold next_month, DateTime.ltb, DateTime.cmp. destruct (m =? 12); simpl.
  - replace (y ?= y + 1) with Lt by (symmetry; apply Z.compare_lt_iff; lia). reflexivity.
  - rewrite Z.compare_refl.
    replace (m ?= m + 1) with Lt by (symmetry; apply Z.compare_lt_iff; lia). reflexivity.
Qed.

Lemma in_range_single a c : Strptime.in_range a a c = true -> c = a.
Proof.
  unfold Strptime.in_range. rewrite andb_true_iff, !Nat.leb_le. intros H.
  rewrite <- (ascii_nat_embedding c), <- (ascii_nat_embedding a). f_equal. lia.
Qed.

(* ===================================================================== *)
(** ** Chargeback engine *)
(* ===================================================================== *)

(** ** The monad of handlers *)

Lemma bind_lift {A B} (r : result A) (k : A -> M B) (w : world) :
  (lift r ≫= k) w = match r with Ok a => k a w | Raise e => (Raise e, w) end.
Proof. destruct r; reflexivity. Qed.

Lemma bind_ok {A B} (m : M A) (k : A -> M B) (w w' : world) (a : A) :
  m w = (Ok a, w') -> (m ≫= k) w = k a w'.
Proof. intros H. unfold mbind, M_bind. rewrite H. reflexivity. Qed.

Lemma bind_raise {A B} (m : M A) (k : A -> M B) (w w' : world) (e : exn) :
  m w = (Raise e, w') -> (m ≫= k) w = (Raise e, w').
Proof. intros H. unfold mbind, M_bind. rewrite H. reflexivity. Qed.

(** ** Plans by identifier *)

Lemma plans_by_id_acc (l : list (doc Plan.t)) : forall (acc : gmap string (doc Plan.t)) id p,
  foldl (fun acc p => <[_id p := p]> acc) acc l !! id = Some p ->
  In p l \/ acc !! id = Some p.
Proof.
  induction l as [|x l IH]; intros acc id p H; simpl in *.
  - right. exact H.
  - apply IH in H. destruct H as [H|H]; [left; right; exact H|].
    destruct (decide (_id x = id)) as [Heq|Hne].
    + rewrite Heq, lookup_insert_eq in H. inversion H. left; left; reflexivity.
    + rewrite lookup_insert_ne in H by exact Hne. right. exact H.
Qed.

Lemma plans_by_id_In l id p : plans_by_id l !! id = Some p -> In p l.
Proof.
  intros H. apply plans_by_id_acc in H. destruct H as [H|H]; [exact H|].
  rewrite lookup_empty in H. discriminate.
Qed.

(** ** Counting usage *)

Lemma usage_matches_billable s start end_ e :
  usage_matches (usage_of s start end_) e = true <-> billable s start end_ e.
Proof.
  unfold usage_matches, usage_of, billable, in_period, eq_or_any. simpl.
  rewrite !andb_true_iff, !String.eqb_eq. tauto.
Qed.

Lemma count_usage_eq d s start end_ :
  Z.of_nat (length (filter (fun e => usage_matches (usage_of s start end_) e = true)
                           (usageevent d)))
  = usage_count d s start end_.
Proof.
  unfold usage_count. f_equal. f_equal.
  apply list_filter_iff. intros e. apply usage_matches_billable.
Qed.

Lemma usage_count_bounds d s start end_ :
  0 <= usage_count d s start end_ <= Z.of_nat (length (usageevent d)).
Proof.
  unfold usage_count. pose proof (length_filter (billable s start end_) (usageevent d)). lia.
Qed.

Lemma is_int64_spec z : is_int64 z = true <-> - 2 ^ 63 <= z < 2 ^ 63.
Proof. unfold is_int64. rewrite andb_true_iff, Z.leb_le, Z.ltb_lt. tauto. Qed.

Lemma int64_store_spec d :
  int64_store d = true ->
  Z.of_nat (length (usageevent d)) < 2 ^ 63
  /\ forall p, In p (plan d) -> - 2 ^ 63 <= Plan.included_calls (fields p).
Proof.
  unfold int64_store. rewrite andb_true_iff, is_int64_spec, forallb_forall.
  intros [H1 H2]. split; [lia|]. intros p Hp. apply H2 in Hp. apply is_int64_spec in Hp. lia.
Qed.

Lemma plan_terms_int64 d s :
  int64_store d = true -> - 2 ^ 63 <= t_included_calls (plan_terms d s).
Proof.
  intros H. apply int64_store_spec in H as [_ H]. unfold plan_terms.
  destruct (plans_by_id (plan d) !! _) as [p|] eqn:E; simpl; [|lia].
  apply H. eapply plans_by_id_In. exact E.
Qed.

(** ** The loop of [chargeback_report] *)

Lemma chargeback_line_world period start end_ plans s w :
  snd (chargeback_line period start end_ plans s w) = logged (count_documents c_usageevent) w.
Proof.
  unfold chargeback_line.
  erewrite bind_ok by reflexivity.
  rewrite bind_lift. destruct (py_int _); [|reflexivity].
  rewrite bind_lift. destruct (py_float _); [|reflexivity].
  rewrite bind_lift. destruct (py_float _); [|reflexivity].
  rewrite bind_lift. destruct (int_mul_float _ _); reflexivity.
Qed.

Lemma chargeback_line_spec period start end_ s w :
  int64_store (db w) = true ->
  chargeback_line period start end_ (plans_by_id (plan (db w))) s w
  = (Ok (expected_line period start end_ (db w) s), logged (count_documents c_usageevent) w).
Proof.
  intros Hst. unfold chargeback_line.
  erewrite bind_ok by reflexivity.
  rewrite count_usage_eq.
  pose proof (usage_count_bounds (db w) s start end_) as Hn.
  pose proof (plan_terms_int64 (db w) s Hst) as Hic.
  destruct (int64_store_spec _ Hst) as [Hlen _].
  unfold expected_line, billed.
  set (n := usage_count (db w) s start end_) in *.
  assert (Hov : forall ic, - 2 ^ 63 <= ic -> Z.abs (Z.max 0 (n - ic)) < 2 ^ 1023).
  { intros ic Hi. assert (2 ^ 64 < 2 ^ 1023) by (apply Z.pow_lt_mono_r; lia).
    assert (2 ^ 64 = 2 * 2 ^ 63) by reflexivity. lia. }
  unfold resolve_plan, plan_terms in *.
  destruct (plans_by_id (plan (db w)) !! Subscription.plan_id (fields s)) as [p|];
    cbn [stored_plan fallback_plan monthly_price included_calls overage_price_per_call
         t_monthly_price t_included_calls t_overage_price_per_call py_int py_float] in *.
  - rewrite !bind_lift.
    destruct (of_int_ok _ (Hov _ Hic)) as (f & Hf & Hz & _).
    unfold int_mul_float. rewrite Hf, Hz. reflexivity.
  - rewrite bind_lift. change (Float.of_int 0) with (Ok Float.zero).
    rewrite !bind_lift.
    destruct (of_int_ok _ (Hov 0 ltac:(lia))) as (f & Hf & Hz & _).
    unfold int_mul_float. rewrite Hf, Hz. reflexivity.
Qed.

Lemma chargeback_loop_world period start end_ plans subs : forall report w,
  exists k,
    snd (chargeback_loop period start end_ plans subs report w)
    = mk_world (db w) (calls w ++ repeat (count_documents c_usageevent) k).
Proof.
  induction subs as [|s subs IH]; intros report w; simpl.
  - exists 0%nat. simpl. rewrite app_nil_r. destruct w; reflexivity.
  - pose proof (chargeback_line_world period start end_ plans s w) as Hw.
    destruct (chargeback_line period start end_ plans s w) as [[line|e] w1] eqn:E;
      simpl in Hw; subst w1.
    + erewrite bind_ok by exact E.
      destruct (IH (report ++ [line])%list (logged (count_documents c_usageevent) w)) as [k Hk].
      exists (S k). rewrite Hk. simpl. rewrite <- app_assoc. reflexivity.
    + erewrite bind_raise by exact E. exists 1%nat. reflexivity.
Qed.

Lemma chargeback_loop_spec period start end_ subs : forall report w,
  int64_store (db w) = true ->
  chargeback_loop period start end_ (plans_by_id (plan (db w))) subs report w
  = (Ok (report ++ map (expected_line period start end_ (db w)) subs),
     mk_world (db w) (calls w ++ repeat (count_documents c_usageevent) (length subs))).
Proof.
  induction subs as [|s subs IH]; intros report w Hst; simpl.
  - rewrite !app_nil_r. destruct w; reflexivity.
  - erewrite bind_ok by (apply chargeback_line_spec; exact Hst).
    change (db w) with (db (logged (count_documents c_usageevent) w)) at 1.
    rewrite IH by exact Hst. simpl. rewrite <- !app_assoc. reflexivity.
Qed.

Lemma selected_eq d end_ :
  filter (fun s => subscription_matches (active_by end_) s = true) (subscription d)
  = selected d end_.
Proof. reflexivity. Qed.

(** The report of a well-formed period on a 64-bit store. *)
Lemma chargeback_report_spec period start end_ w :
  month_bounds period = Ok (start, end_) ->
  int64_store (db w) = true ->
  chargeback_report period w
  = (Ok (mk_chargeback period
           (map (expected_line period start end_ (db w)) (selected (db w) end_))),
     mk_world (db w)
       (calls w ++ find c_plan :: find c_subscription
          :: repeat (count_documents c_usageevent) (length (selected (db w) end_)))).
Proof.
  intros Hp Hst. unfold chargeback_report.
  rewrite bind_lift, Hp.
  erewrite bind_ok by reflexivity.
  erewrite bind_ok by reflexivity.
  simpl db. rewrite selected_eq.
  erewrite bind_ok.
  2:{ apply (chargeback_loop_spec period start end_ (selected (db w) end_) []
               (logged (find c_subscription) (logged (find c_plan) w))). exact Hst. }
  simpl. rewrite <- !app_assoc. reflexivity.
Qed.

(** ** Amounts *)

Lemma billed_fallback overage :
  0 <= overage < 2 ^ 1023 ->
  billed (mk_terms Float.zero 0 Float.zero) overage = Float.zero.
Proof.
  intros H. unfold billed. cbn [t_monthly_price t_overage_price_per_call].
  pose proof (of_Z_finite overage ltac:(lia)) as F.
  replace (overage <? 0) with false in F by (symmetry; apply Z.ltb_ge; lia).
  destruct (Float.of_Z overage) as [s|s| |s m e]; try tauto; subst s; reflexivity.
Qed.

Lemma billed_no_usage t :
  Float.is_finite (t_overage_price_per_call t) = true ->
  Float.is_nan (t_monthly_price t) = false ->
  Float.eqb (billed t 0) (Float.round6 (t_monthly_price t)) = true.
Proof.
  destruct t as [mp ic op]. unfold billed. cbn [t_monthly_price t_overage_price_per_call].
  intros Hop Hmp. change (Float.of_Z 0) with (S754_zero false).
  destruct op as [so|so| |so mo eo]; try discriminate;
    destruct mp as [sm|sm| |sm mm em]; try discriminate;
    try (destruct sm, so; reflexivity);
    cbn [Float.mul SFmul Float.add SFadd xorb];
    apply eqb_refl; apply round6_not_nan; reflexivity.
Qed.

(** ** Lines and subscriptions *)

Lemma Forall2_map_r {A B} (P : A -> B -> Prop) (f : A -> B) (l : list A) :
  (forall a, In a l -> P a (f a)) -> Forall2 P l (map f l).
Proof.
  induction l as [|a l IH]; intros H; simpl; constructor.
  - apply H. left; reflexivity.
  - apply IH. intros b Hb. apply H. right; exact Hb.
Qed.

Lemma is_selected_spec end_ s :
  is_selected end_ s = true <->
  Subscription.status (fields s) = "active"
  /\ exists d, Subscription.start_date (fields s) = Some d /\ DateTime.cmp d end_ <> Gt.
Proof.
  unfold is_selected, DateTime.leb. rewrite andb_true_iff, String.eqb_eq.
  split; intros [H1 H2]; (split; [exact H1|]).
  - destruct (Subscription.start_date (fields s)) as [d|]; [|discriminate].
    exists d. split; [reflexivity|]. destruct (DateTime.cmp d end_); congruence.
  - destruct H2 as (d & -> & H2). destruct (DateTime.cmp d end_); congruence.
Qed.

Lemma billable_spec s start end_ e :
  billable s start end_ e <->
  UsageEvent.api_id (fields e) = Subscription.api_id (fields s)
  /\ UsageEvent.consumer_id (fields e) = Subscription.consumer_id (fields s)
  /\ DateTime.cmp start (UsageEvent.timestamp (fields e)) <> Gt
  /\ DateTime.cmp (UsageEvent.timestamp (fields e)) end_ = Lt.
Proof.
  unfold billable, in_period, DateTime.leb, DateTime.ltb. rewrite andb_true_iff.
  destruct (DateTime.cmp start _), (DateTime.cmp _ end_); intuition congruence.
Qed.

(** ** Overview *)

Lemma successes_eq evs :
  Z.of_nat (length (filter (fun e => is_success e = true) evs)) = successes evs.
Proof.
  unfold successes. do 2 f_equal. apply list_filter_iff. intros e.
  unfold is_success. apply Z.ltb_lt.
Qed.

Lemma successes_bounds evs : 0 <= successes evs <= Z.of_nat (length evs).
Proof.
  unfold successes.
  pose proof (length_filter (fun e => UsageEvent.status_code (fields e) < 400) evs). lia.
Qed.

(* ===================================================================== *)
(** * The claims of the specification *)
(* ===================================================================== *)

(** C1.  On a well-formed period and a store of 64-bit integers,
    [chargeback_report] returns a report with one line per selected
    subscription, in which [calls] is the usage count of the subscription,
    [overage_calls = max(0, calls - included_calls)] and [amount] is
    [monthly_price + overage_calls * overage_price_per_call] rounded to six
    decimals, the three prices being those of the resolved plan. *)
Theorem chargeback_line_formula period start end_ w :
  month_bounds period = Ok (start, end_) ->
  int64_store (db w) = true ->
  exists r w',
    chargeback_report period w = (Ok r, w')
    /\ Forall2
         (fun s l =>
            let t := plan_terms (db w) s in
            Chargeback.calls l = usage_count (db w) s start end_
            /\ Chargeback.overage_calls l
               = Z.max 0 (Chargeback.calls l - t_included_calls t)
            /\ Chargeback.amount l
               = Float.round6
                   (Float.add (t_monthly_price t)
                      (Float.mul (Float.of_Z (Chargeback.overage_calls l))
                                 (t_overage_price_per_call t))))
         (selected (db w) end_) (items r).
Proof.
  intros Hp Hst. do 2 eexists. split; [apply chargeback_report_spec; eassumption|].
  cbn [items]. apply Forall2_map_r. intros s _. cbv zeta.
  unfold expected_line, billed. cbn [Chargeback.calls Chargeback.overage_calls Chargeback.amount].
  auto.
Qed.

Lemma chargeback_line_formula_witness :
  exists r w',
    chargeback_report "2024-01" Scenario.w0 = (Ok r, w')
    /\ Forall2
         (fun s l =>
            let t := plan_terms Scenario.store s in
            Chargeback.calls l
            = usage_count Scenario.store s Scenario.january_start Scenario.january_end
            /\ Chargeback.overage_calls l
               = Z.max 0 (Chargeback.calls l - t_included_calls t)
            /\ Chargeback.amount l
               = Float.round6
                   (Float.add (t_monthly_price t)
                      (Float.mul (Float.of_Z (Chargeback.overage_calls l))
                                 (t_overage_price_per_call t))))
         (selected Scenario.store Scenario.january_end) (items r).
Proof.
  apply (chargeback_line_formula "2024-01" Scenario.january_start Scenario.january_end
           Scenario.w0); reflexivity.
Defined.

(** C2.  A selected subscription whose [plan_id] is not a key of the
    preloaded plans gets a line with [amount] exactly [0.0], [calls] its
    usage count and [plan_id] the identifier of the subscription; the report
    is returned all the same. *)
Theorem missing_plan_is_billed_zero period start end_ w :
  month_bounds period = Ok (start, end_) ->
  int64_store (db w) = true ->
  exists r w',
    chargeback_report period w = (Ok r, w')
    /\ Forall2
         (fun s l =>
            plans_by_id (plan (db w)) !! Subscription.plan_id (fields s) = None ->
            Chargeback.amount l = Float.zero
            /\ Chargeback.calls l = usage_count (db w) s start end_
            /\ Chargeback.plan_id l = Subscription.plan_id (fields s))
         (selected (db w) end_) (items r).
Proof.
  intros Hp Hst. do 2 eexists. split; [apply chargeback_report_spec; eassumption|].
  cbn [items]. apply Forall2_map_r. intros s _ Hnone.
  unfold expected_line, plan_terms. rewrite Hnone.
  cbn [Chargeback.calls Chargeback.amount Chargeback.plan_id t_included_calls].
  split; [|auto].
  apply billed_fallback.
  pose proof (usage_count_bounds (db w) s start end_) as Hn.
  destruct (int64_store_spec _ Hst) as [Hlen _].
  assert (2 ^ 63 < 2 ^ 1023) by (apply Z.pow_lt_mono_r; lia). lia.
Qed.

Lemma missing_plan_is_billed_zero_witness :
  exists r w',
    chargeback_report "2024-01" Scenario.w0 = (Ok r, w')
    /\ Forall2
         (fun s l =>
            plans_by_id (plan Scenario.store) !! Subscription.plan_id (fields s) = None ->
            Chargeback.amount l = Float.zero
            /\ Chargeback.calls l
               = usage_count Scenario.store s Scenario.january_start Scenario.january_end
            /\ Chargeback.plan_id l = Subscription.plan_id (fields s))
         (selected Scenario.store Scenario.january_end) (items r).
Proof.
  apply (missing_plan_is_billed_zero "2024-01" Scenario.january_start Scenario.january_end
           Scenario.w0); reflexivity.
Defined.

(** C3.  The report has exactly one line per subscription whose status is
    ["active"] and whose [start_date] is a date not after the end of the
    period (a non-strict comparison, and none against the start), in the
    order of the store; no other subscription has a line. *)
Theorem one_line_per_selected_subscription period start end_ w :
  month_bounds period = Ok (start, end_) ->
  int64_store (db w) = true ->
  exists r w',
    chargeback_report period w = (Ok r, w')
    /\ Forall2
         (fun s l =>
            Chargeback.consumer_id l = Subscription.consumer_id (fields s)
            /\ Chargeback.api_id l = Subscription.api_id (fields s)
            /\ Chargeback.plan_id l = Subscription.plan_id (fields s)
            /\ Chargeback.period l = period)
         (selected (db w) end_) (items r)
    /\ length (items r) = length (selected (db w) end_)
    /\ forall s,
         s ∈ selected (db w) end_ <->
         s ∈ subscription (db w)
         /\ Subscription.status (fields s) = "active"
         /\ exists d, Subscription.start_date (fields s) = Some d
                      /\ DateTime.cmp d end_ <> Gt.
Proof.
  intros Hp Hst. do 2 eexists. split; [apply chargeback_report_spec; eassumption|].
  cbn [items]. split; [|split].
  - apply Forall2_map_r. intros s _. unfold expected_line. cbn. auto.
  - apply length_map.
  - intros s. unfold selected. rewrite list_elem_of_filter, is_selected_spec. tauto.
Qed.

Lemma one_line_per_selected_subscription_witness :
  exists r w',
    chargeback_report "2024-01" Scenario.w0 = (Ok r, w')
    /\ Forall2
         (fun s l =>
            Chargeback.consumer_id l = Subscription.consumer_id (fields s)
            /\ Chargeback.api_id l = Subscription.api_id (fields s)
            /\ Chargeback.plan_id l = Subscription.plan_id (fields s)
            /\ Chargeback.period l = "2024-01")
         (selected Scenario.store Scenario.january_end) (items r)
    /\ length (items r) = length (selected Scenario.store Scenario.january_end)
    /\ forall s,
         s ∈ selected Scenario.store Scenario.january_end <->
         s ∈ subscription Scenario.store
         /\ Subscription.status (fields s) = "active"
         /\ exists d, Subscription.start_date (fields s) = Some d
                      /\ DateTime.cmp d Scenario.january_end <> Gt.
Proof.
  apply (one_line_per_selected_subscription "2024-01" Scenario.january_start
           Scenario.january_end Scenario.w0); reflexivity.
Defined.

(** C4, as the specification states it, fails on the last month the
    calendar has: [9999-12] is a token [YYYY-MM], and [month_bounds] leaves
    with the [ValueError] of the year 10000, outside its [try]. *)
Lemma month_bounds_9999_12 :
  strict_period "9999-12" = true
  /\ period_token 9999 12 = "9999-12"
  /\ month_bounds "9999-12" = Raise ValueError.
Proof. repeat split; reflexivity. Qed.

(** C4, amended.  For every token [YYYY-MM] of a year 0001 to 9999 and a
    month 01 to 12 other than [9999-12], [month_bounds] returns the first
    instant of the month and the first instant of the month after, December
    going to January of the next year, and [end - start] is the number of
    days of the month. *)
Theorem month_bounds_of_token y m :
  1 <= y <= 9999 -> 1 <= m <= 12 -> ~ (y = 9999 /\ m = 12) ->
  exists start end_,
    month_bounds (period_token y m) = Ok (start, end_)
    /\ start = DateTime.mk y m 1 0 0 0 0
    /\ end_ = (if m =? 12 then DateTime.mk (y + 1) 1 1 0 0 0 0
               else DateTime.mk y (m + 1) 1 0 0 0 0)
    /\ DateTime.sub end_ start
       = DateTime.mk_timedelta (DateTime.days_in_month y m) 0 0.
Proof.
  intros Hy Hm Hne. exists (first_instant y m), (next_month y m).
  split; [apply month_bounds_token; assumption|].
  split; [reflexivity|]. split.
  - unfold next_month. destruct (m =? 12); reflexivity.
  - apply sub_first_instants. assumption.
Qed.

Lemma month_bounds_of_token_witness :
  exists start end_,
    month_bounds "2024-02" = Ok (start, end_)
    /\ start = DateTime.mk 2024 2 1 0 0 0 0
    /\ end_ = DateTime.mk 2024 3 1 0 0 0 0
    /\ DateTime.sub end_ start = DateTime.mk_timedelta 29 0 0.
Proof.
  apply (month_bounds_of_token 2024 2); lia.
Defined.

(** C5, as the specification states it, fails on a month written with one
    digit: ["2024-1"] is not a token [YYYY-MM], and [month_bounds] takes it
    for January 2024. *)
Lemma month_bounds_takes_short_month :
  strict_period "2024-1" = false
  /\ month_bounds "2024-1"
     = Ok (DateTime.mk 2024 1 1 0 0 0 0, DateTime.mk 2024 2 1 0 0 0 0).
Proof. split; reflexivity. Qed.

(** C5, amended.  Every token that is neither a token [YYYY-MM] (year not
    [0000], month 01 to 12) nor such a token with a one-digit month 1 to 9,
    the four digits of the year being decimal digits of any script, makes
    [month_bounds] raise the HTTP 400 "Invalid period", and
    [chargeback_report] raises it before any call on the store. *)
Theorem invalid_period_fails_fast s w :
  lenient_period s = false ->
  month_bounds s = Raise invalid_period
  /\ chargeback_report s w = (Raise invalid_period, w).
Proof.
  intros H. apply month_bounds_rejects in H. split; [exact H|].
  unfold chargeback_report. rewrite bind_lift, H. reflexivity.
Qed.

Lemma invalid_period_fails_fast_witness :
  month_bounds "2024-13" = Raise invalid_period
  /\ chargeback_report "2024-13" Scenario.w0 = (Raise invalid_period, Scenario.w0).
Proof.
  apply (invalid_period_fails_fast "2024-13" Scenario.w0). reflexivity.
Defined.

Example invalid_period_examples :
  lenient_period "2024-13" = false /\ lenient_period "abcd" = false
  /\ lenient_period "2024/01" = false /\ lenient_period "0000-01" = false
  /\ lenient_period "2024-१2" = false
  /\ lenient_period "2024-1" = true /\ lenient_period "20२4-12" = true.
Proof. repeat split; reflexivity. Qed.

(** C6.  The [calls] of a line count exactly the usage events whose
    [api_id] and [consumer_id] are those of the subscription and whose
    timestamp lies in [[start, end)]: an event at [start] counts, an event
    at [end] does not. *)
Theorem usage_counted_on_half_open_period period start end_ w :
  month_bounds period = Ok (start, end_) ->
  int64_store (db w) = true ->
  exists r w',
    chargeback_report period w = (Ok r, w')
    /\ Forall2
         (fun s l =>
            Chargeback.calls l
            = Z.of_nat (length (filter (billable s start end_) (usageevent (db w)))))
         (selected (db w) end_) (items r)
    /\ (forall s e,
          billable s start end_ e <->
          UsageEvent.api_id (fields e) = Subscription.api_id (fields s)
          /\ UsageEvent.consumer_id (fields e) = Subscription.consumer_id (fields s)
          /\ DateTime.cmp start (UsageEvent.timestamp (fields e)) <> Gt
          /\ DateTime.cmp (UsageEvent.timestamp (fields e)) end_ = Lt)
    /\ (forall s e,
          UsageEvent.api_id (fields e) = Subscription.api_id (fields s) ->
          UsageEvent.consumer_id (fields e) = Subscription.consumer_id (fields s) ->
          UsageEvent.timestamp (fields e) = start ->
          billable s start end_ e)
    /\ (forall s e,
          UsageEvent.timestamp (fields e) = end_ -> ~ billable s start end_ e).
Proof.
  intros Hp Hst. do 2 eexists. split; [apply chargeback_report_spec; eassumption|].
  cbn [items]. split; [|split; [|split]].
  - apply Forall2_map_r. intros s _. reflexivity.
  - intros s e. apply billable_spec.
  - intros s e Ha Hc Ht. unfold billable, in_period. rewrite Ht, leb_refl.
    rewrite (month_bounds_lt _ _ _ Hp). auto.
  - intros s e Ht (_ & _ & Hin). unfold in_period in Hin.
    rewrite Ht, ltb_irrefl, andb_false_r in Hin. discriminate.
Qed.

Lemma usage_counted_on_half_open_period_witness :
  exists r w',
    chargeback_report "2024-01" Scenario.w0 = (Ok r, w')
    /\ Forall2
         (fun s l =>
            Chargeback.calls l
            = Z.of_nat (length (filter (billable s Scenario.january_start Scenario.january_end)
                                       (usageevent Scenario.store))))
         (selected Scenario.store Scenario.january_end) (items r)
    /\ (forall s e,
          billable s Scenario.january_start Scenario.january_end e <->
          UsageEvent.api_id (fields e) = Subscription.api_id (fields s)
          /\ UsageEvent.consumer_id (fields e) = Subscription.consumer_id (fields s)
          /\ DateTime.cmp Scenario.january_start (UsageEvent.timestamp (fields e)) <> Gt
          /\ DateTime.cmp (UsageEvent.timestamp (fields e)) Scenario.january_end = Lt)
    /\ (forall s e,
          UsageEvent.api_id (fields e) = Subscription.api_id (fields s) ->
          UsageEvent.consumer_id (fields e) = Subscription.consumer_id (fields s) ->
          UsageEvent.timestamp (fields e) = Scenario.january_start ->
          billable s Scenario.january_start Scenario.january_end e)
    /\ (forall s e,
          UsageEvent.timestamp (fields e) = Scenario.january_end ->
          ~ billable s Scenario.january_start Scenario.january_end e).
Proof.
  apply (usage_counted_on_half_open_period "2024-01" Scenario.january_start
           Scenario.january_end Scenario.w0); reflexivity.
Defined.

(** The five events of consumer [c1] on API [a1]: the one at the start of
    January counts, the one at the start of February does not. *)
Example usage_count_january :
  usage_count Scenario.store Scenario.s_jan Scenario.january_start Scenario.january_end = 4.
Proof. reflexivity. Qed.

(** C7, as the specification states it, fails on a price with more than
    six decimals: with a plan at 0.1234567 a month and no usage, the line has
    no overage and an [amount] of 0.123457, which is not the monthly price. *)
Lemma amount_of_fine_price_is_rounded :
  exists l,
    fst (chargeback_report "2024-01" (mk_world Scenario.fine_store []))
    = Ok (mk_chargeback "2024-01" [l])
    /\ Chargeback.calls l = 0
    /\ Chargeback.overage_calls l = 0
    /\ Chargeback.amount l = Float.of_decimal 123457 1000000
    /\ Float.eqb (Chargeback.amount l) (Plan.monthly_price (fields Scenario.fine)) = false.
Proof. eexists. repeat split; reflexivity. Qed.

(** C7, amended.  A selected subscription with no matching usage event,
    whose resolved plan has a non-negative [included_calls], a finite
    [overage_price_per_call] and a [monthly_price] that is a number, gets a
    line with [overage_calls = 0] and an [amount] equal to the monthly price
    rounded to six decimals. *)
Theorem no_usage_bills_rounded_monthly_price period start end_ w :
  month_bounds period = Ok (start, end_) ->
  int64_store (db w) = true ->
  exists r w',
    chargeback_report period w = (Ok r, w')
    /\ Forall2
         (fun s l =>
            let t := plan_terms (db w) s in
            usage_count (db w) s start end_ = 0 ->
            0 <= t_included_calls t ->
            Float.is_finite (t_overage_price_per_call t) = true ->
            Float.is_nan (t_monthly_price t) = false ->
            Chargeback.overage_calls l = 0
            /\ Float.eqb (Chargeback.amount l) (Float.round6 (t_monthly_price t)) = true)
         (selected (db w) end_) (items r).
Proof.
  intros Hp Hst. do 2 eexists. split; [apply chargeback_report_spec; eassumption|].
  cbn [items]. apply Forall2_map_r. intros s _. cbv zeta. intros Hn Hic Hop Hmp.
  unfold expected_line. cbn [Chargeback.overage_calls Chargeback.amount]. rewrite Hn.
  replace (Z.max 0 (0 - t_included_calls (plan_terms (db w) s))) with 0 by lia.
  split; [reflexivity|]. apply billed_no_usage; assumption.
Qed.

Lemma no_usage_bills_rounded_monthly_price_witness :
  exists r w',
    chargeback_report "2024-01" Scenario.w0 = (Ok r, w')
    /\ Forall2
         (fun s l =>
            let t := plan_terms Scenario.store s in
            usage_count Scenario.store s Scenario.january_start Scenario.january_end = 0 ->
            0 <= t_included_calls t ->
            Float.is_finite (t_overage_price_per_call t) = true ->
            Float.is_nan (t_monthly_price t) = false ->
            Chargeback.overage_calls l = 0
            /\ Float.eqb (Chargeback.amount l) (Float.round6 (t_monthly_price t)) = true)
         (selected Scenario.store Scenario.january_end) (items r).
Proof.
  apply (no_usage_bills_rounded_monthly_price "2024-01" Scenario.january_start
           Scenario.january_end Scenario.w0); reflexivity.
Defined.

(** C8.  The overview reports [total_calls] as the number of matching
    events; with none, [success_rate] and [avg_latency_ms] are both null;
    with some, [success_rate] is the quotient of the number of matching
    events of status below 400 by [total_calls], and [avg_latency_ms] is the
    mean of the latencies present, null when there is none. *)
Theorem overview_rates period filt w :
  overview_filter period = Ok filt ->
  let evs := matching filt (db w) in
  exists r w',
    metrics_overview period w = (Ok r, w')
    /\ total_calls r = Z.of_nat (length evs)
    /\ (evs = [] -> success_rate r = None /\ avg_latency_ms r = None)
    /\ (evs <> [] ->
        (exists f, Float.int_truediv (successes evs) (Z.of_nat (length evs)) = Ok f
                   /\ success_rate r = Some f)
        /\ avg_latency_ms r
           = match latencies evs with
             | [] => None
             | l => Some (Float.div (Float.of_Z (sumZ l))
                                    (Float.of_Z (Z.of_nat (length l))))
             end).
Proof.
  intros Hf. cbv zeta. unfold metrics_overview.
  rewrite bind_lift, Hf.
  erewrite bind_ok by reflexivity.
  erewrite bind_ok by reflexivity.
  cbn [db logged]. fold (matching filt (db w)).
  destruct (matching filt (db w)) as [|e evs'].
  - cbn [group_usage length]. change (Z.of_nat 0 =? 0) with true.
    rewrite bind_lift. cbv beta iota.
    erewrite bind_ok by reflexivity.
    erewrite bind_ok by reflexivity.
    erewrite bind_ok by reflexivity.
    do 2 eexists. split; [reflexivity|]. cbn [total_calls success_rate avg_latency_ms].
    split; [reflexivity|]. split; [auto|]. intros H; congruence.
  - set (evs := e :: evs').
    assert (Hg : group_usage evs
                 = [mk_usage_group (mongo_avg (latencies evs)) (successes evs)
                                   (Z.of_nat (length evs))]).
    { unfold group_usage, evs. rewrite successes_eq. reflexivity. }
    rewrite Hg. cbn [success avg_latency].
    pose proof (successes_bounds evs) as Hs.
    assert (Hlen : 0 < Z.of_nat (length evs)) by (unfold evs; simpl; lia).
    destruct (int_truediv_ok (successes evs) (Z.of_nat (length evs)) Hs Hlen) as [f Hdiv].
    replace (Z.of_nat (length evs) =? 0) with false by (symmetry; apply Z.eqb_neq; lia).
    rewrite bind_lift, Hdiv. cbn [mbind result_bind]. cbv beta iota.
    erewrite bind_ok by reflexivity.
    erewrite bind_ok by reflexivity.
    erewrite bind_ok by reflexivity.
    do 2 eexists. split; [reflexivity|]. cbn [total_calls success_rate avg_latency_ms].
    split; [reflexivity|]. split; [intros H; discriminate|].
    intros _. split; [exists f; auto|].
    unfold mongo_avg. destruct (latencies evs); reflexivity.
Qed.
Lemma overview_rates_witness :
  let evs := matching (mk_usage_query None None
                         (Some (Scenario.january_start, Scenario.january_end)))
                      Scenario.store in
  exists r w',
    metrics_overview (Some "2024-01") Scenario.w0 = (Ok r, w')
    /\ total_calls r = Z.of_nat (length evs)
    /\ (evs = [] -> success_rate r = None /\ avg_latency_ms r = None)
    /\ (evs <> [] ->
        (exists f, Float.int_truediv (successes evs) (Z.of_nat (length evs)) = Ok f
                   /\ success_rate r = Some f)
        /\ avg_latency_ms r
           = match latencies evs with
             | [] => None
             | l => Some (Float.div (Float.of_Z (sumZ l))
                                    (Float.of_Z (Z.of_nat (length l))))
             end).
Proof.
  apply (overview_rates (Some "2024-01")
           (mk_usage_query None None (Some (Scenario.january_start, Scenario.january_end)))
           Scenario.w0).
  reflexivity.
Defined.

(** January of the small store: 7 calls, 5 of them below 400, latencies
    120, 81, 40 and 9; a month without events has neither rate nor mean. *)
Example overview_january :
  fst (metrics_overview (Some "2024-01") Scenario.w0)
  = Ok (mk_overview 7 (Some (Float.of_decimal 625 10)) (Some (Float.of_decimal 5 7)) 0 0 5).
Proof. reflexivity. Qed.

Example overview_empty_month :
  fst (metrics_overview (Some "2031-01") Scenario.w0) = Ok (mk_overview 0 None None 0 0 5).
Proof. reflexivity. Qed.

(** C9.  Every line of the report whose resolved plan has a non-negative
    [included_calls] has [0 <= overage_calls <= calls]; the fallback of a
    missing plan has [included_calls = 0]. *)
Theorem overage_within_calls period start end_ w :
  month_bounds period = Ok (start, end_) ->
  int64_store (db w) = true ->
  exists r w',
    chargeback_report period w = (Ok r, w')
    /\ Forall2
         (fun s l =>
            (plans_by_id (plan (db w)) !! Subscription.plan_id (fields s) = None ->
             t_included_calls (plan_terms (db w) s) = 0)
            /\ (0 <= t_included_calls (plan_terms (db w) s) ->
                0 <= Chargeback.overage_calls l <= Chargeback.calls l))
         (selected (db w) end_) (items r).
Proof.
  intros Hp Hst. do 2 eexists. split; [apply chargeback_report_spec; eassumption|].
  cbn [items]. apply Forall2_map_r. intros s _. split.
  - intros Hnone. unfold plan_terms. rewrite Hnone. reflexivity.
  - intros Hpos. unfold expected_line. cbn [Chargeback.overage_calls Chargeback.calls].
    pose proof (usage_count_bounds (db w) s start end_) as Hn. lia.
Qed.

Lemma overage_within_calls_witness :
  exists r w',
    chargeback_report "2024-01" (mk_world twin_store []) = (Ok r, w')
    /\ Forall2
         (fun s l =>
            (plans_by_id (plan twin_store) !! Subscription.plan_id (fields s) = None ->
             t_included_calls (plan_terms twin_store s) = 0)
            /\ (0 <= t_included_calls (plan_terms twin_store s) ->
                0 <= Chargeback.overage_calls l <= Chargeback.calls l))
         (selected twin_store Scenario.january_end) (items r).
Proof.
  apply (overage_within_calls "2024-01" Scenario.january_start Scenario.january_end
           (mk_world twin_store [])); reflexivity.
Defined.

(** C10.  Whatever the period and the store, [chargeback_report] leaves
    the store as it found it, and the calls it makes are [find] on the plans,
    [find] on the subscriptions and [count_documents] on the usage events:
    no insertion, update or deletion. *)
Theorem chargeback_report_read_only period w :
  db (snd (chargeback_report period w)) = db w
  /\ exists ops,
       calls (snd (chargeback_report period w)) = calls w ++ ops
       /\ Forall chargeback_reads ops
       /\ Forall (fun op => is_read op = true) ops.
Proof.
  unfold chargeback_report. rewrite bind_lift.
  destruct (month_bounds period) as [[start end_]|e].
  - erewrite bind_ok by reflexivity.
    erewrite bind_ok by reflexivity.
    set (w2 := logged (find c_subscription) (logged (find c_plan) w)).
    set (subs := filter _ _). set (plans := plans_by_id _).
    destruct (chargeback_loop_world period start end_ plans subs [] w2) as [k Hk].
    destruct (chargeback_loop period start end_ plans subs [] w2) as [[report|e] w'] eqn:E;
      cbn [snd] in Hk; subst w'.
    + erewrite bind_ok by exact E. cbn [mret M_ret snd db calls].
      split; [reflexivity|].
      exists (find c_plan :: find c_subscription :: repeat (count_documents c_usageevent) k).
      split; [unfold w2; cbn [logged calls db]; rewrite <- !app_assoc; reflexivity|].
      split; repeat constructor; unfold chargeback_reads; auto;
        apply Forall_forall; intros op Hop;
        apply list_elem_of_In, repeat_spec in Hop; subst op; auto.
    + erewrite bind_raise by exact E. cbn [snd db calls].
      split; [reflexivity|].
      exists (find c_plan :: find c_subscription :: repeat (count_documents c_usageevent) k).
      split; [unfold w2; cbn [logged calls db]; rewrite <- !app_assoc; reflexivity|].
      split; repeat constructor; unfold chargeback_reads; auto;
        apply Forall_forall; intros op Hop;
        apply list_elem_of_In, repeat_spec in Hop; subst op; auto.
  - cbn [snd]. split; [reflexivity|]. exists []. rewrite app_nil_r. auto.
Qed.

(** By contrast [update_plan] writes: the plan of the small store is
    replaced, through one [update_one]. *)
Example update_plan_writes :
  let w' := snd (update_plan (_id Scenario.pro) (fields Scenario.fine) Scenario.w0) in
  plan (db w') = [Scenario.fine] /\ calls w' = [update_one c_plan].
Proof. split; reflexivity. Qed.

(** The scenario of the specification, scaled down: 4 calls against 2
    included, 100 a month and 0.0005 a call over, is billed 100.001. *)
Example chargeback_january :
  fst (chargeback_report "2024-01" Scenario.w0)
  = Ok (mk_chargeback "2024-01"
          [ Chargeback.mk "c1" "a1" (_id Scenario.pro) "2024-01" 4 2
                          (Float.of_decimal 100001 1000);
            Chargeback.mk "c2" "a1" "64b0000000000000000000ff" "2024-01" 2 2 Float.zero;
            Chargeback.mk "c4" "a1" (_id Scenario.pro) "2024-01" 0 0 (Float.of_Z 100) ]).
Proof. reflexivity. Qed.

(** The scenario of the specification in full: 10500 events in January
    against 10000 included calls, 100 a month and 0.0005 a call over, is
    billed 100.25 for 500 calls over. *)
Example chargeback_10500_calls :
  let plan := mk_doc "64b000000000000000000002"
                (Plan.mk "Scale" "pro" (Float.of_Z 100) 10000 (Float.of_decimal 5 10000)) in
  let sub := Scenario.sub "s1" "c1" (_id plan) (Some Scenario.january_start) "active" in
  let events :=
    repeat (Scenario.evt "e" "a1" "c1" (Scenario.at_ 2024 1 17 8 0 0 0) None 200)
           (Z.to_nat 10500) in
  fst (chargeback_report "2024-01" (mk_world (mk_db [] [plan] [] [sub] events) []))
  = Ok (mk_chargeback "2024-01"
          [Chargeback.mk "c1" "a1" (_id plan) "2024-01" 10500 500
                         (Float.of_decimal 10025 100)]).
Proof. vm_compute. reflexivity. Qed.

(* ===================================================================== *)
(** * Further properties of the handlers *)
(* ===================================================================== *)

(** ** Tokens and what [month_bounds] makes of them *)

(** X1.  [month_bounds] raises the HTTP 400 on exactly the tokens that
    are not four decimal digits, of any script and not all zero, a dash and
    a month [01] to [12] or [1] to [9]. *)
Theorem month_bounds_invalid_iff s :
  month_bounds s = Raise invalid_period <-> lenient_period s = false.
Proof.
  split; [|apply month_bounds_rejects].
  intros H. destruct (lenient_period s) eqn:E; [|reflexivity].
  destruct (month_bounds_lenient s E) as (y & m & _ & _ & _ & Hmb).
  rewrite Hmb in H. destruct (_ && _); discriminate.
Qed.

(** X2.  Whatever the token, an interval [month_bounds] returns is one
    calendar month: from the first instant of a month of a year 1 to 9999 to
    the first instant of the month after, that many days later. *)
Theorem month_bounds_is_a_month s start end_ :
  month_bounds s = Ok (start, end_) ->
  exists y m,
    1 <= y <= 9999 /\ 1 <= m <= 12
    /\ start = DateTime.mk y m 1 0 0 0 0
    /\ end_ = (if m =? 12 then DateTime.mk (y + 1) 1 1 0 0 0 0
               else DateTime.mk y (m + 1) 1 0 0 0 0)
    /\ DateTime.sub end_ start = DateTime.mk_timedelta (DateTime.days_in_month y m) 0 0
    /\ DateTime.ltb start end_ = true.
Proof.
  intros H. pose proof (month_bounds_lt _ _ _ H) as Hlt.
  apply month_bounds_returns in H as (y & m & Hy & Hm & _ & _ & -> & ->).
  exists y, m. split; [assumption|]. split; [assumption|]. split; [reflexivity|].
  split; [unfold next_month; destruct (m =? 12); reflexivity|].
  split; [apply sub_first_instants; assumption|exact Hlt].
Qed.

Lemma month_bounds_is_a_month_witness :
  exists y m,
    1 <= y <= 9999 /\ 1 <= m <= 12
    /\ DateTime.mk 2023 12 1 0 0 0 0 = DateTime.mk y m 1 0 0 0 0
    /\ DateTime.mk 2024 1 1 0 0 0 0
       = (if m =? 12 then DateTime.mk (y + 1) 1 1 0 0 0 0
          else DateTime.mk y (m + 1) 1 0 0 0 0)
    /\ DateTime.sub (DateTime.mk 2024 1 1 0 0 0 0) (DateTime.mk 2023 12 1 0 0 0 0)
       = DateTime.mk_timedelta (DateTime.days_in_month y m) 0 0
    /\ DateTime.ltb (DateTime.mk 2023 12 1 0 0 0 0) (DateTime.mk 2024 1 1 0 0 0 0) = true.
Proof.
  apply (month_bounds_is_a_month "2023-12"). reflexivity.
Defined.

(** X3.  A month written with one digit resolves as the month written
    with two. *)
Theorem month_bounds_short_month y m :
  1 <= y <= 9999 -> 1 <= m <= 9 ->
  month_bounds (short_token y m) = month_bounds (period_token y m)
  /\ month_bounds (short_token y m) = Ok (first_instant y m, first_instant y (m + 1)).
Proof.
  intros Hy Hm.
  rewrite month_bounds_short, month_bounds_token by lia.
  split; [reflexivity|]. unfold next_month.
  replace (m =? 12) with false by (symmetry; apply Z.eqb_neq; lia). reflexivity.
Qed.

Lemma month_bounds_short_month_witness :
  month_bounds (short_token 2024 1) = month_bounds (period_token 2024 1)
  /\ month_bounds (short_token 2024 1) = Ok (first_instant 2024 1, first_instant 2024 (1 + 1)).
Proof. apply (month_bounds_short_month 2024 1); lia. Defined.

(** X4.  [month_bounds] fails in two ways only: with the HTTP 400, or with
    [ValueError], which it raises on exactly the tokens that denote December
    of the year 9999, whatever the script of their digits. *)
Theorem month_bounds_failures s :
  (month_bounds s = Raise ValueError <-> period_value s = Some (9999, 12))
  /\ (forall e, month_bounds s = Raise e -> e = invalid_period \/ e = ValueError)
  /\ month_bounds "9999-12" = Raise ValueError
  /\ month_bounds "９９９９-12" = Raise ValueError.
Proof.
  split; [split|split; [|split; reflexivity]].
  - intros H. apply month_bounds_raises in H as [[H _]|[_ H]]; [discriminate|exact H].
  - intros H. rewrite month_bounds_value, H. reflexivity.
  - intros e H. apply month_bounds_raises in H as [[H _]|[H _]]; auto.
Qed.

(** ** Which timestamps a month holds *)

Lemma well_formed_bounds ts :
  well_formed ts = true ->
  1 <= DateTime.month ts <= 12 /\ 1 <= DateTime.day ts /\ 0 <= DateTime.hour ts
  /\ 0 <= DateTime.minute ts /\ 0 <= DateTime.second ts /\ 0 <= DateTime.microsecond ts.
Proof.
  unfold well_formed, DateTime.check_date_fields, DateTime.check_time_fields.
  rewrite !andb_true_iff, !Z.leb_le. lia.
Qed.

Ltac compare_all :=
  repeat match goal with
  | |- context [?a ?= ?b] => destruct (Z.compare_spec a b)
  end.

Lemma first_instant_leb y m ts :
  well_formed ts = true ->
  DateTime.leb (first_instant y m) ts = true
  <-> y < DateTime.year ts \/ (y = DateTime.year ts /\ m <= DateTime.month ts).
Proof.
  intros H. apply well_formed_bounds in H. destruct ts as [Y M D h mi s us].
  cbn [DateTime.year DateTime.month DateTime.day DateTime.hour DateTime.minute
       DateTime.second DateTime.microsecond] in *.
  unfold DateTime.leb, DateTime.cmp, first_instant, DateTime.fields, DateTime.lex.
  cbn [DateTime.year DateTime.month DateTime.day DateTime.hour DateTime.minute
       DateTime.second DateTime.microsecond].
  compare_all; split; intros; try discriminate; try reflexivity; lia.
Qed.

Lemma ltb_first_instant y m ts :
  well_formed ts = true ->
  DateTime.ltb ts (first_instant y m) = true
  <-> DateTime.year ts < y \/ (DateTime.year ts = y /\ DateTime.month ts < m).
Proof.
  intros H. apply well_formed_bounds in H. destruct ts as [Y M D h mi s us].
  cbn [DateTime.year DateTime.month DateTime.day DateTime.hour DateTime.minute
       DateTime.second DateTime.microsecond] in *.
  unfold DateTime.ltb, DateTime.cmp, first_instant, DateTime.fields, DateTime.lex.
  cbn [DateTime.year DateTime.month DateTime.day DateTime.hour DateTime.minute
       DateTime.second DateTime.microsecond].
  compare_all; split; intros; try discriminate; try reflexivity; lia.
Qed.

(** X5.  The period of a token [YYYY-MM] holds exactly the timestamps of
    year [YYYY] and month [MM]: months neither overlap nor leave a gap. *)
Theorem period_holds_its_month y m ts :
  1 <= y <= 9999 -> 1 <= m <= 12 -> ~ (y = 9999 /\ m = 12) ->
  well_formed ts = true ->
  exists start end_,
    month_bounds (period_token y m) = Ok (start, end_)
    /\ (in_period start end_ ts = true
        <-> DateTime.year ts = y /\ DateTime.month ts = m).
Proof.
  intros Hy Hm Hne Hts. exists (first_instant y m), (next_month y m).
  split; [apply month_bounds_token; assumption|].
  unfold in_period. rewrite andb_true_iff, first_instant_leb by assumption.
  pose proof (well_formed_bounds ts Hts) as B.
  unfold next_month. destruct (m =? 12) eqn:E;
    [apply Z.eqb_eq in E | apply Z.eqb_neq in E];
    rewrite ltb_first_instant by assumption; lia.
Qed.

Lemma period_holds_its_month_witness :
  exists start end_,
    month_bounds (period_token 2024 2) = Ok (start, end_)
    /\ (in_period start end_ (DateTime.mk 2024 2 29 23 59 59 999999) = true
        <-> DateTime.year (DateTime.mk 2024 2 29 23 59 59 999999) = 2024
            /\ DateTime.month (DateTime.mk 2024 2 29 23 59 59 999999) = 2).
Proof.
  apply (period_holds_its_month 2024 2 (DateTime.mk 2024 2 29 23 59 59 999999));
    [lia | lia | lia | reflexivity].
Defined.

(** ** The preloaded plans *)

Lemma plans_by_id_snoc l x : plans_by_id (l ++ [x]) = <[_id x := x]> (plans_by_id l).
Proof. unfold plans_by_id. rewrite foldl_app. reflexivity. Qed.

(** X6.  [plans.get(plan_id)] finds nothing exactly when no stored plan
    has that identifier; what it finds is a stored plan with that identifier;
    and when the identifiers are distinct it finds every stored plan. *)
Theorem plans_by_id_lookup (l : list (doc Plan.t)) :
  (forall id, plans_by_id l !! id = None <-> forall p, In p l -> _id p <> id)
  /\ (forall id p, plans_by_id l !! id = Some p -> In p l /\ _id p = id)
  /\ (NoDup (map _id l) -> forall p, In p l -> plans_by_id l !! _id p = Some p).
Proof.
  induction l as [|x l (IH1 & IH2 & IH3)] using rev_ind.
  - split; [|split].
    + intros id. split; [intros _ p []|intros _; apply lookup_empty].
    + intros id p H. unfold plans_by_id in H. simpl in H. rewrite lookup_empty in H.
      discriminate.
    + intros _ p [].
  - split; [|split].
    + intros id. rewrite plans_by_id_snoc. split.
      * intros H p Hp. apply lookup_insert_None in H as [H Hne].
        apply in_app_iff in Hp as [Hp|[<-|[]]]; [|exact Hne].
        apply (proj1 (IH1 id) H p Hp).
      * intros H. apply lookup_insert_None. split.
        -- apply IH1. intros p Hp. apply H. apply in_app_iff. left; exact Hp.
        -- apply H. apply in_app_iff. right; left; reflexivity.
    + intros id p. rewrite plans_by_id_snoc. intros H.
      apply lookup_insert_Some in H as [[<- <-]|[Hne H]].
      * split; [apply in_app_iff; right; left|]; reflexivity.
      * apply IH2 in H as [H1 H2]. split; [apply in_app_iff; left|]; assumption.
    + rewrite map_app. intros Hnd p Hp. rewrite plans_by_id_snoc.
      apply NoDup_app in Hnd as (Hnd & Hdisj & _).
      apply in_app_iff in Hp as [Hp|[<-|[]]].
      * rewrite lookup_insert_ne; [apply IH3; assumption|].
        intros Heq. apply (Hdisj (_id p)).
        -- apply list_elem_of_In, in_map. exact Hp.
        -- rewrite <- Heq. apply list_elem_of_In. left; reflexivity.
      * apply lookup_insert_eq.
Qed.

(** ** Lines *)

Lemma billable_same_keys s s' start end_ e :
  Subscription.api_id (fields s) = Subscription.api_id (fields s') ->
  Subscription.consumer_id (fields s) = Subscription.consumer_id (fields s') ->
  billable s start end_ e <-> billable s' start end_ e.
Proof. unfold billable. intros -> ->. tauto. Qed.

Lemma usage_count_same_keys d s s' start end_ :
  Subscription.api_id (fields s) = Subscription.api_id (fields s') ->
  Subscription.consumer_id (fields s) = Subscription.consumer_id (fields s') ->
  usage_count d s start end_ = usage_count d s' start end_.
Proof.
  intros Ha Hc. unfold usage_count. do 2 f_equal.
  apply list_filter_iff. intros e. apply billable_same_keys; assumption.
Qed.

(** X7.  For a subscription whose plan is missing, every call is overage:
    [overage_calls = calls]. *)
Theorem missing_plan_all_overage period start end_ w :
  month_bounds period = Ok (start, end_) ->
  int64_store (db w) = true ->
  exists r w',
    chargeback_report period w = (Ok r, w')
    /\ Forall2
         (fun s l =>
            plans_by_id (plan (db w)) !! Subscription.plan_id (fields s) = None ->
            Chargeback.overage_calls l = Chargeback.calls l)
         (selected (db w) end_) (items r).
Proof.
  intros Hp Hst. do 2 eexists. split; [apply chargeback_report_spec; eassumption|].
  cbn [items]. apply Forall2_map_r. intros s _ Hnone.
  unfold expected_line, plan_terms. rewrite Hnone.
  cbn [Chargeback.calls Chargeback.overage_calls t_included_calls].
  pose proof (usage_count_bounds (db w) s start end_). lia.
Qed.

Lemma missing_plan_all_overage_witness :
  exists r w',
    chargeback_report "2024-01" Scenario.w0 = (Ok r, w')
    /\ Forall2
         (fun s l =>
            plans_by_id (plan Scenario.store) !! Subscription.plan_id (fields s) = None ->
            Chargeback.overage_calls l = Chargeback.calls l)
         (selected Scenario.store Scenario.january_end) (items r).
Proof.
  apply (missing_plan_all_overage "2024-01" Scenario.january_start Scenario.january_end
           Scenario.w0); reflexivity.
Defined.

(** X8.  Usage within the allowance of the plan is not charged: when
    [calls <= included_calls] the line has no overage and its amount is the
    monthly price rounded to six decimals. *)
Theorem usage_within_allowance period start end_ w :
  month_bounds period = Ok (start, end_) ->
  int64_store (db w) = true ->
  exists r w',
    chargeback_report period w = (Ok r, w')
    /\ Forall2
         (fun s l =>
            let t := plan_terms (db w) s in
            Chargeback.calls l <= t_included_calls t ->
            Float.is_finite (t_overage_price_per_call t) = true ->
            Float.is_nan (t_monthly_price t) = false ->
            Chargeback.overage_calls l = 0
            /\ Float.eqb (Chargeback.amount l) (Float.round6 (t_monthly_price t)) = true)
         (selected (db w) end_) (items r).
Proof.
  intros Hp Hst. do 2 eexists. split; [apply chargeback_report_spec; eassumption|].
  cbn [items]. apply Forall2_map_r. intros s _. cbv zeta.
  unfold expected_line. cbn [Chargeback.calls Chargeback.overage_calls Chargeback.amount].
  intros Hn Hop Hmp.
  replace (Z.max 0 (usage_count (db w) s start end_ - t_included_calls (plan_terms (db w) s)))
    with 0 by lia.
  split; [reflexivity|]. apply billed_no_usage; assumption.
Qed.

Lemma usage_within_allowance_witness :
  exists r w',
    chargeback_report "2024-01" Scenario.w0 = (Ok r, w')
    /\ Forall2
         (fun s l =>
            let t := plan_terms Scenario.store s in
            Chargeback.calls l <= t_included_calls t ->
            Float.is_finite (t_overage_price_per_call t) = true ->
            Float.is_nan (t_monthly_price t) = false ->
            Chargeback.overage_calls l = 0
            /\ Float.eqb (Chargeback.amount l) (Float.round6 (t_monthly_price t)) = true)
         (selected Scenario.store Scenario.january_end) (items r).
Proof.
  apply (usage_within_allowance "2024-01" Scenario.january_start Scenario.january_end
           Scenario.w0); reflexivity.
Defined.

(** X9.  The [calls] of a line depend on the consumer and the API alone:
    two subscriptions of one consumer to one API are each billed the whole
    usage of the pair. *)
Theorem same_pair_same_calls period start end_ w :
  month_bounds period = Ok (start, end_) ->
  int64_store (db w) = true ->
  exists r w',
    chargeback_report period w = (Ok r, w')
    /\ forall l l',
         In l (items r) -> In l' (items r) ->
         Chargeback.consumer_id l = Chargeback.consumer_id l' ->
         Chargeback.api_id l = Chargeback.api_id l' ->
         Chargeback.calls l = Chargeback.calls l'.
Proof.
  intros Hp Hst. do 2 eexists. split; [apply chargeback_report_spec; eassumption|].
  cbn [items]. intros l l' Hl Hl'.
  apply in_map_iff in Hl as (s & <- & _). apply in_map_iff in Hl' as (s' & <- & _).
  unfold expected_line. cbn [Chargeback.consumer_id Chargeback.api_id Chargeback.calls].
  intros Hc Ha. apply usage_count_same_keys; assumption.
Qed.

Lemma same_pair_same_calls_witness :
  exists r w',
    chargeback_report "2024-01" (mk_world twin_store []) = (Ok r, w')
    /\ map (fun l => (Chargeback.consumer_id l, Chargeback.api_id l, Chargeback.plan_id l,
                      Chargeback.calls l)) (items r)
       = [("c1", "a1", "64b000000000000000000001", 4);
          ("c1", "a1", "64b0000000000000000000ff", 4)]
    /\ forall l l',
         In l (items r) -> In l' (items r) ->
         Chargeback.consumer_id l = Chargeback.consumer_id l' ->
         Chargeback.api_id l = Chargeback.api_id l' ->
         Chargeback.calls l = Chargeback.calls l'.
Proof.
  destruct (same_pair_same_calls "2024-01" Scenario.january_start Scenario.january_end
              (mk_world twin_store []) eq_refl eq_refl) as (r & w' & H & Hall).
  exists r, w'. split; [exact H|]. split; [|exact Hall].
  vm_compute in H. inversion H. reflexivity.
Defined.

(** ** The sign of an amount *)

Lemma ge0_unsigned x : ge0 x = true -> unsigned x.
Proof. destruct x as [s|[]| |[] m e]; simpl; intros H; try exact I; discriminate. Qed.

Lemma binary_round_sign s m e :
  match binary_round Float.prec Float.emax s m e with
  | S754_zero s' | S754_infinity s' | S754_finite s' _ _ => s' = s
  | S754_nan => False
  end.
Proof.
  unfold binary_round. destruct (shl_align _ _ _) as [mz ez].
  apply binary_round_aux_sign. lia.
Qed.

Lemma binary_normalize_unsigned m e : 0 <= m -> unsigned (binary_normalize Float.prec Float.emax m e false).
Proof.
  intros Hm. destruct m as [|p|p]; [exact I| |lia]. simpl.
  pose proof (binary_round_sign false p e) as H.
  destruct (binary_round _ _ _ _ _) as [s|s| |s m' e']; try exact I; subst; exact I.
Qed.

Lemma of_Z_unsigned z : 0 <= z -> unsigned (Float.of_Z z).
Proof. apply binary_normalize_unsigned. Qed.

Lemma mul_unsigned x y : unsigned x -> unsigned y -> unsigned (Float.mul x y).
Proof.
  intros Hx Hy.
  destruct x as [sx|[]| |[] mx ex]; destruct y as [sy|[]| |[] my ey];
    try contradiction; try exact I.
  pose proof (binary_round_aux_sign Float.prec Float.emax false
                (Zpos (mx * my)) (ex + ey) loc_Exact ltac:(lia)) as H.
  unfold Float.mul, SFmul. cbn [xorb].
  destruct (binary_round_aux _ _ _ _ _ _) as [s|s| |s m' e']; try exact I; subst; exact I.
Qed.

Lemma add_unsigned x y : unsigned x -> unsigned y -> unsigned (Float.add x y).
Proof.
  intros Hx Hy.
  destruct x as [[]|[]| |[] mx ex]; destruct y as [[]|[]| |[] my ey];
    try contradiction; try exact I.
  unfold Float.add, SFadd. cbn [cond_Zopp].
  apply binary_normalize_unsigned. lia.
Qed.

Lemma round6_unsigned x : unsigned x -> unsigned (Float.round6 x).
Proof.
  destruct x as [s|s| |[] m e]; simpl; intros H; try exact H; try contradiction.
  set (q := Float.half_even _ _).
  assert (Hq : 0 <= q).
  { subst q. unfold Float.half_even.
    assert (0 < 2 ^ Z.max 0 (- e)) by (apply Z.pow_pos_nonneg; lia).
    assert (0 <= 2 ^ Z.max 0 e) by (apply Z.pow_nonneg; lia).
    assert (0 <= Zpos m * 10 ^ 6 * 2 ^ Z.max 0 e / 2 ^ Z.max 0 (- e))
      by (apply Z.div_pos; [apply Z.mul_nonneg_nonneg|]; lia).
    destruct (_ ?= _); [destruct (Z.even _)| |]; lia. }
  destruct (q =? 0); [exact I|].
  pose proof (of_ratio_sign false q (10 ^ 6) Hq ltac:(lia)) as S.
  destruct (Float.of_ratio false q (10 ^ 6)) as [s|s| |s m' e']; try exact I; subst; exact I.
Qed.

Lemma unsigned_not_below_zero x : unsigned x -> SFltb x Float.zero = false.
Proof. destruct x as [s|[]| |[] m e]; simpl; intros H; try reflexivity; contradiction. Qed.

Lemma billed_unsigned t overage :
  unsigned (t_monthly_price t) -> unsigned (t_overage_price_per_call t) -> 0 <= overage ->
  unsigned (billed t overage).
Proof.
  intros Hm Ho Hov. unfold billed.
  apply round6_unsigned, add_unsigned; [assumption|].
  apply mul_unsigned; [apply of_Z_unsigned|]; assumption.
Qed.

(** X10.  When every stored plan satisfies the constraints of
    [schemas.Plan] (prices and allowance [>= 0]), no line has an amount below
    zero. *)
Theorem amounts_not_below_zero period start end_ w :
  month_bounds period = Ok (start, end_) ->
  int64_store (db w) = true ->
  forallb (fun p => Plan_valid (fields p)) (plan (db w)) = true ->
  exists r w',
    chargeback_report period w = (Ok r, w')
    /\ Forall (fun l => SFltb (Chargeback.amount l) Float.zero = false) (items r).
Proof.
  intros Hp Hst Hv. do 2 eexists. split; [apply chargeback_report_spec; eassumption|].
  cbn [items]. apply Forall_forall. intros l Hl.
  apply list_elem_of_In, in_map_iff in Hl as (s & <- & _).
  unfold expected_line. cbn [Chargeback.amount].
  apply unsigned_not_below_zero, billed_unsigned; [| |lia].
  - unfold plan_terms. destruct (plans_by_id (plan (db w)) !! _) as [p|] eqn:E;
      cbn [t_monthly_price]; [|exact I].
    apply plans_by_id_In in E. rewrite forallb_forall in Hv. apply Hv in E.
    unfold Plan_valid in E. rewrite !andb_true_iff in E. apply ge0_unsigned. tauto.
  - unfold plan_terms. destruct (plans_by_id (plan (db w)) !! _) as [p|] eqn:E;
      cbn [t_overage_price_per_call]; [|exact I].
    apply plans_by_id_In in E. rewrite forallb_forall in Hv. apply Hv in E.
    unfold Plan_valid in E. rewrite !andb_true_iff in E. apply ge0_unsigned. tauto.
Qed.

Lemma amounts_not_below_zero_witness :
  exists r w',
    chargeback_report "2024-01" Scenario.w0 = (Ok r, w')
    /\ Forall (fun l => SFltb (Chargeback.amount l) Float.zero = false) (items r).
Proof.
  apply (amounts_not_below_zero "2024-01" Scenario.january_start Scenario.january_end
           Scenario.w0); reflexivity.
Defined.

(** ** The overview *)

Lemma rate_of_ok evs :
  exists rate, rate_of evs = Ok rate
    /\ (evs = [] -> rate = None)
    /\ (evs <> [] -> exists f, Float.int_truediv (successes evs) (Z.of_nat (length evs)) = Ok f
                               /\ rate = Some f).
Proof.
  unfold rate_of. destruct evs as [|e evs'].
  - exists None. split; [reflexivity|]. split; [reflexivity|]. intros H; congruence.
  - set (evs := e :: evs').
    pose proof (successes_bounds evs) as Hs.
    assert (Hlen : 0 < Z.of_nat (length evs)) by (unfold evs; simpl; lia).
    destruct (int_truediv_ok (successes evs) (Z.of_nat (length evs)) Hs Hlen) as [f Hdiv].
    replace (Z.of_nat (length evs) =? 0) with false by (symmetry; apply Z.eqb_neq; lia).
    rewrite Hdiv. exists (Some f). split; [reflexivity|]. split; [discriminate|].
    intros _. exists f. auto.
Qed.

Lemma group_usage_head evs :
  match group_usage evs with g :: _ => avg_latency g | [] => None end
  = match evs with [] => None | _ => mongo_avg (latencies evs) end
  /\ match group_usage evs with g :: _ => success g | [] => 0 end = successes evs.
Proof.
  destruct evs as [|e evs']; [split; reflexivity|].
  unfold group_usage. cbn [avg_latency success]. rewrite successes_eq. split; reflexivity.
Qed.

(** What [metrics_overview] returns once the filter is built. *)
Lemma metrics_overview_ok period filt w :
  overview_filter period = Ok filt ->
  let evs := matching filt (db w) in
  exists rate,
    rate_of evs = Ok rate
    /\ metrics_overview period w
       = (Ok (mk_overview (Z.of_nat (length evs))
                (match evs with [] => None | _ => mongo_avg (latencies evs) end)
                rate
                (Z.of_nat (length (apiservice (db w))))
                (Z.of_nat (length (consumer (db w))))
                (Z.of_nat (length (filter (fun s => subscription_matches active_only s = true)
                                          (subscription (db w)))))),
          mk_world (db w) (calls w ++ overview_calls)).
Proof.
  intros Hf. cbv zeta. destruct (rate_of_ok (matching filt (db w))) as (rate & Hr & _).
  exists rate. split; [exact Hr|].
  unfold metrics_overview. rewrite bind_lift, Hf.
  erewrite bind_ok by reflexivity.
  erewrite bind_ok by reflexivity.
  cbn [db logged]. fold (matching filt (db w)).
  destruct (group_usage_head (matching filt (db w))) as [-> ->].
  fold (rate_of (matching filt (db w))). rewrite bind_lift, Hr.
  erewrite bind_ok by reflexivity.
  erewrite bind_ok by reflexivity.
  erewrite bind_ok by reflexivity.
  unfold mret, M_ret, logged, overview_calls, active_only. cbn [db calls].
  rewrite <- !app_assoc. reflexivity.
Qed.

Lemma metrics_overview_raise period e w :
  overview_filter period = Raise e -> metrics_overview period w = (Raise e, w).
Proof. intros H. unfold metrics_overview. rewrite bind_lift, H. reflexivity. Qed.

Lemma overview_filter_raise period e :
  overview_filter period = Raise e ->
  exists p, period = Some p /\ p <> EmptyString /\ month_bounds p = Raise e.
Proof.
  destruct period as [[|c p]|]; cbn [overview_filter]; try discriminate.
  intros H. exists (String c p). split; [reflexivity|]. split; [discriminate|].
  destruct (month_bounds (String c p)) as [[s e']|e']; [discriminate|].
  cbn in H. congruence.
Qed.

(** X11.  [metrics_overview] never writes: the store is left as found; a
    run that returns has made its five reads, in the order of the source; a
    run that raises has raised on the period, before any call on the store,
    with the HTTP 400 or, for a token of December 9999, [ValueError]. *)
Theorem metrics_overview_read_only period w :
  db (snd (metrics_overview period w)) = db w
  /\ (forall r w', metrics_overview period w = (Ok r, w') ->
        calls w' = calls w ++ overview_calls)
  /\ (forall e w', metrics_overview period w = (Raise e, w') ->
        w' = w
        /\ (e = invalid_period
            \/ (e = ValueError /\ exists p, period = Some p /\ period_value p = Some (9999, 12)))).
Proof.
  destruct (overview_filter period) as [filt|e] eqn:E.
  - destruct (metrics_overview_ok period filt w E) as (rate & _ & H). rewrite H.
    split; [reflexivity|]. split; [|discriminate].
    intros r w' Heq. inversion Heq. reflexivity.
  - rewrite (metrics_overview_raise _ _ _ E). split; [reflexivity|].
    split; [discriminate|]. intros e' w' Heq. inversion Heq; subst. split; [reflexivity|].
    apply overview_filter_raise in E as (p & -> & _ & Hm).
    apply month_bounds_raises in Hm as [[-> _]|[-> Hm]]; [auto|]. right. eauto.
Qed.

(** X12.  An empty [period] is no period: [metrics_overview] counts every
    usage event of the store, as it does when [period] is left out, where
    [chargeback_report] takes it for an invalid token. *)
Theorem empty_period_is_no_period w :
  metrics_overview (Some EmptyString) w = metrics_overview None w
  /\ (exists r w', metrics_overview (Some EmptyString) w = (Ok r, w')
                   /\ total_calls r = Z.of_nat (length (usageevent (db w))))
  /\ chargeback_report EmptyString w = (Raise invalid_period, w).
Proof.
  split; [reflexivity|]. split.
  - destruct (metrics_overview_ok (Some EmptyString) no_filter w eq_refl) as (rate & _ & H).
    do 2 eexists. split; [exact H|]. cbn [total_calls]. f_equal.
    unfold matching. induction (usageevent (db w)) as [|e l IH]; [reflexivity|].
    rewrite filter_cons_True by reflexivity. cbn [length]. f_equal. exact IH.
  - reflexivity.
Qed.

Lemma int_truediv_unsigned a b f :
  0 <= a <= b -> 0 < b -> Float.int_truediv a b = Ok f ->
  Float.is_finite f = true /\ unsigned f.
Proof.
  intros Hab Hb. unfold Float.int_truediv.
  destruct (b =? 0) eqn:Eb; [apply Z.eqb_eq in Eb; lia|].
  replace (b <? 0) with false by (symmetry; apply Z.ltb_ge; lia).
  destruct (a =? 0) eqn:Ea; [intros H; inversion H; split; [reflexivity|exact I]|].
  apply Z.eqb_neq in Ea.
  replace (a <? 0) with false by (symmetry; apply Z.ltb_ge; lia). cbn [xorb].
  pose proof (of_ratio_sign false (Z.abs a) (Z.abs b) ltac:(lia) ltac:(lia)) as S.
  destruct (Float.of_ratio false (Z.abs a) (Z.abs b)) as [s|s| |s m e];
    intros H; inversion H; subst; try contradiction; split; try reflexivity; exact I.
Qed.

(** X13.  The [success_rate] of the overview, when there is one, is a finite
    float that is not below zero: never NaN, never infinite. *)
Theorem success_rate_is_a_number period w r w' f :
  metrics_overview period w = (Ok r, w') ->
  success_rate r = Some f ->
  Float.is_finite f = true /\ SFltb f Float.zero = false.
Proof.
  intros H Hf. destruct (overview_filter period) as [filt|e] eqn:E.
  - destruct (metrics_overview_ok period filt w E) as (rate & Hr & H').
    rewrite H' in H. inversion H; subst r. cbn [success_rate] in Hf. subst rate.
    set (evs := matching filt (db w)) in *.
    destruct (rate_of_ok evs) as (rate & Hr' & Hnil & Hcons).
    rewrite Hr in Hr'. inversion Hr'; subst rate.
    destruct evs as [|e evs'] eqn:Ev; [specialize (Hnil eq_refl); discriminate|].
    destruct (Hcons ltac:(discriminate)) as (f' & Hdiv & Heq). inversion Heq; subst f'.
    rewrite <- Ev in Hdiv.
    destruct (int_truediv_unsigned _ _ _ (successes_bounds evs)
                ltac:(rewrite Ev; simpl; lia) Hdiv) as [Hfin Hu].
    split; [exact Hfin|apply unsigned_not_below_zero; exact Hu].
  - rewrite (metrics_overview_raise _ _ _ E) in H. discriminate.
Qed.

Lemma success_rate_is_a_number_witness :
  Float.is_finite (Float.of_decimal 5 7) = true
  /\ SFltb (Float.of_decimal 5 7) Float.zero = false.
Proof.
  apply (success_rate_is_a_number (Some "2024-01") Scenario.w0
           (mk_overview 7 (Some (Float.of_decimal 625 10)) (Some (Float.of_decimal 5 7)) 0 0 5)
           (snd (metrics_overview (Some "2024-01") Scenario.w0))); reflexivity.
Defined.

(** ** The report and the overview *)

Lemma chargeback_report_ok_bounds period w r w' :
  chargeback_report period w = (Ok r, w') ->
  exists start end_, month_bounds period = Ok (start, end_).
Proof.
  unfold chargeback_report. rewrite bind_lift.
  destruct (month_bounds period) as [[start end_]|e]; [eauto|discriminate].
Qed.

Lemma overview_filter_period p start end_ :
  month_bounds p = Ok (start, end_) ->
  overview_filter (Some p) = Ok (mk_usage_query None None (Some (start, end_))).
Proof.
  intros H. destruct p as [|c p]; [discriminate|].
  cbn [overview_filter]. rewrite H. reflexivity.
Qed.

Lemma filter_length_le {A} (P Q : A -> Prop) `{!forall x, Decision (P x)}
    `{!forall x, Decision (Q x)} (l : list A) :
  (forall x, P x -> Q x) -> (length (filter P l) <= length (filter Q l))%nat.
Proof.
  intros HPQ. induction l as [|a l IH]; [reflexivity|].
  destruct (decide (P a)) as [Hp|Hp].
  - rewrite (filter_cons_True P) by exact Hp.
    rewrite (filter_cons_True Q) by (apply HPQ; exact Hp). simpl. lia.
  - rewrite (filter_cons_False P) by exact Hp.
    destruct (decide (Q a)) as [Hq|Hq].
    + rewrite (filter_cons_True Q) by exact Hq. simpl. lia.
    + rewrite (filter_cons_False Q) by exact Hq. exact IH.
Qed.

(** X14.  The report and the overview of the same period agree: the report
    has no more lines than the overview has active subscriptions, and no line
    counts more calls than the overview counts in all. *)
Theorem report_within_overview period w r w1 o w2 :
  int64_store (db w) = true ->
  chargeback_report period w = (Ok r, w1) ->
  metrics_overview (Some period) w = (Ok o, w2) ->
  Z.of_nat (length (items r)) <= active_subscriptions o
  /\ Forall (fun l => Chargeback.calls l <= total_calls o) (items r).
Proof.
  intros Hst Hc Ho.
  destruct (chargeback_report_ok_bounds _ _ _ _ Hc) as (start & end_ & Hmb).
  rewrite (chargeback_report_spec _ _ _ _ Hmb Hst) in Hc. inversion Hc; subst r.
  destruct (metrics_overview_ok _ _ w (overview_filter_period _ _ _ Hmb)) as (rate & _ & H).
  rewrite H in Ho. inversion Ho; subst o.
  cbn [items active_subscriptions total_calls]. rewrite length_map. split.
  - apply inj_le. unfold selected. apply filter_length_le.
    intros s Hs. unfold is_selected in Hs. apply andb_true_iff in Hs as [Hs _].
    unfold subscription_matches, active_only, eq_or_any. cbn.
    rewrite Hs. reflexivity.
  - apply Forall_forall. intros l Hl. apply list_elem_of_In, in_map_iff in Hl as (s & <- & _).
    cbn [expected_line Chargeback.calls]. unfold usage_count, matching.
    apply inj_le. apply filter_length_le.
    intros e (_ & _ & He). unfold usage_matches, eq_or_any. cbn. exact He.
Qed.

Lemma report_within_overview_witness :
  Z.of_nat (length (items (mk_chargeback "2024-01"
      (map (expected_line "2024-01" Scenario.january_start Scenario.january_end
              Scenario.store)
           [Scenario.s_jan; Scenario.s_dangling; Scenario.s_at_end])))) <= 5
  /\ Forall (fun l => Chargeback.calls l <= 7)
       (items (mk_chargeback "2024-01"
          (map (expected_line "2024-01" Scenario.january_start Scenario.january_end
                  Scenario.store)
               [Scenario.s_jan; Scenario.s_dangling; Scenario.s_at_end]))).
Proof.
  apply (report_within_overview "2024-01" Scenario.w0 _
           (snd (chargeback_report "2024-01" Scenario.w0))
           (mk_overview 7 (Some (Float.of_decimal 625 10)) (Some (Float.of_decimal 5 7)) 0 0 5)
           (snd (metrics_overview (Some "2024-01") Scenario.w0))); reflexivity.
Defined.

(** X15.  On a store of 64-bit integers [chargeback_report] returns a report
    exactly for the tokens [month_bounds] takes other than those of December
    9999: no plan, subscription or usage event of the store makes it
    raise. *)
Theorem chargeback_report_returns_iff period w :
  int64_store (db w) = true ->
  (exists r w', chargeback_report period w = (Ok r, w'))
  <-> lenient_period period = true /\ period_value period <> Some (9999, 12).
Proof.
  intros Hst. split.
  - intros (r & w' & H).
    destruct (chargeback_report_ok_bounds _ _ _ _ H) as (start & end_ & Hmb).
    apply month_bounds_returns in Hmb as (y & m & Hy & _ & Hne & Hv & _). split.
    + unfold lenient_period. rewrite Hv. lia.
    + rewrite Hv. intros E. inversion E. lia.
  - intros [Hl Hne]. destruct (month_bounds_lenient period Hl) as (y & m & _ & _ & Hv & Hmb).
    destruct ((y =? 9999) && (m =? 12)) eqn:E.
    + exfalso. apply Hne. rewrite Hv. f_equal. f_equal; lia.
    + rewrite (chargeback_report_spec _ _ _ _ Hmb Hst). eauto.
Qed.

Lemma chargeback_report_returns_iff_witness :
  (exists r w', chargeback_report "2024-1" Scenario.w0 = (Ok r, w'))
  <-> lenient_period "2024-1" = true /\ period_value "2024-1" <> Some (9999, 12).
Proof. apply (chargeback_report_returns_iff "2024-1" Scenario.w0). reflexivity. Defined.

(** ** What the report reads *)

Lemma chargeback_line_fst period start end_ plans s w1 w2 :
  usageevent (db w1) = usageevent (db w2) ->
  fst (chargeback_line period start end_ plans s w1)
  = fst (chargeback_line period start end_ plans s w2).
Proof.
  intros H. unfold chargeback_line.
  erewrite (bind_ok _ _ w1) by reflexivity.
  erewrite (bind_ok _ _ w2) by reflexivity.
  rewrite H. rewrite !bind_lift. destruct (py_int _); [|reflexivity].
  rewrite !bind_lift. destruct (py_float _); [|reflexivity].
  rewrite !bind_lift. destruct (py_float _); [|reflexivity].
  rewrite !bind_lift. destruct (int_mul_float _ _); reflexivity.
Qed.

Lemma chargeback_loop_fst period start end_ plans subs : forall report w1 w2,
  usageevent (db w1) = usageevent (db w2) ->
  fst (chargeback_loop period start end_ plans subs report w1)
  = fst (chargeback_loop period start end_ plans subs report w2).
Proof.
  induction subs as [|s subs IH]; intros report w1 w2 H; [reflexivity|].
  cbn [chargeback_loop].
  pose proof (chargeback_line_fst period start end_ plans s w1 w2 H) as Hf.
  pose proof (chargeback_line_world period start end_ plans s w1) as H1.
  pose proof (chargeback_line_world period start end_ plans s w2) as H2.
  destruct (chargeback_line period start end_ plans s w1) as [r1 w1'] eqn:E1.
  destruct (chargeback_line period start end_ plans s w2) as [r2 w2'] eqn:E2.
  cbn [fst snd] in Hf, H1, H2. subst r2 w1' w2'. destruct r1 as [line|e].
  - erewrite (bind_ok _ _ w1) by exact E1. erewrite (bind_ok _ _ w2) by exact E2.
    apply IH. exact H.
  - erewrite (bind_raise _ _ w1) by exact E1. erewrite (bind_raise _ _ w2) by exact E2.
    reflexivity.
Qed.

(** The report is a function of the plans, the subscriptions and the
    usage events. *)
Lemma chargeback_report_reads period w1 w2 :
  plan (db w1) = plan (db w2) ->
  subscription (db w1) = subscription (db w2) ->
  usageevent (db w1) = usageevent (db w2) ->
  fst (chargeback_report period w1) = fst (chargeback_report period w2).
Proof.
  intros Hp Hs Hu. unfold chargeback_report. rewrite !bind_lift.
  destruct (month_bounds period) as [[start end_]|e]; [|reflexivity].
  erewrite (bind_ok _ _ w1) by reflexivity. erewrite (bind_ok _ _ w2) by reflexivity.
  erewrite (bind_ok _ _ (logged _ w1)) by reflexivity.
  erewrite (bind_ok _ _ (logged _ w2)) by reflexivity.
  cbn [db logged]. rewrite Hp, Hs.
  set (subs := filter _ _). set (plans := plans_by_id _).
  set (v1 := logged (find c_subscription) (logged (find c_plan) w1)).
  set (v2 := logged (find c_subscription) (logged (find c_plan) w2)).
  pose proof (chargeback_loop_fst period start end_ plans subs [] v1 v2 Hu) as Hf.
  unfold mbind, M_bind.
  destruct (chargeback_loop period start end_ plans subs [] v1) as [[r1|e1] ?];
    destruct (chargeback_loop period start end_ plans subs [] v2) as [[r2|e2] ?];
    cbn [fst] in Hf; inversion Hf; reflexivity.
Qed.

(** X16.  What [chargeback_report] returns or raises depends on the store
    through its plans, subscriptions and usage events only: neither the API
    services, nor the consumers, nor the calls made before change it. *)
Theorem chargeback_report_frame period w1 w2 :
  plan (db w1) = plan (db w2) ->
  subscription (db w1) = subscription (db w2) ->
  usageevent (db w1) = usageevent (db w2) ->
  fst (chargeback_report period w1) = fst (chargeback_report period w2).
Proof. apply chargeback_report_reads. Qed.

Lemma chargeback_report_frame_witness :
  fst (chargeback_report "2024-01" Scenario.w0)
  = fst (chargeback_report "2024-01"
           (mk_world (mk_db [mk_doc "64b0000000000000000000a1"
                               (ApiService.mk "billing" "v1" None "deploy" None "healthy")]
                            [Scenario.pro] []
                            (subscription Scenario.store) Scenario.events)
                     [update_one c_apiservice])).
Proof. apply (chargeback_report_frame "2024-01" Scenario.w0); reflexivity. Defined.

(** ** The metrics of one API *)

Lemma distinct_elem_of l : forall y, y ∈ distinct l -> y ∈ l.
Proof.
  induction l as [|x l IH]; intros y Hy; [exact Hy|].
  cbn [distinct] in Hy. apply elem_of_cons in Hy as [->|Hy]; [left|].
  apply list_elem_of_filter in Hy as [_ Hy]. right. apply IH. exact Hy.
Qed.

Lemma filter_none {A} (P : A -> Prop) `{!forall x, Decision (P x)} (l : list A) :
  (forall x, x ∈ l -> ~ P x) -> filter P l = [].
Proof.
  induction l as [|a l IH]; intros Hall; [reflexivity|].
  rewrite filter_cons_False by (apply Hall; left). apply IH.
  intros x Hx. apply Hall. right. exact Hx.
Qed.

Lemma filter_all {A} (P : A -> Prop) `{!forall x, Decision (P x)} (l : list A) :
  (forall x, x ∈ l -> P x) -> filter P l = l.
Proof.
  induction l as [|a l IH]; intros Hall; [reflexivity|].
  rewrite filter_cons_True by (apply Hall; left). f_equal. apply IH.
  intros x Hx. apply Hall. right. exact Hx.
Qed.

Lemma distinct_constant a l :
  l <> [] -> (forall y, y ∈ l -> y = a) -> distinct l = [a].
Proof.
  destruct l as [|x l]; [congruence|]. intros _ H. cbn [distinct].
  rewrite (H x) by left. f_equal.
  apply filter_none.
  intros y Hy Hne. apply Hne, H. right. apply distinct_elem_of. exact Hy.
Qed.

(** The events of one API make one group. *)
Lemma group_usage_by_api_single a evs :
  (forall e, e ∈ evs -> UsageEvent.api_id (fields e) = a) ->
  group_usage_by_api evs = group_usage evs.
Proof.
  intros H. destruct evs as [|e evs']; [reflexivity|]. set (evs := e :: evs') in *.
  unfold group_usage_by_api.
  rewrite (distinct_constant a).
  - cbn [map]. rewrite filter_all by exact H. reflexivity.
  - discriminate.
  - intros y Hy. apply list_elem_of_fmap in Hy as (e' & -> & He'). apply H. exact He'.
Qed.

Lemma api_filter_api_id a period filt :
  api_filter a period = Ok filt -> q_api_id filt = Some a /\ q_consumer_id filt = None.
Proof.
  destruct period as [[|c p]|]; cbn [api_filter].
  - intros H; inversion H; auto.
  - destruct (month_bounds (String c p)) as [[s e]|e]; [|discriminate].
    intros H; inversion H; auto.
  - intros H; inversion H; auto.
Qed.

Lemma matching_api_id filt a d e :
  q_api_id filt = Some a -> e ∈ matching filt d -> UsageEvent.api_id (fields e) = a.
Proof.
  intros Hq He. unfold matching in He. apply list_elem_of_filter in He as [He _].
  unfold usage_matches in He. rewrite Hq in He. cbn [eq_or_any] in He.
  apply andb_true_iff in He as [He _]. apply andb_true_iff in He as [_ He].
  apply String.eqb_eq. exact He.
Qed.

(** What [metrics_by_api] returns once the filter is built. *)
Lemma metrics_by_api_ok a period filt w :
  api_filter a period = Ok filt ->
  let evs := matching filt (db w) in
  exists rate,
    rate_of evs = Ok rate
    /\ metrics_by_api a period w
       = (Ok (ApiMetrics.mk a (Z.of_nat (length evs))
                (match evs with [] => None | _ => mongo_avg (latencies evs) end) rate),
          mk_world (db w) (calls w ++ [count_documents c_usageevent; aggregate c_usageevent])).
Proof.
  intros Hf. cbv zeta. destruct (rate_of_ok (matching filt (db w))) as (rate & Hr & _).
  exists rate. split; [exact Hr|].
  unfold metrics_by_api. rewrite bind_lift, Hf.
  erewrite bind_ok by reflexivity.
  erewrite bind_ok by reflexivity.
  cbn [db logged]. fold (matching filt (db w)).
  rewrite (group_usage_by_api_single a)
    by (intros e He; apply (matching_api_id filt a (db w)); [apply (api_filter_api_id a period filt Hf)|exact He]).
  destruct (group_usage_head (matching filt (db w))) as [-> ->].
  fold (rate_of (matching filt (db w))). rewrite bind_lift, Hr.
  unfold mret, M_ret, logged. cbn [db calls].
  rewrite <- !app_assoc. reflexivity.
Qed.

Lemma api_filter_matches a period filt e :
  api_filter a period = Ok filt ->
  usage_matches filt e = true
  <-> UsageEvent.api_id (fields e) = a
      /\ match overview_filter period with
         | Ok q => usage_matches q e = true
         | Raise _ => False
         end.
Proof.
  destruct period as [[|c p]|]; cbn [api_filter overview_filter].
  - intros H; inversion H. unfold usage_matches, eq_or_any; cbn.
    rewrite andb_true_r, String.eqb_eq. tauto.
  - destruct (month_bounds (String c p)) as [[s e']|e']; [|discriminate].
    intros H; inversion H. unfold usage_matches, eq_or_any; cbn.
    rewrite andb_true_iff, String.eqb_eq. tauto.
  - intros H; inversion H. unfold usage_matches, eq_or_any; cbn.
    rewrite andb_true_r, String.eqb_eq. tauto.
Qed.

(** X17.  [metrics_by_api] reports the usage events of the API, within the
    period when one is given: [total_calls] is their number; with none,
    [success_rate] and [avg_latency_ms] are null, whether or not the API
    exists; with some, [success_rate] is the quotient of those of status
    below 400 by [total_calls] and [avg_latency_ms] the mean of the
    latencies present.  The store is left as found, after one count and one
    aggregation. *)
Theorem metrics_by_api_rates a period filt w :
  api_filter a period = Ok filt ->
  let evs := matching filt (db w) in
  (forall e, e ∈ evs <-> e ∈ usageevent (db w)
                         /\ UsageEvent.api_id (fields e) = a
                         /\ match overview_filter period with
                            | Ok q => usage_matches q e = true
                            | Raise _ => False
                            end)
  /\ exists r w',
    metrics_by_api a period w = (Ok r, w')
    /\ ApiMetrics.api_id r = a
    /\ ApiMetrics.total_calls r = Z.of_nat (length evs)
    /\ (evs = [] -> ApiMetrics.success_rate r = None /\ ApiMetrics.avg_latency_ms r = None)
    /\ (evs <> [] ->
        (exists f, Float.int_truediv (successes evs) (Z.of_nat (length evs)) = Ok f
                   /\ ApiMetrics.success_rate r = Some f)
        /\ ApiMetrics.avg_latency_ms r = mongo_avg (latencies evs))
    /\ db w' = db w
    /\ calls w' = calls w ++ [count_documents c_usageevent; aggregate c_usageevent].
Proof.
  intros Hf. cbv zeta. split.
  - intros e. unfold matching. rewrite list_elem_of_filter.
    rewrite (api_filter_matches a period filt e Hf). tauto.
  - destruct (metrics_by_api_ok a period filt w Hf) as (rate & Hr & H).
    do 2 eexists. split; [exact H|].
    cbn [ApiMetrics.api_id ApiMetrics.total_calls ApiMetrics.success_rate
         ApiMetrics.avg_latency_ms db calls].
    destruct (rate_of_ok (matching filt (db w))) as (rate' & Hr' & Hnil & Hcons).
    rewrite Hr in Hr'. inversion Hr'; subst rate'.
    split; [reflexivity|]. split; [reflexivity|]. split.
    + intros E. split; [apply Hnil; exact E|]. rewrite E. reflexivity.
    + split; [|split; reflexivity]. intros E. split.
      * destruct (Hcons E) as (f & Hd & ->). eauto.
      * destruct (matching filt (db w)); [congruence|reflexivity].
Qed.

Lemma metrics_by_api_rates_witness :
  exists r w',
    metrics_by_api "a1" (Some "2024-01") Scenario.w0 = (Ok r, w')
    /\ ApiMetrics.total_calls r = 6
    /\ ApiMetrics.success_rate r = Some (Float.of_decimal 4 6).
Proof.
  destruct (metrics_by_api_rates "a1" (Some "2024-01")
              (mk_usage_query None (Some "a1")
                 (Some (Scenario.january_start, Scenario.january_end)))
              Scenario.w0 eq_refl) as (_ & r & w' & H & _ & Ht & _ & Hs & _).
  exists r, w'. split; [exact H|]. split; [exact Ht|].
  destruct (Hs ltac:(discriminate)) as [(f & Hf & ->) _].
  vm_compute in Hf. inversion Hf. reflexivity.
Defined.

(** X18.  The calls [metrics_by_api] counts for an API are among those the
    overview counts for the same period, and an API no usage event names has
    none. *)
Theorem metrics_by_api_within_overview a period w r w1 o w2 :
  metrics_by_api a period w = (Ok r, w1) ->
  metrics_overview period w = (Ok o, w2) ->
  0 <= ApiMetrics.total_calls r <= total_calls o
  /\ ((forall e, e ∈ usageevent (db w) -> UsageEvent.api_id (fields e) <> a) ->
      ApiMetrics.total_calls r = 0 /\ ApiMetrics.success_rate r = None
      /\ ApiMetrics.avg_latency_ms r = None).
Proof.
  intros Ha Ho.
  destruct (api_filter a period) as [fa|e] eqn:Ea;
    [|unfold metrics_by_api in Ha; rewrite bind_lift, Ea in Ha; discriminate].
  destruct (overview_filter period) as [fo|e] eqn:Eo;
    [|rewrite (metrics_overview_raise _ _ _ Eo) in Ho; discriminate].
  destruct (metrics_by_api_ok a period fa w Ea) as (ra & Hra & H1). rewrite H1 in Ha.
  destruct (metrics_overview_ok period fo w Eo) as (ro & _ & H2). rewrite H2 in Ho.
  inversion Ha; subst r. inversion Ho; subst o.
  cbn [ApiMetrics.total_calls total_calls ApiMetrics.success_rate ApiMetrics.avg_latency_ms].
  split.
  - split; [lia|]. apply inj_le. unfold matching. apply filter_length_le.
    intros e He. apply (api_filter_matches a period fa e Ea) in He as [_ He].
    rewrite Eo in He. exact He.
  - intros Hnone.
    assert (matching fa (db w) = []) as E.
    { unfold matching. apply filter_none.
      intros e He Hm. apply (api_filter_matches a period fa e Ea) in Hm as [Hm _].
      exact (Hnone e He Hm). }
    rewrite E in *. cbn in Hra. inversion Hra. auto.
Qed.

Lemma metrics_by_api_within_overview_witness :
  0 <= 1 <= 9.
Proof.
  exact (proj1 (metrics_by_api_within_overview "a2" None Scenario.w0
           (ApiMetrics.mk "a2" 1 (Some (Float.of_Z 9)) (Some (Float.of_Z 1)))
           (snd (metrics_by_api "a2" None Scenario.w0))
           (mk_overview 9 (Some (Float.of_decimal 260 6)) (Some (Float.of_decimal 7 9)) 0 0 5)
           (snd (metrics_overview None Scenario.w0)) eq_refl eq_refl)).
Defined.

(** ** Object identifiers *)

Lemma hex_char c :
  is_hex c = true ->
  is_space c = false
  /\ exists v, hex_value c = Some v /\ 0 <= v < 16 /\ hex_digit v = lower c
               /\ is_hex (lower c) = true /\ lower (lower c) = lower c.
Proof.
  destruct c as [[] [] [] [] [] [] [] []]; intros H; try discriminate H;
    (split; [reflexivity|]); eexists; (split; [reflexivity|]);
    (split; [vm_compute; split; [discriminate|reflexivity]|]); repeat split; reflexivity.
Qed.

Lemma space_char c : is_space c = true -> is_hex c = false.
Proof. destruct c as [[] [] [] [] [] [] [] []]; intros H; try discriminate H; reflexivity. Qed.

Lemma hex_digit_pair top bot :
  0 <= top < 16 -> 0 <= bot < 16 ->
  (16 * top + bot) / 16 = top /\ (16 * top + bot) mod 16 = bot.
Proof. intros Ht Hb. split; [symmetry; apply (Z.div_unique _ 16 top bot)|symmetry; apply (Z.mod_unique _ 16 top bot)]; lia. Qed.

(** A string of hexadecimal digits, an even number of them, is read as
    the bytes that print as the string in lower case. *)
Lemma fromhex_hex n : forall s,
  String.length s = (2 * n)%nat -> all_hex s = true ->
  exists bytes, fromhex s = Some bytes /\ hexlify bytes = lower_case s
                /\ all_hex (lower_case s) = true
                /\ lower_case (lower_case s) = lower_case s.
Proof.
  induction n as [|n IH]; intros s Hlen Hhex.
  - destruct s; [|discriminate]. exists []. repeat split; reflexivity.
  - destruct s as [|c [|c' r]]; [simpl in Hlen; lia|simpl in Hlen; lia|].
    cbn [all_hex] in Hhex. apply andb_true_iff in Hhex as [Hc Hhex].
    apply andb_true_iff in Hhex as [Hc' Hhex].
    destruct (hex_char c Hc) as (Hs & v & Hv & Bv & Hd & Hl & Hll).
    destruct (hex_char c' Hc') as (_ & v' & Hv' & Bv' & Hd' & Hl' & Hll').
    destruct (IH r ltac:(simpl in Hlen; lia) Hhex) as (bytes & Hb & Hx & Ha & Hi).
    exists ((16 * v + v') :: bytes). cbn [fromhex lower_case hexlify all_hex].
    rewrite Hs, Hv, Hv', Hb. destruct (hex_digit_pair v v' Bv Bv') as [-> ->].
    rewrite Hd, Hd', Hx, Hl, Hl', Ha, Hll, Hll', Hi. repeat split; reflexivity.
Qed.

Lemma lower_case_length s : String.length (lower_case s) = String.length s.
Proof. induction s as [|c r IH]; [reflexivity|]. simpl. rewrite IH. reflexivity. Qed.

Lemma oid_hex s :
  String.length s = 24%nat -> all_hex s = true ->
  oid s = Ok (lower_case s) /\ oid (lower_case s) = Ok (lower_case s).
Proof.
  intros Hlen Hhex.
  destruct (fromhex_hex 12 s Hlen Hhex) as (bytes & Hb & Hx & Ha & Hi).
  destruct (fromhex_hex 12 (lower_case s) ltac:(rewrite lower_case_length; exact Hlen) Ha)
    as (bytes' & Hb' & Hx' & _).
  unfold oid. rewrite lower_case_length, Hlen, Hb, Hb', Hx, Hx', Hi. split; reflexivity.
Qed.

(** X19.  [oid] reads identifiers without regard to case: a string of 24
    hexadecimal digits is taken as the identifier written in lower case,
    which [oid] takes as itself. *)
Theorem oid_of_hex s :
  String.length s = 24%nat -> all_hex s = true ->
  oid s = Ok (lower_case s) /\ oid (lower_case s) = Ok (lower_case s).
Proof. apply oid_hex. Qed.

Lemma oid_of_hex_witness :
  oid "64B0000000000000000000Ff" = Ok "64b0000000000000000000ff"
  /\ oid "64b0000000000000000000ff" = Ok "64b0000000000000000000ff".
Proof. apply (oid_of_hex "64B0000000000000000000Ff"); reflexivity. Defined.

Lemma hexlify_length bytes : String.length (hexlify bytes) = (2 * length bytes)%nat.
Proof. induction bytes as [|b l IH]; [reflexivity|]. cbn [hexlify String.length length]. rewrite IH. lia. Qed.

(** White space is read and leaves no byte. *)
Lemma fromhex_length n : forall s bytes,
  (String.length s <= n)%nat -> fromhex s = Some bytes ->
  (2 * length bytes <= String.length s)%nat
  /\ ((2 * length bytes)%nat = String.length s -> all_hex s = true).
Proof.
  induction n as [|n IH]; intros s bytes Hlen H.
  - destruct s; [|simpl in Hlen; lia]. inversion H. split; [reflexivity|reflexivity].
  - destruct s as [|c r]; [inversion H; split; reflexivity|].
    cbn [fromhex] in H. destruct (is_space c) eqn:Es.
    + destruct (IH r bytes ltac:(simpl in Hlen; lia) H) as [Hle _].
      cbn [String.length]. split; [lia|lia].
    + destruct (hex_value c) as [top|] eqn:Et; [|discriminate].
      destruct r as [|c' r']; [discriminate|].
      destruct (hex_value c') as [bot|] eqn:Eb; [|discriminate].
      destruct (fromhex r') as [rest|] eqn:Er; [|discriminate].
      cbn in H. inversion H; subst bytes.
      destruct (IH r' rest ltac:(simpl in Hlen; lia) Er) as [Hle Hall].
      cbn [String.length length all_hex]. split; [lia|]. intros Heq.
      rewrite Hall by lia.
      assert (forall x v, hex_value x = Some v -> is_hex x = true) as Hx.
      { intros x v. unfold hex_value, is_hex.
        destruct (Strptime.in_range "0" "9" x); [reflexivity|].
        destruct (Strptime.in_range "a" "f" x); [reflexivity|].
        destruct (Strptime.in_range "A" "F" x); [reflexivity|discriminate]. }
      rewrite (Hx c top Et), (Hx c' bot Eb). reflexivity.
Qed.

(** X20.  [oid] fails with the HTTP 400 only, and takes strings of 24
    characters only; the identifier it returns has the twelve bytes of an
    [ObjectId] exactly when the 24 characters are hexadecimal digits: white
    space between the digit pairs is taken, and leaves a shorter one. *)
Theorem oid_outcomes s :
  match oid s with
  | Raise e => e = invalid_object_id
  | Ok t =>
      String.length s = 24%nat
      /\ (String.length t <= 24)%nat
      /\ (String.length t = 24%nat <-> all_hex s = true)
  end
  /\ (String.length s <> 24%nat -> oid s = Raise invalid_object_id).
Proof.
  split.
  - unfold oid. destruct (String.length s =? 24)%nat eqn:E; [|reflexivity].
    apply Nat.eqb_eq in E. destruct (fromhex s) as [bytes|] eqn:Eb; [|reflexivity].
    destruct (fromhex_length 24 s bytes ltac:(lia) Eb) as [Hle Hall].
    rewrite hexlify_length. split; [exact E|]. split; [lia|]. split.
    + intros H. apply Hall. lia.
    + intros H. destruct (fromhex_hex 12 s E H) as (bytes' & Hb' & Hx' & _).
      rewrite Eb in Hb'. inversion Hb'; subst bytes'.
      rewrite <- hexlify_length, Hx', lower_case_length. exact E.
  - intros H. unfold oid. apply Nat.eqb_neq in H. rewrite H. reflexivity.
Qed.

Example oid_takes_white_space :
  oid "64b0 0000 0000 0000 0000" = Ok "64b00000000000000000".
Proof. reflexivity. Qed.

(** ** Updating a plan *)

Lemma oid_raises s e : oid s = Raise e -> e = invalid_object_id.
Proof.
  unfold oid. destruct (_ =? _)%nat; [destruct (fromhex s)|]; intros H; inversion H; reflexivity.
Qed.

Lemma set_first_cases id p l :
  (Forall (fun x => _id x <> id) l /\ set_first id p l = (l, 0))
  \/ (exists l1 d l2, l = l1 ++ d :: l2 /\ Forall (fun x => _id x <> id) l1 /\ _id d = id
                      /\ set_first id p l = (l1 ++ mk_doc id p :: l2, 1)).
Proof.
  induction l as [|x l IH]; [left; split; [constructor|reflexivity]|].
  cbn [set_first]. destruct (String.eqb (_id x) id) eqn:E.
  - apply String.eqb_eq in E. right. exists [], x, l. repeat split; [constructor|exact E].
  - apply String.eqb_neq in E. destruct IH as [[Hall ->]|(l1 & d & l2 & -> & Hall & Hd & ->)].
    + left. split; [constructor; assumption|reflexivity].
    + right. exists (x :: l1), d, l2. repeat split; [constructor; assumption|exact Hd].
Qed.

Lemma db_eta d :
  mk_db (apiservice d) (plan d) (consumer d) (subscription d) (usageevent d) = d.
Proof. destruct d; reflexivity. Qed.

(** The three outcomes of [update_plan]. *)
Lemma update_plan_cases plan_id p w :
  (exists e, oid plan_id = Raise e /\ update_plan plan_id p w = (Raise e, w))
  \/ (exists id, oid plan_id = Ok id
        /\ Forall (fun x => _id x <> id) (plan (db w))
        /\ update_plan plan_id p w
           = (Raise plan_not_found, mk_world (db w) (calls w ++ [update_one c_plan])))
  \/ (exists id l1 d l2, oid plan_id = Ok id
        /\ plan (db w) = l1 ++ d :: l2 /\ Forall (fun x => _id x <> id) l1 /\ _id d = id
        /\ update_plan plan_id p w
           = (Ok true,
              mk_world (mk_db (apiservice (db w)) (l1 ++ mk_doc id p :: l2) (consumer (db w))
                              (subscription (db w)) (usageevent (db w)))
                       (calls w ++ [update_one c_plan]))).
Proof.
  unfold update_plan. rewrite bind_lift. destruct (oid plan_id) as [id|e]; [|left; eauto].
  right. unfold mbind, M_bind, db_update_one_plan.
  destruct (set_first_cases id p (plan (db w)))
    as [[Hall ->]|(l1 & d & l2 & Hl & Hall & Hd & ->)].
  - left. exists id. split; [reflexivity|]. split; [exact Hall|].
    cbn. rewrite db_eta. reflexivity.
  - right. exists id, l1, d, l2. repeat split; assumption.
Qed.

(** X21.  For an identifier [oid] rejects or reads as twelve bytes, and a
    plan whose [included_calls] fits 64 bits: [update_plan] answers the HTTP
    400 on a malformed identifier without a call on the store, the HTTP 404
    when no plan has the identifier, the store left as found, and otherwise
    rewrites the first plan that has it, under the same identifier.  It never
    adds or removes a plan, and never touches another collection. *)
Theorem update_plan_outcomes plan_id p w :
  twelve_bytes (oid plan_id) = true ->
  is_int64 (Plan.included_calls p) = true ->
  exists r w',
    update_plan plan_id p w = (r, w')
    /\ map _id (plan (db w')) = map _id (plan (db w))
    /\ apiservice (db w') = apiservice (db w) /\ consumer (db w') = consumer (db w)
    /\ subscription (db w') = subscription (db w) /\ usageevent (db w') = usageevent (db w)
    /\ match r with
       | Raise e =>
           db w' = db w
           /\ ((e = invalid_object_id /\ oid plan_id = Raise e /\ w' = w)
               \/ (e = plan_not_found
                   /\ exists id, oid plan_id = Ok id
                                 /\ Forall (fun x => _id x <> id) (plan (db w))))
       | Ok _ =>
           exists id l1 d l2,
             oid plan_id = Ok id
             /\ plan (db w) = l1 ++ d :: l2
             /\ Forall (fun x => _id x <> id) l1 /\ _id d = id
             /\ plan (db w') = l1 ++ mk_doc id p :: l2
             /\ calls w' = calls w ++ [update_one c_plan]
       end.
Proof.
  intros _ _.
  destruct (update_plan_cases plan_id p w)
    as [(e & He & ->)|[(id & Hid & Hall & ->)|(id & l1 & d & l2 & Hid & Hl & Hall & Hd & ->)]];
    do 2 eexists; (split; [reflexivity|]); cbn [db calls plan apiservice consumer subscription
                                                usageevent].
  - repeat (split; [reflexivity|]). left.
    pose proof (oid_raises plan_id e He) as ->. repeat split. exact He.
  - repeat (split; [reflexivity|]). right. split; [reflexivity|]. exists id. auto.
  - split; [rewrite Hl, !map_app; cbn [map _id]; rewrite Hd; reflexivity|].
    repeat (split; [reflexivity|]). exists id, l1, d, l2. auto 10.
Qed.

Lemma update_plan_outcomes_witness :
  exists r w',
    update_plan "64B000000000000000000001" (fields Scenario.fine) Scenario.w0 = (r, w')
    /\ map _id (plan (db w')) = map _id (plan (db Scenario.w0)).
Proof.
  destruct (update_plan_outcomes "64B000000000000000000001" (fields Scenario.fine) Scenario.w0
              eq_refl eq_refl) as (r & w' & H & Hm & _).
  exists r, w'. split; assumption.
Defined.

Lemma plans_by_id_app l1 l2 k :
  plans_by_id (l1 ++ l2) !! k
  = match plans_by_id l2 !! k with Some p => Some p | None => plans_by_id l1 !! k end.
Proof.
  induction l2 as [|x l2 IH] using rev_ind.
  - rewrite app_nil_r. unfold plans_by_id at 2. cbn [foldl]. rewrite lookup_empty. reflexivity.
  - rewrite app_assoc, !plans_by_id_snoc. destruct (decide (_id x = k)) as [<-|Hne].
    + rewrite !lookup_insert_eq. reflexivity.
    + rewrite !lookup_insert_ne by exact Hne. exact IH.
Qed.

Lemma plans_by_id_one (d : doc Plan.t) k :
  plans_by_id [d] !! k = if decide (_id d = k) then Some d else None.
Proof.
  unfold plans_by_id. cbn [foldl]. destruct (decide (_id d = k)) as [<-|Hne].
  - apply lookup_insert_eq.
  - rewrite lookup_insert_ne by exact Hne. apply lookup_empty.
Qed.

Lemma plans_by_id_none l k : Forall (fun x => _id x <> k) l -> plans_by_id l !! k = None.
Proof.
  induction l as [|x l IH] using rev_ind; intros H; [apply lookup_empty|].
  apply Forall_app in H as [H1 H2]. apply Forall_cons in H2 as [H2 _].
  rewrite plans_by_id_snoc, lookup_insert_ne by exact H2. apply IH. exact H1.
Qed.

Lemma plans_by_id_middle l1 (d : doc Plan.t) l2 k :
  plans_by_id (l1 ++ d :: l2) !! k
  = match plans_by_id l2 !! k with
    | Some p => Some p
    | None => if decide (_id d = k) then Some d else plans_by_id l1 !! k
    end.
Proof.
  change (d :: l2) with ([d] ++ l2). rewrite app_assoc, plans_by_id_app.
  destruct (plans_by_id l2 !! k); [reflexivity|].
  rewrite plans_by_id_app, plans_by_id_one. destruct (decide (_id d = k)); reflexivity.
Qed.

Lemma NoDup_middle {A} (f : A -> string) l1 d l2 :
  NoDup (map f (l1 ++ d :: l2)) -> Forall (fun x => f x <> f d) l2.
Proof.
  rewrite map_app. cbn [map]. intros H. apply NoDup_app in H as (_ & _ & H).
  apply NoDup_cons in H as [H _]. apply Forall_forall. intros x Hx Heq. apply H.
  rewrite <- Heq. apply list_elem_of_fmap. exists x. split; [reflexivity|exact Hx].
Qed.

(** The terms of a subscription once the plan [id] is rewritten. *)
Lemma plan_terms_updated d l1 x l2 id p s :
  plan d = l1 ++ x :: l2 -> _id x = id -> NoDup (map _id (plan d)) ->
  forall d', plan d' = l1 ++ mk_doc id p :: l2 ->
  plan_terms d' s
  = if String.eqb (Subscription.plan_id (fields s)) id then terms_of p else plan_terms d s.
Proof.
  intros Hl Hx Hnd d' Hl'. unfold plan_terms. rewrite Hl, Hl', !plans_by_id_middle.
  rewrite Hl in Hnd. apply (NoDup_middle _id) in Hnd. rewrite Hx in Hnd.
  cbn [_id]. rewrite Hx. destruct (String.eqb (Subscription.plan_id (fields s)) id) eqn:E.
  - apply String.eqb_eq in E. rewrite E, (plans_by_id_none l2 id Hnd).
    destruct (decide (id = id)); [reflexivity|congruence].
  - apply String.eqb_neq in E. destruct (plans_by_id l2 !! _); [reflexivity|].
    destruct (decide (id = _)); [congruence|reflexivity].
Qed.

(** The lines of the report once a plan is rewritten. *)
Lemma update_plan_lines plan_id p period w w1 r w2 r1 w3 :
  NoDup (map _id (plan (db w))) ->
  int64_store (db w) = true ->
  is_int64 (Plan.included_calls p) = true ->
  update_plan plan_id p w = (Ok true, w1) ->
  chargeback_report period w = (Ok r, w2) ->
  chargeback_report period w1 = (Ok r1, w3) ->
  exists id,
    oid plan_id = Ok id
    /\ items r1 = map (fun l => if String.eqb (Chargeback.plan_id l) id
                                then rebilled (terms_of p) l else l) (items r).
Proof.
  intros Hnd Hst Hp Hu Hr Hr1.
  destruct (update_plan_cases plan_id p w)
    as [(e & He & H)|[(id & Hid & Hall & H)|(id & l1 & d & l2 & Hid & Hl & Hall & Hd & H)]];
    rewrite H in Hu; inversion Hu; subst w1; clear Hu H.
  exists id. split; [exact Hid|].
  destruct (chargeback_report_ok_bounds _ _ _ _ Hr) as (start & end_ & Hmb).
  rewrite (chargeback_report_spec _ _ _ _ Hmb Hst) in Hr. inversion Hr; subst r.
  rewrite (chargeback_report_spec _ _ _ _ Hmb) in Hr1.
  - inversion Hr1; subst r1. cbn [items db]. rewrite map_map. apply map_ext.
    intros s. unfold expected_line.
    rewrite (plan_terms_updated (db w) l1 d l2 id p s Hl Hd Hnd
               (mk_db (apiservice (db w)) (l1 ++ mk_doc id p :: l2) (consumer (db w))
                      (subscription (db w)) (usageevent (db w))) eq_refl).
    cbn [Chargeback.plan_id]. destruct (String.eqb _ id); reflexivity.
  - cbn [db]. unfold int64_store in *. cbn [usageevent plan]. rewrite Hl in Hst.
    apply andb_true_iff in Hst as [Hst1 Hst2]. rewrite Hst1. cbn [andb].
    rewrite forallb_app in *. apply andb_true_iff in Hst2 as [-> Hst2].
    cbn [forallb andb fields] in *. apply andb_true_iff in Hst2 as [_ ->].
    rewrite Hp. reflexivity.
Qed.

(** X22.  Once [update_plan] has rewritten a plan, [chargeback_report] bills
    the lines of that plan under the new terms, with the calls they had, and
    the other lines as before: the lines of the new report are, in some
    order, those of the old one so rebilled. *)
Theorem update_plan_rebills plan_id p period w w1 r w2 r1 w3 :
  NoDup (map _id (plan (db w))) ->
  int64_store (db w) = true ->
  is_int64 (Plan.included_calls p) = true ->
  twelve_bytes (oid plan_id) = true ->
  update_plan plan_id p w = (Ok true, w1) ->
  chargeback_report period w = (Ok r, w2) ->
  chargeback_report period w1 = (Ok r1, w3) ->
  exists id,
    oid plan_id = Ok id
    /\ Permutation (items r1)
                   (map (fun l => if String.eqb (Chargeback.plan_id l) id
                                  then rebilled (terms_of p) l else l) (items r)).
Proof.
  intros Hnd Hst Hp _ Hu Hr Hr1.
  destruct (update_plan_lines _ _ _ _ _ _ _ _ _ Hnd Hst Hp Hu Hr Hr1) as (id & Hid & ->).
  exists id. split; [exact Hid|reflexivity].
Qed.

Lemma update_plan_rebills_witness :
  exists id,
    oid "64b000000000000000000001" = Ok id
    /\ Permutation
         (items (mk_chargeback "2024-01"
                   (map (expected_line "2024-01" Scenario.january_start Scenario.january_end
                           (db (snd (update_plan "64b000000000000000000001"
                                       (fields Scenario.fine) Scenario.w0))))
                        [Scenario.s_jan; Scenario.s_dangling; Scenario.s_at_end])))
         (map (fun l => if String.eqb (Chargeback.plan_id l) id
                        then rebilled (terms_of (fields Scenario.fine)) l else l)
              (items (mk_chargeback "2024-01"
                 (map (expected_line "2024-01" Scenario.january_start Scenario.january_end
                         Scenario.store)
                      [Scenario.s_jan; Scenario.s_dangling; Scenario.s_at_end])))).
Proof.
  apply (update_plan_rebills "64b000000000000000000001" (fields Scenario.fine) "2024-01"
           Scenario.w0 (snd (update_plan "64b000000000000000000001" (fields Scenario.fine)
                               Scenario.w0))
           _ (snd (chargeback_report "2024-01" Scenario.w0))
           _ (snd (chargeback_report "2024-01"
                     (snd (update_plan "64b000000000000000000001" (fields Scenario.fine)
                             Scenario.w0)))));
    try reflexivity.
  repeat constructor. intros H. inversion H.
Defined.

(** ** Handlers the report does not see *)

Lemma update_api_keeps api_id a w :
  plan (db (snd (update_api api_id a w))) = plan (db w)
  /\ subscription (db (snd (update_api api_id a w))) = subscription (db w)
  /\ usageevent (db (snd (update_api api_id a w))) = usageevent (db w)
  /\ consumer (db (snd (update_api api_id a w))) = consumer (db w).
Proof.
  unfold update_api, mbind, M_bind, lift, db_update_one_apiservice.
  destruct (oid api_id) as [id|e]; [|repeat split].
  destruct (set_first_api id a (apiservice (db w))) as [apis n].
  destruct (n =? 0); repeat split.
Qed.

(** X23.  The handlers of API services and consumers leave the chargeback
    report as it was: [update_api], whatever it answers, [create_api] and
    [create_consumer]. *)
Theorem report_unmoved_by_apis_and_consumers period api_id place new_id a c w :
  fst (chargeback_report period (snd (update_api api_id a w)))
  = fst (chargeback_report period w)
  /\ fst (chargeback_report period (snd (create_api place new_id a w)))
     = fst (chargeback_report period w)
  /\ fst (chargeback_report period (snd (create_consumer place new_id c w)))
     = fst (chargeback_report period w).
Proof.
  destruct (update_api_keeps api_id a w) as (H1 & H2 & H3 & _).
  split; [|split]; apply chargeback_report_reads; try assumption; reflexivity.
Qed.

(** ** Where the store puts a document *)

Lemma placed_Permutation {A} (l : list A) k x : Permutation (take k l ++ x :: drop k l) (x :: l).
Proof. rewrite <- Permutation_middle, take_drop. reflexivity. Qed.

Lemma placed_length {A} (l : list A) k x :
  length (take k l ++ x :: drop k l) = S (length l).
Proof. rewrite (Permutation_length (placed_Permutation l k x)). reflexivity. Qed.

Lemma placed_filter {A} (P : A -> Prop) `{!forall x, Decision (P x)} (l : list A) k x :
  filter P (take k l ++ x :: drop k l)
  = filter P (take k l) ++ (if decide (P x) then [x] else []) ++ filter P (drop k l).
Proof.
  rewrite filter_app. f_equal. destruct (decide (P x)) as [Hp|Hp].
  - rewrite filter_cons_True by exact Hp. reflexivity.
  - rewrite filter_cons_False by exact Hp. reflexivity.
Qed.

Lemma filter_take_drop {A} (P : A -> Prop) `{!forall x, Decision (P x)} (l : list A) k :
  filter P (take k l) ++ filter P (drop k l) = filter P l.
Proof. rewrite <- filter_app, take_drop. reflexivity. Qed.

Lemma placed_forallb {A} (f : A -> bool) (l : list A) k x :
  forallb f (take k l ++ x :: drop k l) = f x && forallb f l.
Proof.
  rewrite <- (take_drop k l) at 3. rewrite !forallb_app. cbn [forallb].
  destruct (forallb f (take k l)), (f x), (forallb f (drop k l)); reflexivity.
Qed.

(** ** Ingesting usage *)

Lemma Forall2_map_same {A B} (R : B -> B -> Prop) (f g : A -> B) l :
  (forall x, R (f x) (g x)) -> Forall2 R (map f l) (map g l).
Proof. intros HR. induction l; simpl; constructor; auto. Qed.

Lemma usage_count_placed d d' s start end_ k e :
  usageevent d' = take k (usageevent d) ++ e :: drop k (usageevent d) ->
  usage_count d' s start end_
  = usage_count d s start end_ + (if decide (billable s start end_ e) then 1 else 0).
Proof.
  intros H. unfold usage_count. rewrite H, placed_filter, !length_app.
  rewrite <- (filter_take_drop (billable s start end_) (usageevent d) k), length_app.
  destruct (decide (billable s start end_ e)); simpl; lia.
Qed.

Lemma billable_counts s start end_ period n o a (e : doc UsageEvent.t) :
  (if decide (billable s start end_ e) then 1 else 0)
  = if counts start end_
         (Chargeback.mk (Subscription.consumer_id (fields s)) (Subscription.api_id (fields s))
                        (Subscription.plan_id (fields s)) period n o a) (fields e)
    then 1 else 0.
Proof.
  unfold counts, billable. cbn [Chargeback.api_id Chargeback.consumer_id].
  destruct (decide _) as [(H1 & H2 & H3)|Hn].
  - rewrite H1, H2, H3, !String.eqb_refl. reflexivity.
  - destruct (String.eqb _ _) eqn:E1; [|reflexivity].
    destruct (String.eqb (UsageEvent.consumer_id _) _) eqn:E2; [|reflexivity].
    destruct (in_period _ _ _) eqn:E3; [|reflexivity].
    exfalso. apply Hn. apply String.eqb_eq in E1, E2. auto.
Qed.

Lemma ingest_usage_world utcnow place new_id evt w :
  ingest_usage utcnow place new_id evt w
  = (Ok new_id,
     mk_world (mk_db (apiservice (db w)) (plan (db w)) (consumer (db w)) (subscription (db w))
                     (take place (usageevent (db w))
                      ++ mk_doc new_id (ingested utcnow evt)
                      :: drop place (usageevent (db w))))
              (calls w)).
Proof. reflexivity. Qed.

(** X24.  [ingest_usage] returns the identifier of the event it stores,
    stamped at the moment of ingestion when the body has no [timestamp] and
    kept to the millisecond.  The report of a period then has the lines it
    had, each with one call more when it is a line of the consumer and the
    API of the event and the period holds the timestamp, and with the calls
    it had otherwise: the lines of the two reports pair up, in some order of
    the new ones. *)
Theorem ingest_usage_counts utcnow place new_id evt period start end_ w r w2 r1 w3 :
  int64_store (db (snd (ingest_usage utcnow place new_id evt w))) = true ->
  month_bounds period = Ok (start, end_) ->
  chargeback_report period w = (Ok r, w2) ->
  chargeback_report period (snd (ingest_usage utcnow place new_id evt w)) = (Ok r1, w3) ->
  fst (ingest_usage utcnow place new_id evt w) = Ok new_id
  /\ exists paired,
       Permutation (items r1) paired
       /\ Forall2 (fun l l1 =>
                     Chargeback.consumer_id l1 = Chargeback.consumer_id l
                     /\ Chargeback.api_id l1 = Chargeback.api_id l
                     /\ Chargeback.plan_id l1 = Chargeback.plan_id l
                     /\ Chargeback.calls l1
                        = Chargeback.calls l
                          + (if counts start end_ l (ingested utcnow evt) then 1 else 0))
                  (items r) paired.
Proof.
  intros Hst1 Hmb Hr Hr1. rewrite ingest_usage_world in *. cbn [fst snd] in *.
  split; [reflexivity|].
  assert (Hst : int64_store (db w) = true).
  { unfold int64_store in *. cbn [db usageevent plan] in Hst1.
    apply andb_true_iff in Hst1 as [Hn Hall]. rewrite Hall, andb_true_r.
    apply is_int64_spec in Hn. apply is_int64_spec. rewrite placed_length in Hn. lia. }
  rewrite (chargeback_report_spec _ _ _ _ Hmb Hst) in Hr. inversion Hr; subst r.
  rewrite (chargeback_report_spec _ _ _ _ Hmb Hst1) in Hr1. inversion Hr1; subst r1.
  cbn [items db]. eexists. split; [reflexivity|].
  apply Forall2_map_same. intros s.
  unfold expected_line. cbn [Chargeback.consumer_id Chargeback.api_id Chargeback.plan_id
                             Chargeback.calls].
  repeat (split; [reflexivity|]).
  rewrite (usage_count_placed (db w) _ s start end_ place
             (mk_doc new_id (ingested utcnow evt))) by reflexivity.
  f_equal. apply billable_counts.
Qed.

Lemma ingest_usage_counts_witness :
  let now := Scenario.at_ 2024 1 31 23 59 59 999999 in
  let body := UsageEventIn.mk "a1" "c1" None None 200 (Some 0) (Some 0) in
  let lines d :=
    map (expected_line "2024-01" Scenario.january_start Scenario.january_end d)
        [Scenario.s_jan; Scenario.s_dangling; Scenario.s_at_end] in
  fst (ingest_usage now 3 "e10" body Scenario.w0) = Ok "e10"
  /\ exists paired,
       Permutation (lines (db (snd (ingest_usage now 3 "e10" body Scenario.w0)))) paired
       /\ Forall2 (fun l l1 =>
                     Chargeback.consumer_id l1 = Chargeback.consumer_id l
                     /\ Chargeback.api_id l1 = Chargeback.api_id l
                     /\ Chargeback.plan_id l1 = Chargeback.plan_id l
                     /\ Chargeback.calls l1
                        = Chargeback.calls l
                          + (if counts Scenario.january_start Scenario.january_end l
                                       (ingested now body) then 1 else 0))
                  (lines Scenario.store) paired.
Proof.
  cbv zeta.
  apply (ingest_usage_counts (Scenario.at_ 2024 1 31 23 59 59 999999) 3 "e10"
           (UsageEventIn.mk "a1" "c1" None None 200 (Some 0) (Some 0)) "2024-01"
           Scenario.january_start Scenario.january_end Scenario.w0
           (mk_chargeback "2024-01" _) (snd (chargeback_report "2024-01" Scenario.w0))
           (mk_chargeback "2024-01" _)
           (snd (chargeback_report "2024-01"
                   (snd (ingest_usage (Scenario.at_ 2024 1 31 23 59 59 999999) 3 "e10"
                           (UsageEventIn.mk "a1" "c1" None None 200 (Some 0) (Some 0))
                           Scenario.w0)))));
    reflexivity.
Defined.

(** ** Creating a subscription *)

Lemma create_subscription_world utcnow place new_id sub w :
  create_subscription utcnow place new_id sub w
  = (Ok new_id,
     mk_world (mk_db (apiservice (db w)) (plan (db w)) (consumer (db w))
                     (take place (subscription (db w))
                      ++ mk_doc new_id (subscribed utcnow sub)
                      :: drop place (subscription (db w)))
                     (usageevent (db w)))
              (calls w)).
Proof.
  unfold create_subscription, subscribed.
  destruct sub as [c a p [d|] st]; reflexivity.
Qed.

(** X25.  [create_subscription] stores the body, started at the moment of
    creation when the body has no [start_date] and kept to the millisecond,
    among the subscriptions there are, and returns its identifier.  The
    report of a period then has, besides the lines it had, the line of the
    new subscription exactly when it is active and what the store keeps of
    its start is no later than the end of the period; that line bills the
    full price of the plan for the usage of the whole period. *)
Theorem create_subscription_billed utcnow place new_id sub period start end_ w r w2 r1 w3 :
  int64_store (db w) = true ->
  month_bounds period = Ok (start, end_) ->
  chargeback_report period w = (Ok r, w2) ->
  chargeback_report period (snd (create_subscription utcnow place new_id sub w))
  = (Ok r1, w3) ->
  let stored := mk_doc new_id (subscribed utcnow sub) in
  fst (create_subscription utcnow place new_id sub w) = Ok new_id
  /\ Permutation (subscription (db (snd (create_subscription utcnow place new_id sub w))))
                 (stored :: subscription (db w))
  /\ Permutation (items r1)
                 (if String.eqb (Subscription.status sub) "active"
                     && DateTime.leb (bson_date (default utcnow (Subscription.start_date sub)))
                                     end_
                  then expected_line period start end_ (db w) stored :: items r
                  else items r).
Proof.
  intros Hst Hmb Hr Hr1. cbv zeta.
  rewrite create_subscription_world in *. cbn [fst snd] in *.
  split; [reflexivity|]. split; [apply placed_Permutation|].
  rewrite (chargeback_report_spec _ _ _ _ Hmb Hst) in Hr. inversion Hr; subst r.
  rewrite (chargeback_report_spec _ _ _ _ Hmb) in Hr1 by exact Hst.
  inversion Hr1; subst r1. cbn [items db]. unfold selected. cbn [subscription].
  rewrite placed_filter.
  rewrite <- (filter_take_drop (fun s => is_selected end_ s = true) (subscription (db w)) place).
  rewrite !map_app.
  change (is_selected end_ (mk_doc new_id (subscribed utcnow sub)))
    with (String.eqb (Subscription.status sub) "active"
          && DateTime.leb (bson_date (default utcnow (Subscription.start_date sub))) end_).
  destruct (decide _) as [Hs|Hs].
  - rewrite Hs. cbn [map app]. rewrite <- Permutation_middle. reflexivity.
  - apply not_true_is_false in Hs. rewrite Hs. reflexivity.
Qed.

Lemma create_subscription_billed_witness :
  let now := Scenario.at_ 2024 2 1 0 0 0 999 in
  let body := Subscription.mk "c1" "a2" "64b000000000000000000001" None "active" in
  let stored := mk_doc "s7" (subscribed now body) in
  let lines l :=
    map (expected_line "2024-01" Scenario.january_start Scenario.january_end
           Scenario.store) l in
  fst (create_subscription now 2 "s7" body Scenario.w0) = Ok "s7"
  /\ Permutation (subscription (db (snd (create_subscription now 2 "s7" body Scenario.w0))))
                 (stored :: subscription (db Scenario.w0))
  /\ Permutation
       (items (mk_chargeback "2024-01"
                 (lines [Scenario.s_jan; Scenario.s_dangling; stored; Scenario.s_at_end])))
       (if String.eqb (Subscription.status body) "active"
           && DateTime.leb (bson_date (default now (Subscription.start_date body)))
                           Scenario.january_end
        then expected_line "2024-01" Scenario.january_start Scenario.january_end
               (db Scenario.w0) stored
             :: items (mk_chargeback "2024-01"
                         (lines [Scenario.s_jan; Scenario.s_dangling; Scenario.s_at_end]))
        else items (mk_chargeback "2024-01"
                      (lines [Scenario.s_jan; Scenario.s_dangling; Scenario.s_at_end]))).
Proof.
  cbv zeta.
  apply (create_subscription_billed (Scenario.at_ 2024 2 1 0 0 0 999) 2 "s7"
           (Subscription.mk "c1" "a2" "64b000000000000000000001" None "active") "2024-01"
           Scenario.january_start Scenario.january_end Scenario.w0
           (mk_chargeback "2024-01" _) (snd (chargeback_report "2024-01" Scenario.w0))
           (mk_chargeback "2024-01" _)
           (snd (chargeback_report "2024-01"
                   (snd (create_subscription (Scenario.at_ 2024 2 1 0 0 0 999) 2 "s7"
                           (Subscription.mk "c1" "a2" "64b000000000000000000001" None "active")
                           Scenario.w0)))));
    reflexivity.
Defined.

(** ** Listing subscriptions *)

(** X26.  [list_subscriptions] reads the store and leaves it as found; it
    lists the subscriptions of the status asked for, all of them when none or
    the empty one is asked for; and the overview counts as
    [active_subscriptions] the subscriptions it lists for [active]. *)
Theorem list_subscriptions_filter status period w o w' :
  metrics_overview period w = (Ok o, w') ->
  exists l active,
    list_subscriptions status w = (Ok l, w)
    /\ (forall s, s ∈ l <->
          s ∈ subscription (db w)
          /\ (status = None \/ status = Some EmptyString
              \/ status = Some (Subscription.status (fields s))))
    /\ list_subscriptions (Some "active") w = (Ok active, w)
    /\ active_subscriptions o = Z.of_nat (length active).
Proof.
  intros Ho.
  assert (Hact : active_subscriptions o
                 = Z.of_nat (length (filter (fun s => subscription_matches active_only s = true)
                                            (subscription (db w))))).
  { destruct (overview_filter period) as [filt|e] eqn:E.
    - destruct (metrics_overview_ok period filt w E) as (rate & _ & H).
      rewrite H in Ho. inversion Ho. reflexivity.
    - rewrite (metrics_overview_raise _ _ _ E) in Ho. discriminate. }
  destruct status as [[|c st]|];
    (do 2 eexists; split; [reflexivity|]; split; [|split; [reflexivity|exact Hact]]);
    intros s; rewrite list_elem_of_filter.
  - intuition.
  - unfold subscription_matches, eq_or_any. cbn.
    rewrite andb_true_r, String.eqb_eq. split.
    + intros [H1 H2]. split; [exact H2|]. right; right. f_equal. symmetry. exact H1.
    + intros [H1 [H2|[H2|H2]]]; try discriminate. inversion H2. auto.
  - intuition.
Qed.

Lemma list_subscriptions_filter_witness :
  exists l active,
    list_subscriptions (Some "paused") Scenario.w0 = (Ok l, Scenario.w0)
    /\ l = [Scenario.s_paused]
    /\ list_subscriptions (Some "active") Scenario.w0 = (Ok active, Scenario.w0)
    /\ 5 = Z.of_nat (length active).
Proof.
  destruct (list_subscriptions_filter (Some "paused") (Some "2024-01") Scenario.w0
              (mk_overview 7 (Some (Float.of_decimal 625 10)) (Some (Float.of_decimal 5 7))
                           0 0 5)
              (snd (metrics_overview (Some "2024-01") Scenario.w0)) eq_refl)
    as (l & active & Hl & _ & Ha & Hn).
  exists l, active. split; [exact Hl|]. split; [|split; [exact Ha|exact Hn]].
  vm_compute in Hl. inversion Hl. reflexivity.
Defined.

(** ** Creating a plan *)

Lemma create_plan_world place new_id p w :
  create_plan place new_id p w
  = (Ok new_id,
     mk_world (mk_db (apiservice (db w))
                     (take place (plan (db w)) ++ mk_doc new_id p :: drop place (plan (db w)))
                     (consumer (db w)) (subscription (db w)) (usageevent (db w)))
              (calls w)).
Proof. reflexivity. Qed.

(** The terms of a subscription once a plan with a new identifier is
    stored. *)
Lemma plan_terms_placed d d' k new_id p s :
  Forall (fun x => _id x <> new_id) (plan d) ->
  plan d' = take k (plan d) ++ mk_doc new_id p :: drop k (plan d) ->
  plan_terms d' s
  = if String.eqb (Subscription.plan_id (fields s)) new_id then terms_of p
    else plan_terms d s.
Proof.
  intros Hnew Hl.
  assert (Hold : forall key,
             plans_by_id (plan d) !! key
             = match plans_by_id (drop k (plan d)) !! key with
               | Some q => Some q
               | None => plans_by_id (take k (plan d)) !! key
               end)
    by (intros key; rewrite <- plans_by_id_app, take_drop; reflexivity).
  unfold plan_terms. rewrite Hl, plans_by_id_middle, Hold. cbn [_id].
  rewrite <- (take_drop k (plan d)) in Hnew. apply Forall_app in Hnew as [Hnew1 Hnew2].
  destruct (String.eqb (Subscription.plan_id (fields s)) new_id) eqn:E.
  - apply String.eqb_eq in E. rewrite E, (plans_by_id_none _ _ Hnew2).
    destruct (decide (new_id = new_id)); [reflexivity|congruence].
  - apply String.eqb_neq in E. destruct (plans_by_id (drop k (plan d)) !! _); [reflexivity|].
    destruct (decide (new_id = _)); [congruence|reflexivity].
Qed.

(** X27.  [create_plan] stores the plan among the plans there are, under
    the identifier it returns, a new one: [list_plans] then lists it with
    the plans there were, and the next report bills under its terms the lines
    whose [plan_id] is that identifier and the others as before, in some
    order. *)
Theorem create_plan_prices place new_id p period w r w2 r1 w3 :
  Forall (fun x => _id x <> new_id) (plan (db w)) ->
  int64_store (db w) = true ->
  is_int64 (Plan.included_calls p) = true ->
  chargeback_report period w = (Ok r, w2) ->
  chargeback_report period (snd (create_plan place new_id p w)) = (Ok r1, w3) ->
  fst (create_plan place new_id p w) = Ok new_id
  /\ (exists l,
        fst (list_plans (snd (create_plan place new_id p w))) = Ok l
        /\ Permutation l (mk_doc new_id p :: plan (db w)))
  /\ Permutation (items r1)
                 (map (fun l => if String.eqb (Chargeback.plan_id l) new_id
                                then rebilled (terms_of p) l else l) (items r)).
Proof.
  intros Hnew Hst Hp Hr Hr1. rewrite create_plan_world in *. cbn [fst snd] in *.
  split; [reflexivity|]. split.
  - eexists. split; [reflexivity|]. cbn [db docs plan_table plan].
    rewrite filter_all by (intros x _; reflexivity). apply placed_Permutation.
  - destruct (chargeback_report_ok_bounds _ _ _ _ Hr) as (start & end_ & Hmb).
    rewrite (chargeback_report_spec _ _ _ _ Hmb Hst) in Hr. inversion Hr; subst r.
    rewrite (chargeback_report_spec _ _ _ _ Hmb) in Hr1.
    + inversion Hr1; subst r1. cbn [items db]. rewrite map_map.
      erewrite map_ext; [reflexivity|].
      intros s. unfold expected_line.
      rewrite (plan_terms_placed (db w)
                 (mk_db (apiservice (db w))
                        (take place (plan (db w)) ++ mk_doc new_id p :: drop place (plan (db w)))
                        (consumer (db w)) (subscription (db w)) (usageevent (db w)))
                 place new_id p s Hnew eq_refl).
      cbn [Chargeback.plan_id]. destruct (String.eqb _ new_id); reflexivity.
    + unfold int64_store in *. apply andb_true_iff in Hst as [Hn Hall].
      cbn [db plan usageevent].
      rewrite Hn, placed_forallb, Hall. cbn [fields]. rewrite Hp. reflexivity.
Qed.

Lemma create_plan_prices_witness :
  let body := Plan.mk "Basic" "basic" (Float.of_Z 10) 1 (Float.of_decimal 1 100) in
  let w1 := snd (create_plan 0 "64b0000000000000000000ff" body Scenario.w0) in
  let lines d :=
    map (expected_line "2024-01" Scenario.january_start Scenario.january_end d)
        [Scenario.s_jan; Scenario.s_dangling; Scenario.s_at_end] in
  fst (create_plan 0 "64b0000000000000000000ff" body Scenario.w0)
  = Ok "64b0000000000000000000ff"
  /\ (exists l,
        fst (list_plans w1) = Ok l
        /\ Permutation l (mk_doc "64b0000000000000000000ff" body :: plan (db Scenario.w0)))
  /\ Permutation
       (items (mk_chargeback "2024-01" (lines (db w1))))
       (map (fun l => if String.eqb (Chargeback.plan_id l) "64b0000000000000000000ff"
                      then rebilled (terms_of body) l else l)
            (items (mk_chargeback "2024-01" (lines Scenario.store)))).
Proof.
  cbv zeta.
  apply (create_plan_prices 0 "64b0000000000000000000ff"
           (Plan.mk "Basic" "basic" (Float.of_Z 10) 1 (Float.of_decimal 1 100)) "2024-01"
           Scenario.w0
           (mk_chargeback "2024-01" _) (snd (chargeback_report "2024-01" Scenario.w0))
           (mk_chargeback "2024-01" _)
           (snd (chargeback_report "2024-01"
                   (snd (create_plan 0 "64b0000000000000000000ff"
                           (Plan.mk "Basic" "basic" (Float.of_Z 10) 1 (Float.of_decimal 1 100))
                           Scenario.w0)))));
    try reflexivity.
  repeat constructor. discriminate.
Defined.
